(** * libfds: a flash data storage for the on-chip flash of a MCU

    Shallow embedding of [src/fds.cpp] (class [Fds]) together with the
    configuration of [src/fds/fds_config_template.h], and the properties of
    the record engine that were checked against it.

    Conventions.
    - Addresses, bytes and fixed-width integers are [Z]; the wrap-around of
      [uint16_t] arithmetic is written out with [u16].
    - The object state ([InitDone], [pRecords], [pWrite]) and the flash are
      threaded explicitly: a member function of type [T] becomes a function
      [Fds -> option (T * Fds)].  [None] stands for a call that does not
      return (the page scanner can loop forever on a record of span zero).
    - The board support package (flash driver, address arithmetic) and the
      CRC-8 primitive are not part of the library: they are the interface
      [Bsp] below, and every function is parametric in it. *)

From Stdlib Require Import ZArith List Bool Lia.
Import ListNotations.
Local Open Scope Z_scope.

(** ** Return codes ([fdsStatus_t], fds.hpp) *)

Inductive fdsStatus_t : Set :=
| FDS_OK
| FDS_ERR
| FDS_EREADY
| FDS_ESIZE
| FDS_EEINVAL
| FDS_EFLASH
| FDS_ECRC
| FDS_EDATA.

(** The code only ever compares a status with [FDS_OK]. *)
Definition is_ok (s : fdsStatus_t) : bool :=
  match s with FDS_OK => true | _ => false end.

(** Statuses that come out of the flash paths (scan, program, rotate). *)
Definition flash_path_status (r : fdsStatus_t) : bool :=
  match r with
  | FDS_OK | FDS_ERR | FDS_EFLASH | FDS_ECRC | FDS_EDATA => true
  | _ => false
  end.

(** Status of the flash driver; only [BSP_OK] is told apart by the library. *)
Inductive bspStatus_t : Set :=
| BSP_OK
| BSP_ERR.

(** ** Configuration (fds_config_template.h) and magics (fds.cpp) *)

Definition FDS_NUM_RECORDS : Z := 4.
Definition FDS_NUM_PAGES : Z := 4.
Definition FDS_MAX_DATABYTES : Z := 256.

Definition FDS_PAGEMAGIC : Z := 0xAA.
Definition FDS_DATAMAGIC : Z := 0x55.
Definition FDS_DELMAGIC : Z := 0x7E.

(** ** Memory *)

(** The address space as seen by the CPU: one byte per address. *)
Definition Mem : Type := Z -> Z.

Definition u8 (x : Z) : Z := x mod 256.
Definition u16 (x : Z) : Z := x mod 65536.

(** A byte load. *)
Definition rd8 (m : Mem) (a : Z) : Z := u8 (m a).

(** [siz] consecutive bytes starting at [a]. *)
Definition read_bytes (m : Mem) (a : Z) (siz : Z) : list Z :=
  map (fun i => rd8 m (a + Z.of_nat i)) (seq 0 (Z.to_nat siz)).

(** Packed little-endian structures of fds.hpp, read in place.
    [fdsPageHdr_t]: Magic(1) Id(2) Crc(1); [fdsDataHdr_t]: Magic(1) Uid(1)
    Siz(2), [Raw] the whole 32 bit word. *)
Definition pageHdr_Id (m : Mem) (p : Z) : Z :=
  rd8 m (p + 1) + 256 * rd8 m (p + 2).

Definition dataHdr_Magic (m : Mem) (p : Z) : Z := rd8 m p.
Definition dataHdr_Uid (m : Mem) (p : Z) : Z := rd8 m (p + 1).
Definition dataHdr_Siz (m : Mem) (p : Z) : Z :=
  rd8 m (p + 2) + 256 * rd8 m (p + 3).
Definition dataHdr_Raw (m : Mem) (p : Z) : Z :=
  rd8 m p + 256 * rd8 m (p + 1) + 65536 * rd8 m (p + 2)
  + 16777216 * rd8 m (p + 3).

(** Encoders for the same structures. *)
Definition pageHdr_bytes (id : Z) : list Z :=
  [FDS_PAGEMAGIC; u8 id; u8 (u16 id / 256)].

Definition dataHdr_bytes (magic uid siz : Z) : list Z :=
  [magic; u8 uid; u8 siz; u8 (u16 siz / 256)].

(** The [i]-th byte of a caller's buffer. *)
Definition buf_at (buf : list Z) (i : Z) : Z := u8 (nth (Z.to_nat i) buf 0).

(** The [pRecords] array: element access and assignment. *)
Definition rec_at (l : list Z) (i : Z) : Z := nth (Z.to_nat i) l 0.

Fixpoint upd_nth (l : list Z) (i : nat) (v : Z) : list Z :=
  match l, i with
  | [], _ => []
  | _ :: t, O => v :: t
  | h :: t, S i' => h :: upd_nth t i' v
  end.

Definition rec_set (l : list Z) (i : Z) (v : Z) : list Z :=
  upd_nth l (Z.to_nat i) v.

(** ** The platform interface *)

(** What the library consumes from [bsp/bsp_flash.h], [generic/generic.h]
    and [generic/crc8.hpp].  None of them is part of this library; they are
    parameters of the model.
    - [FLASH_BASE], [FLASH_PAGE_SIZE], [BSP_FLASH_NUMPAGES]: flash geometry;
    - [crc8_step c b]: the state of a [crc8] object after [calc(b)] in
      state [c] (a default-constructed object, like one assigned [0], is in
      state [0]);
    - [bspFlashProg m dest src]: programs the bytes [src] at [dest];
    - [bspFlashErasePage m addr]: erases the page at [addr].
    [bspFlashUnlock] and [bspFlashLock] have no effect on this state. *)
Class Bsp : Type := {
  FLASH_BASE : Z;
  FLASH_PAGE_SIZE : Z;
  BSP_FLASH_NUMPAGES : Z;
  crc8_step : Z -> Z -> Z;
  bspFlashProg : Mem -> Z -> list Z -> bspStatus_t * Mem;
  bspFlashErasePage : Mem -> Z -> Mem
}.

(** Calls made to the flash driver, oldest first. *)
Inductive FlashOp : Type :=
| OpErase (addr : Z)
| OpProg (addr : Z) (data : list Z).

(** ** The object state *)

Record Fds : Type := mkFds {
  InitDone : bool;
  pRecords : list Z;
  pWrite : Z;
  flash : Mem;
  flashOps : list FlashOp
}.

Definition set_InitDone (st : Fds) (b : bool) : Fds :=
  mkFds b (pRecords st) (pWrite st) (flash st) (flashOps st).
Definition set_pRecords (st : Fds) (l : list Z) : Fds :=
  mkFds (InitDone st) l (pWrite st) (flash st) (flashOps st).
Definition set_pWrite (st : Fds) (p : Z) : Fds :=
  mkFds (InitDone st) (pRecords st) p (flash st) (flashOps st).
Definition set_flash (st : Fds) (m : Mem) (op : FlashOp) : Fds :=
  mkFds (InitDone st) (pRecords st) (pWrite st) m (flashOps st ++ [op]).

(** A member function returning [A]. *)
Definition M (A : Type) : Type := Fds -> option (A * Fds).

Definition ret {A} (a : A) : M A := fun st => Some (a, st).

Definition bind {A B} (c : M A) (k : A -> M B) : M B :=
  fun st => match c st with
            | Some (a, st') => k a st'
            | None => None
            end.

Notation "x <- c ;; k" := (bind c (fun x => k))
  (at level 61, c at next level, right associativity).
Notation "c ;;; k" := (bind c (fun _ => k))
  (at level 61, right associativity).

Definition modify (f : Fds -> Fds) : M unit := fun st => Some (tt, f st).
Definition gets {A} (f : Fds -> A) : M A := fun st => Some (f st, st).

Section FdsModel.

Context `{Bsp}.

(** Modelled from the spec: the address arithmetic of the flash adapter
    ([BSP_FLASH_PAGETOADDR], [BSP_FLASH_ADDRTOPAGE] of bsp/bsp_flash.h), as
    page-to-base and base-to-page over pages of [FLASH_PAGE_SIZE] bytes
    starting at [FLASH_BASE]. *)
Definition BSP_FLASH_PAGETOADDR (page : Z) : Z :=
  FLASH_BASE + page * FLASH_PAGE_SIZE.

Definition BSP_FLASH_ADDRTOPAGE (addr : Z) : Z :=
  (addr - FLASH_BASE) / FLASH_PAGE_SIZE.

(** Modelled from the spec: [wrapInc] of generic/generic.h, the increment
    modulo [max] ("next_page = (current_page + 1) mod N", "wrap at 0xFFFF
    skipping the sentinel"). *)
Definition wrapInc (val inc max : Z) : Z := (val + inc) mod max.

Definition FDS_FIRSTFLASHPAGE : Z := BSP_FLASH_NUMPAGES - FDS_NUM_PAGES.

(** [crc8::calc(void*, size_t)]: feeds the bytes to an object in state [c]. *)
Definition crc8_calc (c : Z) (bytes : list Z) : Z :=
  fold_left crc8_step bytes c.

(** *** Fds::writeToFlash *)
Definition writeToFlash (data : list Z) (siz : Z) (checkCrc : bool)
  : M fdsStatus_t :=
  fun st =>
    let pStart := pWrite st in
    let src := firstn (Z.to_nat siz) data in
    let '(bspStatus, m') := bspFlashProg (flash st) (pWrite st) src in
    let st := set_flash st m' (OpProg (pWrite st) src) in
    match bspStatus with
    | BSP_OK =>
        let st := set_pWrite st (pWrite st + 2 * (siz / 2)) in
        if negb checkCrc then Some (FDS_OK, st)
        else if crc8_calc 0 (read_bytes (flash st) pStart siz) =? 0
             then Some (FDS_OK, st)
             else Some (FDS_ECRC, st)
    | _ => Some (FDS_EFLASH, st)
    end.

(** *** Fds::getPageid *)
Definition getPageid (m : Mem) (page : Z) : Z :=
  let page := u16 (page + FDS_FIRSTFLASHPAGE) in
  let pHdr := BSP_FLASH_PAGETOADDR page in
  if crc8_calc 0 (read_bytes m pHdr 4) =? 0
  then pageHdr_Id m pHdr
  else 0xFFFF.

(** *** Fds::writePageHdr *)
Definition writePageHdr (page uid : Z) : M fdsStatus_t :=
  let page := u16 (page + FDS_FIRSTFLASHPAGE) in
  modify (fun st => set_pWrite st (BSP_FLASH_PAGETOADDR page)) ;;;
  let pageHdr := pageHdr_bytes uid in
  let Crc := crc8_calc 0 pageHdr in
  writeToFlash (pageHdr ++ [Crc]) 4 true.

(** *** Fds::readPage *)

(** The number of bytes the scanner takes the record at [pData] to span:
    [siz = sizeof(fdsDataHdr_t) + pHdr->Siz + sizeof(fdsDataFtr_t)] in a
    [uint16_t], decremented when odd. *)
Definition readPage_siz (m : Mem) (pData : Z) : Z :=
  let siz := u16 (4 + dataHdr_Siz m pData + 2) in
  if negb (siz mod 2 =? 0) then u16 (siz - 1) else siz.

(** The [while] loop of [readPage] at position [pData], with the [crc8]
    object of the function in state [crc].  One unit of [fuel] is one
    evaluation of the loop condition. *)
Fixpoint readPage_loop (fuel : nat) (page : Z) (updateWritePointer : bool)
    (pData : Z) (crc : Z) (st : Fds) : option (fdsStatus_t * Fds) :=
  match fuel with
  | O => None
  | S fuel' =>
    if negb (BSP_FLASH_ADDRTOPAGE pData =? page) then Some (FDS_OK, st)
    else
      let m := flash st in
      let siz := readPage_siz m pData in
      if dataHdr_Uid m pData <? FDS_NUM_RECORDS then
        let crc := crc8_calc crc (read_bytes m pData siz) in
        if crc =? 0 then
          let st :=
            if dataHdr_Magic m pData =? FDS_DATAMAGIC then
              set_pRecords st
                (rec_set (pRecords st) (dataHdr_Uid m pData) pData)
            else if dataHdr_Magic m pData =? FDS_DELMAGIC then
              set_pRecords st
                (rec_set (pRecords st) (dataHdr_Uid m pData) 0)
            else st in
          readPage_loop fuel' page updateWritePointer (pData + siz) crc st
        else Some (FDS_ECRC, st)
      else if dataHdr_Raw m pData =? 0xFFFFFFFF then
        Some (FDS_OK,
              if updateWritePointer then set_pWrite st pData else st)
      else Some (FDS_EDATA, st)
  end.

(** Every iteration that continues moves [pData] forward by at least one
    16 bit word unless the span is zero, so a scan that returns does so
    within [FLASH_PAGE_SIZE] evaluations of the loop condition. *)
Definition readPage_fuel : nat := S (Z.to_nat FLASH_PAGE_SIZE).

Definition readPage (page : Z) (updateWritePointer : bool)
  : M fdsStatus_t :=
  fun st =>
    let page := u16 (page + FDS_FIRSTFLASHPAGE) in
    let pData := BSP_FLASH_PAGETOADDR page + 4 in
    readPage_loop readPage_fuel page updateWritePointer pData 0 st.

(** *** Fds::init and Fds::format *)

(** The pages of the region in the order of the [for] loops. *)
Definition fds_pages : list Z :=
  map Z.of_nat (seq 0 (Z.to_nat FDS_NUM_PAGES)).

(** The [for] loop of [init] over the remaining [pages]; the result is
    [retval] when the loop is left. *)
Fixpoint init_loop (pages : list Z) (updateWritePtr : bool) (st : Fds)
  : option (fdsStatus_t * Fds) :=
  match pages with
  | [] => Some (FDS_OK, st)
  | page :: rest =>
    let pageId := getPageid (flash st) page in
    let delta :=
      u16 (getPageid (flash st) (wrapInc page 1 FDS_NUM_PAGES) - pageId) in
    if pageId =? 0xFFFF then init_loop rest updateWritePtr st
    else if 0 <? delta then
      match readPage page updateWritePtr st with
      | None => None
      | Some (retval, st) =>
        let updateWritePtr := if 2 <? delta then false else true in
        if is_ok retval then init_loop rest updateWritePtr st
        else Some (retval, st)
      end
    else Some (FDS_ERR, st)
  end.

(** [memset(&pRecords, 0, sizeof(pRecords)); pWrite = 0;] *)
Definition init_clear (st : Fds) : Fds :=
  set_pWrite (set_pRecords st (repeat 0 (Z.to_nat FDS_NUM_RECORDS))) 0.

(** [init] calls [format], which calls [init(false)]; the recursion stops
    there, so [init] is written over the [format] it calls. *)
Definition init_with (format : M fdsStatus_t) (doReset : bool)
  : M fdsStatus_t :=
  initDone <- gets InitDone ;;
  retval <-
    (if negb initDone then
       modify init_clear ;;;
       init_loop fds_pages true
     else ret FDS_OK) ;;
  p <- gets pWrite ;;
  if negb (is_ok retval) || (p =? 0) then
    if doReset then format else ret retval
  else
    modify (fun st => set_InitDone st true) ;;;
    ret retval.

Definition erasePage (addr : Z) : M unit :=
  modify (fun st =>
    set_flash st (bspFlashErasePage (flash st) addr) (OpErase addr)).

Fixpoint format_loop (pages : list Z) : M unit :=
  match pages with
  | [] => ret tt
  | page :: rest =>
    erasePage (BSP_FLASH_PAGETOADDR (FDS_FIRSTFLASHPAGE + page)) ;;;
    format_loop rest
  end.

Definition format : M fdsStatus_t :=
  modify (fun st => set_InitDone st false) ;;;
  format_loop fds_pages ;;;
  retval <- writePageHdr 0 0 ;;
  if negb (is_ok retval) then ret retval
  else init_with (ret FDS_OK) false.

Definition init (doReset : bool) : M fdsStatus_t := init_with format doReset.

(** The lazy initialisation at the head of the public functions:
    [if (!InitDone) retval = init();] with [retval] preset to [FDS_OK]. *)
Definition lazy_init : M fdsStatus_t :=
  initDone <- gets InitDone ;;
  if negb initDone then init true else ret FDS_OK.

(** *** Fds::relocate *)
Definition relocate (uid : Z) : M fdsStatus_t :=
  recs <- gets pRecords ;;
  m <- gets flash ;;
  let siz := dataHdr_Siz m (rec_at recs uid) in
  let siz := if negb (siz mod 2 =? 0) then u16 (siz - 1) else siz in
  let siz := u16 (siz + 4 + 2) in
  retval <- writeToFlash (read_bytes m (rec_at recs uid) siz) siz true ;;
  if negb (is_ok retval) then ret retval
  else
    modify (fun st =>
      set_pRecords st (rec_set (pRecords st) uid (pWrite st))) ;;;
    ret retval.

(** *** Fds::switchPage *)

(** The relocation loop over the remaining ids [ns]. *)
Fixpoint switchPage_loop (ns : list Z) (dataId page : Z) (st : Fds)
  : option (fdsStatus_t * Fds) :=
  match ns with
  | [] => Some (FDS_OK, st)
  | n :: rest =>
    if (n =? dataId) || (rec_at (pRecords st) n =? 0) then
      switchPage_loop rest dataId page st
    else if page =? BSP_FLASH_ADDRTOPAGE (rec_at (pRecords st) n) then
      match relocate n st with
      | None => None
      | Some (retval, st) =>
        if is_ok retval then switchPage_loop rest dataId page st
        else Some (retval, st)
      end
    else switchPage_loop rest dataId page st
  end.

(** The ids in the order of the [for] loop of [switchPage]. *)
Definition fds_uids : list Z :=
  map Z.of_nat (seq 0 (Z.to_nat FDS_NUM_RECORDS)).

Definition switchPage (dataId : Z) : M fdsStatus_t :=
  p <- gets pWrite ;;
  m <- gets flash ;;
  let page := u16 (BSP_FLASH_ADDRTOPAGE p - FDS_FIRSTFLASHPAGE) in
  let pageId := u16 (wrapInc (getPageid m page) 1 0xFFFF) in
  let page := u16 (wrapInc page 1 FDS_NUM_PAGES) in
  if negb (getPageid m page =? 0xFFFF) then ret FDS_ERR
  else
    retval <- writePageHdr page pageId ;;
    if negb (is_ok retval) then ret retval
    else
      let page := u16 (wrapInc page 1 FDS_NUM_PAGES) in
      retval <- switchPage_loop fds_uids dataId page ;;
      erasePage (BSP_FLASH_PAGETOADDR (FDS_FIRSTFLASHPAGE + page)) ;;;
      ret retval.

(** The pages, relative to the region, that a rotation from the page of
    [p] involves: the next page, which takes the header, and the one after
    it, which is erased. *)
Definition next_page (p : Z) : Z :=
  u16 (wrapInc (u16 (BSP_FLASH_ADDRTOPAGE p - FDS_FIRSTFLASHPAGE))
         1 FDS_NUM_PAGES).

Definition victim_page (p : Z) : Z :=
  u16 (wrapInc (next_page p) 1 FDS_NUM_PAGES).

(** Every byte of device page [page] reads [0xFF]. *)
Definition page_reads_erased (m : Mem) (page : Z) : Prop :=
  forall a, BSP_FLASH_ADDRTOPAGE a = page -> rd8 m a = 0xFF.

(** *** Fds::write *)

(** The first [n] bytes of a caller's buffer. *)
Definition buf_bytes (buf : list Z) (n : Z) : list Z :=
  map (fun i => buf_at buf (Z.of_nat i)) (seq 0 (Z.to_nat n)).

Definition write (uid : Z) (pData : list Z) (numBytes : Z)
  : M fdsStatus_t :=
  pStart <- gets pWrite ;;
  if (numBytes =? 0) || (FDS_MAX_DATABYTES <? numBytes) then ret FDS_ESIZE
  else if FDS_NUM_RECORDS <=? uid then ret FDS_EEINVAL
  else
    retval <- lazy_init ;;
    if negb (is_ok retval) then ret retval
    else
      let hdr := dataHdr_bytes FDS_DATAMAGIC uid numBytes in
      let crc := crc8_calc 0 hdr in
      let '(numBytes, ftrData) :=
        if negb (numBytes mod 2 =? 0)
        then (numBytes - 1, buf_at pData (numBytes - 1))
        else (numBytes, 0) in
      let siz := (4 + numBytes + 2) / 2 in
      p <- gets pWrite ;;
      retval <-
        (if negb (BSP_FLASH_ADDRTOPAGE p
                  =? BSP_FLASH_ADDRTOPAGE (p + 2 * siz))
         then switchPage uid else ret FDS_OK) ;;
      if negb (is_ok retval) then ret retval
      else
        retval <-
          (retval <- writeToFlash hdr 4 false ;;
           if negb (is_ok retval) then ret retval
           else
             let data := buf_bytes pData numBytes in
             retval <-
               (if 0 <? numBytes then writeToFlash data numBytes false
                else ret retval) ;;
             if negb (is_ok retval) then ret retval
             else
               let crc :=
                 if 0 <? numBytes then crc8_calc crc data else crc in
               let ftrCrc := crc8_step crc ftrData in
               writeToFlash [ftrData; ftrCrc] 2 false) ;;
        if negb (is_ok retval) then ret FDS_EFLASH
        else
          m <- gets flash ;;
          if negb (crc8_calc 0 (read_bytes m pStart (siz * 2)) =? 0)
          then ret FDS_ECRC
          else
            modify (fun st =>
              set_pRecords st (rec_set (pRecords st) uid pStart)) ;;;
            ret FDS_OK.

(** *** Fds::read *)

(** [memcpy(dest, src, n)] on a destination buffer. *)
Definition memcpy (dest src : list Z) : list Z :=
  src ++ skipn (length src) dest.

Definition is_null {A} (p : option A) : bool :=
  match p with None => true | Some _ => false end.

(** The destination is [None] for a null pointer.  The result is the
    returned count with the destination after the call. *)
Definition read (uid : Z) (pData : option (list Z)) (siz : Z)
  : M (Z * option (list Z)) :=
  retval <- lazy_init ;;
  if negb (is_ok retval) then ret (0, pData)
  else if (FDS_NUM_RECORDS <=? uid) || is_null pData || (siz =? 0)
  then ret (0, pData)
  else
    recs <- gets pRecords ;;
    if rec_at recs uid =? 0 then ret (0, pData)
    else
      m <- gets flash ;;
      let pHdr := rec_at recs uid in
      let pFlash := pHdr + 4 in
      let siz := Z.min siz (dataHdr_Siz m pHdr) in
      ret (siz, option_map (fun buf => memcpy buf (read_bytes m pFlash siz))
                           pData).

(** *** Fds::del *)
Definition del (uid : Z) : M fdsStatus_t :=
  pStart <- gets pWrite ;;
  retval <- lazy_init ;;
  if negb (is_ok retval) then ret retval
  else if FDS_NUM_RECORDS <=? uid then ret FDS_EEINVAL
  else
    let hdr := dataHdr_bytes FDS_DELMAGIC uid 0 in
    let ftrData := 0 in
    let crc := crc8_calc 0 hdr in
    let ftrCrc := crc8_step crc ftrData in
    retval <-
      (retval <- writeToFlash hdr 4 false ;;
       if negb (is_ok retval) then ret retval
       else writeToFlash [ftrData; ftrCrc] 2 false) ;;
    if negb (is_ok retval) then ret retval
    else
      m <- gets flash ;;
      if negb (crc8_calc 0 (read_bytes m pStart (4 + 2)) =? 0)
      then ret FDS_ECRC
      else
        modify (fun st =>
          set_pRecords st (rec_set (pRecords st) uid 0)) ;;;
        ret FDS_OK.

(** *** Records as they lie in the flash *)

(** The number of payload bytes [write] programs between header and
    footer: [numBytes], less one when odd. *)
Definition payload_even (numBytes : Z) : Z :=
  if negb (numBytes mod 2 =? 0) then numBytes - 1 else numBytes.

(** The bytes of a whole record: header, payload, footer. *)
Definition record_span (numBytes : Z) : Z := 4 + payload_even numBytes + 2.

(** The record [write] programs for [uid] and the first [numBytes] bytes of
    [pData], in the order of the three program calls. *)
Definition record_image (uid : Z) (pData : list Z) (numBytes : Z)
  : list Z :=
  let hdr := dataHdr_bytes FDS_DATAMAGIC uid numBytes in
  let data := buf_bytes pData (payload_even numBytes) in
  let ftrData :=
    if negb (numBytes mod 2 =? 0) then buf_at pData (numBytes - 1) else 0 in
  hdr ++ data ++ [ftrData; crc8_step (crc8_calc 0 (hdr ++ data)) ftrData].

(** The record [del] programs for [uid]. *)
Definition del_image (uid : Z) : list Z :=
  let hdr := dataHdr_bytes FDS_DELMAGIC uid 0 in
  hdr ++ [0; crc8_step (crc8_calc 0 hdr) 0].

(** What the scanner does to the index at a record that passes its
    checks. *)
Definition apply_record (m : Mem) (pData : Z) (idx : list Z) : list Z :=
  if dataHdr_Magic m pData =? FDS_DATAMAGIC then
    rec_set idx (dataHdr_Uid m pData) pData
  else if dataHdr_Magic m pData =? FDS_DELMAGIC then
    rec_set idx (dataHdr_Uid m pData) 0
  else idx.

(** [scan_reaches m page p idx q idx']: the loop of [readPage] for [page],
    at position [p] with index [idx] and its [crc8] object in state [0],
    comes to position [q] with index [idx']: every record on the way lies
    in the page, has an [uid] below [FDS_NUM_RECORDS] and a span that moves
    the position and CRCs to zero. *)
Inductive scan_reaches (m : Mem) (page : Z)
  : Z -> list Z -> Z -> list Z -> Prop :=
| scan_here p idx : scan_reaches m page p idx p idx
| scan_step p idx q idx' :
    BSP_FLASH_ADDRTOPAGE p = page ->
    dataHdr_Uid m p < FDS_NUM_RECORDS ->
    0 < readPage_siz m p ->
    crc8_calc 0 (read_bytes m p (readPage_siz m p)) = 0 ->
    scan_reaches m page (p + readPage_siz m p) (apply_record m p idx)
      q idx' ->
    scan_reaches m page p idx q idx'.

(** No record header that the scan of page [rel] of the region comes to
    gives a span of zero. *)
Definition scan_spans_positive (m : Mem) (rel : Z) : Prop :=
  let page := u16 (rel + FDS_FIRSTFLASHPAGE) in
  forall idx q idx',
    scan_reaches m page (BSP_FLASH_PAGETOADDR page + 4) idx q idx' ->
    BSP_FLASH_ADDRTOPAGE q = page ->
    dataHdr_Uid m q < FDS_NUM_RECORDS ->
    readPage_siz m q <> 0.

(** [scans_to m page p idx q idx']: from position [p] with index [idx]
    the scanner of [page] walks over records that pass its checks, each
    of at least six bytes, up to position [q], where the index is
    [idx']. *)
Inductive scans_to (m : Mem) (page : Z)
  : Z -> list Z -> Z -> list Z -> Prop :=
| scans_done p idx : scans_to m page p idx p idx
| scans_next p idx q idx' :
    BSP_FLASH_ADDRTOPAGE p = page ->
    dataHdr_Uid m p < FDS_NUM_RECORDS ->
    6 <= readPage_siz m p ->
    crc8_calc 0 (read_bytes m p (readPage_siz m p)) = 0 ->
    scans_to m page (p + readPage_siz m p) (apply_record m p idx) q idx' ->
    scans_to m page p idx q idx'.

(** The device page and the base address of the first page of the
    region, as [readPage(0)] and [getPageid(0)] compute them. *)
Definition first_page : Z := u16 (0 + FDS_FIRSTFLASHPAGE).
Definition first_base : Z := BSP_FLASH_PAGETOADDR first_page.

(** A store that lives in the first page of the region, as [format]
    leaves it and as writes and deletes that find room keep it:
    initialised; page 0 carries sequence number 0 and the other pages
    none; the records from behind the page header up to the write pointer
    are what the index was built from; from the write pointer to the
    first bytes of the next page the flash is erased. *)
Record first_page_store (st : Fds) : Prop := {
  fps_init : InitDone st = true;
  fps_hdr : getPageid (flash st) 0 = 0;
  fps_spare : forall k, In k [1; 2; 3] -> getPageid (flash st) k = 0xFFFF;
  fps_chain :
    scans_to (flash st) first_page (first_base + 4)
      (repeat 0 (Z.to_nat FDS_NUM_RECORDS)) (pWrite st) (pRecords st);
  fps_in_page : BSP_FLASH_ADDRTOPAGE (pWrite st) = first_page;
  fps_tail : forall a,
    pWrite st <= a < first_base + FLASH_PAGE_SIZE + 4 ->
    rd8 (flash st) a = 0xFF
}.

(** A power cycle: the flash stays, the object is constructed anew with
    whatever the RAM holds in [pRecords]. *)
Definition reboot (st : Fds) (ram : list Z) : Fds :=
  mkFds false ram 0 (flash st) (flashOps st).

(** The number of bytes [relocate] copies for the record at [p]. *)
Definition relocate_siz (m : Mem) (p : Z) : Z :=
  let siz := dataHdr_Siz m p in
  let siz := if negb (siz mod 2 =? 0) then u16 (siz - 1) else siz in
  u16 (siz + 4 + 2).

End FdsModel.

(** ** A concrete platform

    The scenarios below run the model on a device with 128 pages of 1 KiB
    (the page size of the configuration example in fds_config_template.h),
    the library owning the last [FDS_NUM_PAGES] of them. *)

(** Modelled from the spec: the CRC-8 primitive of generic/crc8.hpp, "a
    single CRC-8 polynomial", "streaming".  The polynomial is
    x^8 + x^2 + x + 1, most significant bit first. *)
Definition crc8_shift (c : Z) : Z :=
  let s := u8 (Z.shiftl c 1) in
  if Z.testbit c 7 then Z.lxor s 0x07 else s.

Definition crc8_poly07 (c b : Z) : Z :=
  crc8_shift (crc8_shift (crc8_shift (crc8_shift
    (crc8_shift (crc8_shift (crc8_shift (crc8_shift
      (Z.lxor (u8 c) (u8 b))))))))).

Definition dev_base : Z := 0x08000000.
Definition dev_page_size : Z := 1024.
Definition dev_num_pages : Z := 128.

(** All [n] bytes from [a] on read as erased. *)
Definition erased_range (m : Mem) (a : Z) (n : nat) : bool :=
  forallb (fun i => rd8 m (a + Z.of_nat i) =? 0xFF) (seq 0 n).

(** [src] stored at [dest], whatever was there. *)
Definition poke (m : Mem) (dest : Z) (src : list Z) : Mem :=
  let hi := dest + Z.of_nat (length src) in
  fun a => if (dest <=? a) && (a <? hi)
           then nth (Z.to_nat (a - dest)) src 0 else m a.

(** Modelled from the spec: the flash adapter, "program a word-aligned
    buffer" under the constraint "erase-before-write": programming
    succeeds on erased cells and stores the buffer; on cells that are not
    erased it fails and stores nothing. *)
Definition nor_prog (m : Mem) (dest : Z) (src : list Z)
  : bspStatus_t * Mem :=
  if erased_range m dest (length src) then (BSP_OK, poke m dest src)
  else (BSP_ERR, m).

(** Modelled from the spec: the flash adapter, "erase page"; "an erased
    page reads as all-ones". *)
Definition nor_erase (m : Mem) (addr : Z) : Mem :=
  let page := (addr - dev_base) / dev_page_size in
  fun a => if (a - dev_base) / dev_page_size =? page then 0xFF else m a.

Definition dev : Bsp := {|
  FLASH_BASE := dev_base;
  FLASH_PAGE_SIZE := dev_page_size;
  BSP_FLASH_NUMPAGES := dev_num_pages;
  crc8_step := crc8_poly07;
  bspFlashProg := nor_prog;
  bspFlashErasePage := nor_erase
|}.

(** The operations [ops] run in order; the statuses of those that
    returned, and the final state when all did. *)
Fixpoint run_ops (ops : list (M fdsStatus_t)) (st : Fds)
  : list fdsStatus_t * option Fds :=
  match ops with
  | [] => ([], Some st)
  | op :: rest =>
    match op st with
    | None => ([], None)
    | Some (r, st') =>
      let '(rs, s) := run_ops rest st' in (r :: rs, s)
    end
  end.

(** The state [ops] lead to ([st] itself when one of them does not
    return). *)
Definition state_after (ops : list (M fdsStatus_t)) (st : Fds) : Fds :=
  match snd (run_ops ops st) with Some s => s | None => st end.

Section Scenarios.

#[local] Existing Instance dev.

(** A freshly constructed object ([InitDone(false)], [pWrite(0)]) over a
    blank device. *)
Definition blank : Fds := mkFds false [0; 0; 0; 0] 0 (fun _ => 0xFF) [].

(** The address of byte [off] of page [page] of the region. *)
Definition fds_addr (page off : Z) : Z :=
  BSP_FLASH_PAGETOADDR (FDS_FIRSTFLASHPAGE + page) + off.

Definition page_erased (m : Mem) (page : Z) : bool :=
  erased_range m (fds_addr page 0) (Z.to_nat FLASH_PAGE_SIZE).

Definition erased_pages (m : Mem) : list Z :=
  filter (page_erased m) fds_pages.

Definition zeros (n : nat) : list Z := repeat 0 n.

(** [format], then three records of [FDS_MAX_DATABYTES]: the next one of
    that size does not fit in page 0 any more. *)
Definition fill_ops : list (M fdsStatus_t) :=
  [format; write 0 (zeros 256) 256; write 0 (zeros 256) 256;
   write 0 (zeros 256) 256].

Definition st_formatted : Fds := state_after [format] blank.
Definition st_filled : Fds := state_after fill_ops blank.

(** A payload of 256 bytes, all zero but byte 19. *)
Definition crafted : list Z := zeros 19 ++ [206] ++ zeros 236.

(** [st_filled] after the write that rotates, with the plain and with the
    crafted payload. *)
Definition st_rotated : Fds :=
  state_after [write 0 (zeros 256) 256] st_filled.
Definition st_rotated_crafted : Fds :=
  state_after [write 0 crafted 256] st_filled.

(** [st_filled] after a record of 226 bytes: two bytes are left in page 0. *)
Definition st_tail2 : Fds := state_after [write 0 (zeros 226) 226] st_filled.

(** A page header as [writePageHdr] programs it. *)
Definition pageHdr_image (id : Z) : list Z :=
  pageHdr_bytes id ++ [crc8_calc 0 (pageHdr_bytes id)].

(** Page 0 carries sequence number 0 and nothing else; pages 1 and 2 both
    carry sequence number 5. *)
Definition equal_ids_flash : Mem :=
  poke (poke (poke (fun _ => 0xFF)
    (fds_addr 0 0) (pageHdr_image 0))
    (fds_addr 1 0) (pageHdr_image 5))
    (fds_addr 2 0) (pageHdr_image 5).




(** The first four bytes a [read] stored in its destination, with the
    returned count. *)
Definition read_head (r : option ((Z * option (list Z)) * Fds))
  : option (Z * option (list Z)) :=
  option_map (fun x => (fst (fst x), option_map (firstn 4) (snd (fst x)))) r.

(** Page 0 with a record header of [uid] 1 whose size field is
    [0xFFFA]. *)
Definition st_wrapped_size : Fds :=
  mkFds false [0; 0; 0; 0] 0
    (poke equal_ids_flash (fds_addr 0 4) [FDS_DATAMAGIC; 1; 0xFA; 0xFF]) [].

(** An initialised store with 24 bytes left in page 0 and a header on
    page 1. *)
Definition st_next_used : Fds :=
  mkFds true [0; 0; 0; 0] (fds_addr 0 1000) equal_ids_flash [].

(** The formatted store after a record of four bytes for [uid] 0 whose
    payload ends in [0xFA 0xFF]: read as a record header, the payload
    has [uid] 0 and a size field of [0xFFFA]. *)
Definition st_payload : Fds :=
  state_after [write 0 [0; 0; 0xFA; 0xFF] 4] st_formatted.

(** A freshly constructed object over a blank device whose memory below
    the flash reads as zero. *)
Definition st_fresh_zero : Fds :=
  mkFds false [0; 0; 0; 0] 0
    (fun a => if a <? FLASH_BASE then 0 else 0xFF) [].

End Scenarios.

(** * Facts about the model *)

Ltac inv H := inversion H; subst; clear H.

Lemma if_app {A B} (b : bool) (f g : A -> B) (x : A) :
  (if b then f else g) x = if b then f x else g x.
Proof. now destruct b. Qed.

Ltac norm :=
  repeat first
    [ progress cbv beta iota
    | progress cbn [negb is_ok]
    | rewrite if_app
    | match goal with
      | K : is_ok ?r = _ |- context [is_ok ?r] => rewrite K
      end ].

Ltac norm_in E :=
  repeat first
    [ progress cbv beta iota in E
    | progress cbn [negb is_ok] in E
    | rewrite if_app in E
    | match type of E with
      | context [is_ok ?r] =>
          match goal with K : is_ok r = _ |- _ => rewrite K in E end
      end ].

Ltac run_m :=
  unfold bind, ret, gets, modify, M in *; cbn beta iota in *.

Section FdsFacts.

Context `{Bsp}.

Lemma writeToFlash_cases data siz checkCrc st :
  exists r st',
    writeToFlash data siz checkCrc st = Some (r, st')
    /\ (r = FDS_OK \/ r = FDS_EFLASH \/ r = FDS_ECRC)
    /\ InitDone st' = InitDone st
    /\ pRecords st' = pRecords st.
Proof.
  unfold writeToFlash.
  destruct (bspFlashProg (flash st) (pWrite st) _) as [[|] m'];
    cbn [negb].
  - destruct checkCrc; cbn [negb].
    + destruct (_ =? 0); eauto 10.
    + eauto 10.
  - eauto 10.
Qed.

Lemma flash_path_status_of r :
  r = FDS_OK \/ r = FDS_EFLASH \/ r = FDS_ECRC -> flash_path_status r = true.
Proof. intros [-> | [-> | ->]]; reflexivity. Qed.

Lemma writePageHdr_cases page uid st :
  exists r st',
    writePageHdr page uid st = Some (r, st')
    /\ (r = FDS_OK \/ r = FDS_EFLASH \/ r = FDS_ECRC)
    /\ InitDone st' = InitDone st
    /\ pRecords st' = pRecords st.
Proof.
  unfold writePageHdr; run_m.
  match goal with
  | |- context [writeToFlash ?d ?s ?c ?x] =>
      destruct (writeToFlash_cases d s c x) as (r & st' & E & Hr & Hi & Hp)
  end.
  exists r, st'. rewrite E. auto.
Qed.

(** The scanner reads the flash and assigns [pRecords] and [pWrite] only. *)
Lemma readPage_loop_frame fuel : forall page upd pData crc st r st',
  readPage_loop fuel page upd pData crc st = Some (r, st') ->
  (r = FDS_OK \/ r = FDS_ECRC \/ r = FDS_EDATA)
  /\ InitDone st' = InitDone st
  /\ flash st' = flash st
  /\ flashOps st' = flashOps st.
Proof.
  induction fuel as [|fuel IH]; intros page upd pData crc st r st' E;
    [discriminate|].
  cbn [readPage_loop] in E.
  destruct (negb _) in E; [inv E; auto|].
  destruct (_ <? FDS_NUM_RECORDS) in E.
  - destruct (_ =? 0) in E; [|inv E; auto].
    apply IH in E. destruct E as (Hr & Hi & Hf & Ho).
    split; [exact Hr|].
    destruct (_ =? FDS_DATAMAGIC) in Hi, Hf, Ho;
      [|destruct (_ =? FDS_DELMAGIC) in Hi, Hf, Ho]; auto.
  - destruct (_ =? 0xFFFFFFFF) in E; inv E; [|auto].
    destruct upd; auto.
Qed.

Lemma readPage_frame page upd st r st' :
  readPage page upd st = Some (r, st') ->
  (r = FDS_OK \/ r = FDS_ECRC \/ r = FDS_EDATA)
  /\ InitDone st' = InitDone st
  /\ flash st' = flash st
  /\ flashOps st' = flashOps st.
Proof. unfold readPage. apply readPage_loop_frame. Qed.

Lemma init_loop_frame pages : forall upd st r st',
  init_loop pages upd st = Some (r, st') ->
  flash_path_status r = true
  /\ InitDone st' = InitDone st
  /\ flash st' = flash st
  /\ flashOps st' = flashOps st.
Proof.
  induction pages as [|page rest IH]; intros upd st r st' E;
    cbn [init_loop] in E.
  - inv E. auto.
  - destruct (_ =? 0xFFFF) in E; [eauto|].
    destruct (0 <? _) in E; [|inv E; auto].
    destruct (readPage page upd st) as [[r1 st1]|] eqn:R; [|discriminate].
    apply readPage_frame in R. destruct R as (Hr & Hi & Hf & Ho).
    destruct (is_ok r1) eqn:K.
    + apply IH in E. destruct E as (? & ? & ? & ?).
      repeat split; congruence.
    + inv E. repeat split; auto.
      destruct Hr as [-> | [-> | ->]]; reflexivity.
Qed.

Lemma init_with_status fmt doReset st r st' :
  (forall s r' s', fmt s = Some (r', s') -> flash_path_status r' = true) ->
  init_with fmt doReset st = Some (r, st') ->
  flash_path_status r = true.
Proof.
  intros Hfmt. unfold init_with; run_m.
  destruct (negb (InitDone st)).
  - destruct (init_loop _ _ _) as [[r1 st1]|] eqn:L; [|discriminate].
    apply init_loop_frame in L. destruct L as (Hr & _).
    destruct (negb (is_ok r1) || _).
    + destruct doReset; [apply Hfmt|]. intros E; inv E; exact Hr.
    + intros E; inv E; exact Hr.
  - cbn [is_ok negb orb].
    destruct (_ =? 0).
    + destruct doReset; [apply Hfmt|]. intros E; inv E; reflexivity.
    + intros E; inv E; reflexivity.
Qed.

Lemma format_status st r st' :
  format st = Some (r, st') -> flash_path_status r = true.
Proof.
  unfold format; run_m.
  destruct (format_loop fds_pages _) as [[[] st1]|]; [|discriminate].
  destruct (writePageHdr_cases 0 0 st1) as (r1 & st2 & E & Hr & _).
  rewrite E. destruct (negb (is_ok r1)).
  - intros E'; inv E'. now apply flash_path_status_of.
  - apply init_with_status. intros s r' s' E'; inv E'; reflexivity.
Qed.

Lemma init_status doReset st r st' :
  init doReset st = Some (r, st') -> flash_path_status r = true.
Proof. apply init_with_status. apply format_status. Qed.

Lemma lazy_init_status st r st' :
  lazy_init st = Some (r, st') -> flash_path_status r = true.
Proof.
  unfold lazy_init; run_m. destruct (negb (InitDone st)).
  - apply init_status.
  - intros E; inv E; reflexivity.
Qed.

(** On an initialised object the lazy initialisation is skipped. *)
Lemma lazy_init_done st :
  InitDone st = true -> lazy_init st = Some (FDS_OK, st).
Proof. intros E. unfold lazy_init; run_m. now rewrite E. Qed.

Lemma nth_upd_nth_other l : forall i j v,
  i <> j -> nth j (upd_nth l i v) 0 = nth j l 0.
Proof.
  induction l as [|h t IH]; intros [|i] [|j] v N; cbn; auto;
    try contradiction.
Qed.

Lemma rec_at_set_other l n u v :
  0 <= n -> 0 <= u -> n <> u -> rec_at (rec_set l n v) u = rec_at l u.
Proof.
  intros Hn Hu N. unfold rec_at, rec_set.
  apply nth_upd_nth_other. lia.
Qed.

Lemma relocate_cases n st :
  exists r st',
    relocate n st = Some (r, st')
    /\ (r = FDS_OK \/ r = FDS_EFLASH \/ r = FDS_ECRC)
    /\ InitDone st' = InitDone st
    /\ (forall u, 0 <= n -> 0 <= u -> n <> u ->
          rec_at (pRecords st') u = rec_at (pRecords st) u).
Proof.
  unfold relocate; run_m.
  match goal with
  | |- context [writeToFlash ?d ?s ?c ?x] =>
      destruct (writeToFlash_cases d s c x) as (r & st1 & E & Hr & Hi & Hp)
  end.
  rewrite E. destruct (negb (is_ok r)).
  - exists r, st1. repeat split; auto. intros. now rewrite Hp.
  - eexists _, _. split; [reflexivity|]. repeat split; auto.
    intros u Hn Hu N. cbn [pRecords set_pRecords].
    rewrite rec_at_set_other by assumption. now rewrite Hp.
Qed.

Lemma switchPage_loop_cases ns dataId page : forall st,
  exists r st',
    switchPage_loop ns dataId page st = Some (r, st')
    /\ (r = FDS_OK \/ r = FDS_EFLASH \/ r = FDS_ECRC)
    /\ InitDone st' = InitDone st
    /\ (Forall (fun n => 0 <= n) ns -> 0 <= dataId ->
        rec_at (pRecords st') dataId = rec_at (pRecords st) dataId).
Proof.
  induction ns as [|n ns IH]; intros st; cbn [switchPage_loop].
  - eauto 10.
  - assert (Hskip : exists r st',
      switchPage_loop ns dataId page st = Some (r, st')
      /\ (r = FDS_OK \/ r = FDS_EFLASH \/ r = FDS_ECRC)
      /\ InitDone st' = InitDone st
      /\ (Forall (fun n => 0 <= n) (n :: ns) -> 0 <= dataId ->
          rec_at (pRecords st') dataId = rec_at (pRecords st) dataId)).
    { destruct (IH st) as (r & st' & E & Hr & Hi & Hp).
      exists r, st'. repeat split; auto.
      intros F. inv F. auto. }
    destruct (n =? dataId) eqn:Nd; cbn [orb]; [exact Hskip|].
    destruct (_ =? 0); [exact Hskip|].
    destruct (page =? _); [|exact Hskip].
    clear Hskip.
    destruct (relocate_cases n st) as (r & st1 & E & Hr & Hi & Hp).
    rewrite E. apply Z.eqb_neq in Nd.
    destruct (is_ok r).
    + destruct (IH st1) as (r2 & st2 & E2 & Hr2 & Hi2 & Hp2).
      exists r2, st2. repeat split; auto; [congruence|].
      intros F Hd. inv F. rewrite Hp2, Hp by assumption. reflexivity.
    + exists r, st1. repeat split; auto.
      intros F Hd. inv F. auto.
Qed.

Lemma fds_uids_nonneg : Forall (fun n => 0 <= n) fds_uids.
Proof. unfold fds_uids. apply Forall_map, Forall_forall. intros; lia. Qed.

Lemma switchPage_cases dataId st :
  exists r st',
    switchPage dataId st = Some (r, st')
    /\ (r = FDS_OK \/ r = FDS_ERR \/ r = FDS_EFLASH \/ r = FDS_ECRC)
    /\ InitDone st' = InitDone st
    /\ (0 <= dataId ->
        rec_at (pRecords st') dataId = rec_at (pRecords st) dataId).
Proof.
  unfold switchPage; run_m.
  destruct (negb _); [eauto 10|].
  match goal with
  | |- context [writePageHdr ?p ?u ?x] =>
      destruct (writePageHdr_cases p u x) as (r & st1 & E & Hr & Hi & Hp)
  end.
  rewrite E. destruct (negb (is_ok r)).
  - exists r, st1. repeat split; auto; [tauto | congruence].
  - match goal with
    | |- context [switchPage_loop ?ns ?d ?p ?x] =>
        destruct (switchPage_loop_cases ns d p x)
          as (r2 & st2 & E2 & Hr2 & Hi2 & Hp2)
    end.
    rewrite E2. unfold erasePage; run_m.
    eexists _, _. split; [reflexivity|].
    cbn [InitDone pRecords set_flash]. repeat split; try congruence.
    + tauto.
    + intros Hd. rewrite Hp2 by auto using fds_uids_nonneg. congruence.
Qed.

(** The part of [write] behind the argument checks and the lazy
    initialisation: it returns, and [pRecords[uid]] is assigned on the
    [FDS_OK] path only. *)
Lemma write_after_init uid pData numBytes st st0 :
  (numBytes =? 0) || (FDS_MAX_DATABYTES <? numBytes) = false ->
  (FDS_NUM_RECORDS <=? uid) = false ->
  lazy_init st = Some (FDS_OK, st0) ->
  exists r st',
    write uid pData numBytes st = Some (r, st')
    /\ (r = FDS_OK \/ r = FDS_ERR \/ r = FDS_EFLASH \/ r = FDS_ECRC)
    /\ InitDone st' = InitDone st0
    /\ (0 <= uid -> r <> FDS_OK ->
        rec_at (pRecords st') uid = rec_at (pRecords st0) uid)
    /\ (r = FDS_OK ->
        exists l, pRecords st' = rec_set l uid (pWrite st)).
Proof.
  intros Hn Hu Hi. unfold write; run_m. rewrite Hn, Hu, Hi.
  cbn [is_ok negb].
  assert (Hnf : exists n' ftrData,
    (if negb (numBytes mod 2 =? 0)
     then (numBytes - 1, buf_at pData (numBytes - 1))
     else (numBytes, 0)) = (n', ftrData)).
  { destruct (negb _); eauto. }
  destruct Hnf as (n' & ftrData & ->). cbv beta iota zeta.
  destruct (switchPage_cases uid st0) as (r1 & st1 & E1 & Hr1 & Hi1 & Hp1).
  assert (Hsw : exists r1 st1,
    (if negb (BSP_FLASH_ADDRTOPAGE (pWrite st0)
              =? BSP_FLASH_ADDRTOPAGE (pWrite st0 + 2 * ((4 + n' + 2) / 2)))
     then switchPage uid st0 else Some (FDS_OK, st0)) = Some (r1, st1)
    /\ (r1 = FDS_OK \/ r1 = FDS_ERR \/ r1 = FDS_EFLASH \/ r1 = FDS_ECRC)
    /\ InitDone st1 = InitDone st0
    /\ (0 <= uid -> rec_at (pRecords st1) uid = rec_at (pRecords st0) uid)).
  { destruct (negb (BSP_FLASH_ADDRTOPAGE _ =? _)).
    - exists r1, st1. repeat split; auto.
    - exists FDS_OK, st0. repeat split; auto. }
  clear r1 st1 E1 Hr1 Hi1 Hp1.
  destruct Hsw as (r1 & st1 & E1 & Hr1 & Hi1 & Hp1).
  rewrite if_app, E1.
  destruct (is_ok r1) eqn:K1; norm.
  2:{ exists r1, st1. repeat split; auto.
      intros ->. discriminate K1. }
  destruct (writeToFlash_cases
              (dataHdr_bytes FDS_DATAMAGIC uid numBytes) 4 false st1)
    as (r2 & st2 & E2 & Hr2 & Hi2 & Hp2).
  rewrite E2.
  destruct (is_ok r2) eqn:K2; norm.
  2:{ exists FDS_EFLASH, st2. repeat split; auto; try congruence.
      intros. rewrite Hp2. auto. }
  assert (Hdat : exists r3 st3,
    (if 0 <? n' then writeToFlash (buf_bytes pData n') n' false st2
     else Some (r2, st2)) = Some (r3, st3)
    /\ InitDone st3 = InitDone st2 /\ pRecords st3 = pRecords st2).
  { destruct (0 <? n').
    - destruct (writeToFlash_cases (buf_bytes pData n') n' false st2)
        as (r3 & st3 & E3 & _ & Hi3 & Hp3). eauto.
    - eauto. }
  destruct Hdat as (r3 & st3 & E3 & Hi3 & Hp3). rewrite E3.
  destruct (is_ok r3) eqn:K3; norm.
  2:{ exists FDS_EFLASH, st3. repeat split; auto; try congruence.
      intros. rewrite Hp3, Hp2. auto. }
  match goal with
  | |- context [writeToFlash ?d 2 false st3] =>
      destruct (writeToFlash_cases d 2 false st3)
        as (r4 & st4 & E4 & _ & Hi4 & Hp4)
  end.
  rewrite E4.
  destruct (is_ok r4) eqn:K4; norm.
  2:{ exists FDS_EFLASH, st4. repeat split; auto; try congruence.
      intros. rewrite Hp4, Hp3, Hp2. auto. }
  destruct (negb (_ =? 0)).
  - exists FDS_ECRC, st4. repeat split; auto; try congruence.
    intros. rewrite Hp4, Hp3, Hp2. auto.
  - eexists _, _. split; [reflexivity|].
    cbn [InitDone pRecords set_pRecords].
    repeat split; auto; try congruence. eauto.
Qed.

Lemma write_init_result uid pData numBytes st :
  (numBytes =? 0) || (FDS_MAX_DATABYTES <? numBytes) = false ->
  (FDS_NUM_RECORDS <=? uid) = false ->
  match lazy_init st with
  | None => write uid pData numBytes st = None
  | Some (r0, st0) =>
      is_ok r0 = false -> write uid pData numBytes st = Some (r0, st0)
  end.
Proof.
  intros Hn Hu. unfold write; run_m. rewrite Hn, Hu.
  destruct (lazy_init st) as [[r0 st0]|]; [|reflexivity].
  intros K. now norm.
Qed.

(** The index entry a successful [write] stores is the write pointer of
    the moment of the call, also when the lazy initialisation or the page
    rotation has moved the write pointer before the record was
    programmed. *)
Lemma write_ok_entry_is_entry_pWrite uid pData numBytes st st' :
  write uid pData numBytes st = Some (FDS_OK, st') ->
  exists l, pRecords st' = rec_set l uid (pWrite st).
Proof.
  intros E.
  destruct ((numBytes =? 0) || (FDS_MAX_DATABYTES <? numBytes)) eqn:Hn.
  { unfold write in E; run_m. rewrite Hn in E. discriminate. }
  destruct (FDS_NUM_RECORDS <=? uid) eqn:Hu.
  { unfold write in E; run_m. rewrite Hn, Hu in E. discriminate. }
  pose proof (write_init_result uid pData numBytes st Hn Hu) as Hf.
  destruct (lazy_init st) as [[r0 st0]|] eqn:L; [|congruence].
  destruct (is_ok r0) eqn:K.
  - destruct r0; try discriminate.
    destruct (write_after_init uid pData numBytes st st0 Hn Hu L)
      as (r & s & E' & _ & _ & _ & Hok).
    rewrite E in E'. inv E'. auto.
  - rewrite Hf in E by reflexivity. inv E. discriminate K.
Qed.

(** The index entry [relocate] stores is the write pointer behind the
    copy it has just programmed. *)
Lemma relocate_ok_entry_is_end_of_copy n st st' :
  relocate n st = Some (FDS_OK, st') ->
  exists l, pRecords st' = rec_set l n (pWrite st')
            /\ exists siz, pWrite st' = pWrite st + 2 * (siz / 2).
Proof.
  unfold relocate; run_m.
  unfold writeToFlash.
  destruct (bspFlashProg _ _ _) as [[|] m']; cbn [negb].
  - destruct (_ =? 0); norm; intros E; inv E.
    eexists. split; [reflexivity|]. eexists. reflexivity.
  - norm. intros E; inv E.
Qed.

(** [del] behind the lazy initialisation and the check of [uid]. *)
Lemma del_after_init uid st st0 :
  (FDS_NUM_RECORDS <=? uid) = false ->
  lazy_init st = Some (FDS_OK, st0) ->
  exists r st',
    del uid st = Some (r, st')
    /\ (r = FDS_OK \/ r = FDS_EFLASH \/ r = FDS_ECRC)
    /\ InitDone st' = InitDone st0
    /\ (r <> FDS_OK -> pRecords st' = pRecords st0).
Proof.
  intros Hu Hi. unfold del; run_m. rewrite Hi. norm. rewrite Hu.
  destruct (writeToFlash_cases (dataHdr_bytes FDS_DELMAGIC uid 0) 4 false st0)
    as (r2 & st2 & E2 & Hr2 & Hi2 & Hp2).
  rewrite E2.
  destruct (is_ok r2) eqn:K2; norm.
  2:{ exists r2, st2. repeat split; auto. }
  match goal with
  | |- context [writeToFlash ?d 2 false st2] =>
      destruct (writeToFlash_cases d 2 false st2)
        as (r4 & st4 & E4 & Hr4 & Hi4 & Hp4)
  end.
  rewrite E4.
  destruct (is_ok r4) eqn:K4; norm.
  2:{ exists r4, st4. repeat split; auto; congruence. }
  destruct (negb (_ =? 0)).
  - exists FDS_ECRC, st4. repeat split; auto; congruence.
  - eexists _, _. split; [reflexivity|].
    cbn [InitDone set_pRecords]. repeat split; auto; congruence.
Qed.

(** ** Argument checks of [write] *)

(** C7. [write] returns [FDS_ESIZE] exactly when [numBytes] is [0] or
    exceeds [FDS_MAX_DATABYTES]; for [numBytes] in range it returns
    [FDS_EEINVAL] when [uid >= FDS_NUM_RECORDS].  Both rejections come
    before the lazy initialisation and before any flash access: the object
    and the flash are left exactly as they were. *)
Theorem write_rejects_bad_arguments (uid : Z) (pData : list Z)
    (numBytes : Z) (st : Fds) :
  (numBytes = 0 \/ FDS_MAX_DATABYTES < numBytes ->
     write uid pData numBytes st = Some (FDS_ESIZE, st))
  /\ (forall st', write uid pData numBytes st = Some (FDS_ESIZE, st') ->
        numBytes = 0 \/ FDS_MAX_DATABYTES < numBytes)
  /\ (0 < numBytes <= FDS_MAX_DATABYTES -> FDS_NUM_RECORDS <= uid ->
        write uid pData numBytes st = Some (FDS_EEINVAL, st)).
Proof.
  split; [|split].
  - intros Hn. unfold write; run_m.
    replace ((numBytes =? 0) || (FDS_MAX_DATABYTES <? numBytes)) with true;
      [reflexivity|].
    symmetry. apply orb_true_iff. rewrite Z.eqb_eq, Z.ltb_lt. exact Hn.
  - intros st' E.
    destruct ((numBytes =? 0) || (FDS_MAX_DATABYTES <? numBytes)) eqn:Hn.
    { apply orb_true_iff in Hn. now rewrite Z.eqb_eq, Z.ltb_lt in Hn. }
    exfalso.
    destruct (FDS_NUM_RECORDS <=? uid) eqn:Hu.
    { unfold write in E; run_m. rewrite Hn, Hu in E. discriminate. }
    pose proof (write_init_result uid pData numBytes st Hn Hu) as Hf.
    destruct (lazy_init st) as [[r0 st0]|] eqn:L; [|congruence].
    apply lazy_init_status in L as S0.
    destruct (is_ok r0) eqn:K.
    + destruct r0; try discriminate.
      destruct (write_after_init uid pData numBytes st st0 Hn Hu L)
        as (r & s & E' & Hr & _).
      rewrite E in E'. inv E'.
      destruct Hr as [Hr | [Hr | [Hr | Hr]]]; discriminate.
    + rewrite Hf in E by reflexivity. inv E. discriminate.
  - intros Hn Hu. unfold write; run_m.
    replace ((numBytes =? 0) || (FDS_MAX_DATABYTES <? numBytes)) with false.
    2:{ symmetry. apply orb_false_iff. rewrite Z.eqb_neq, Z.ltb_ge. lia. }
    replace (FDS_NUM_RECORDS <=? uid) with true; [reflexivity|].
    symmetry. now apply Z.leb_le.
Qed.

(** ** The index entry on the failure paths *)

(** C10. On an initialised store [write] and [del] return, and whenever
    the status is not [FDS_OK] the index entry [pRecords[uid]] is the one
    from before the call. *)
Theorem index_entry_kept_on_failure (uid : Z) (pData : list Z)
    (numBytes : Z) (st : Fds) :
  InitDone st = true ->
  0 <= uid < 256 ->
  (exists r st',
     write uid pData numBytes st = Some (r, st')
     /\ (r <> FDS_OK ->
         rec_at (pRecords st') uid = rec_at (pRecords st) uid))
  /\ (exists r st',
       del uid st = Some (r, st')
       /\ (r <> FDS_OK ->
           rec_at (pRecords st') uid = rec_at (pRecords st) uid)).
Proof.
  intros Hi Hu. pose proof (lazy_init_done st Hi) as L. split.
  - destruct ((numBytes =? 0) || (FDS_MAX_DATABYTES <? numBytes)) eqn:Hn.
    { exists FDS_ESIZE, st. split; [|reflexivity].
      unfold write; run_m. now rewrite Hn. }
    destruct (FDS_NUM_RECORDS <=? uid) eqn:Hr.
    { exists FDS_EEINVAL, st. split; [|reflexivity].
      unfold write; run_m. now rewrite Hn, Hr. }
    destruct (write_after_init uid pData numBytes st st Hn Hr L)
      as (r & st' & E & _ & _ & Hp & _).
    exists r, st'. split; [exact E|]. intros N. apply Hp; [lia | exact N].
  - destruct (FDS_NUM_RECORDS <=? uid) eqn:Hr.
    { exists FDS_EEINVAL, st. split; [|reflexivity].
      unfold del; run_m. rewrite L. norm. now rewrite Hr. }
    destruct (del_after_init uid st st Hr L) as (r & st' & E & _ & _ & Hp).
    exists r, st'. split; [exact E|]. intros N. now rewrite Hp.
Qed.

(** ** [del] with an [uid] out of range *)

(** C5 (amended). For [uid >= FDS_NUM_RECORDS], [del] on an initialised
    store returns [FDS_EEINVAL] and leaves the object and the flash as they
    were.  On a store that is not initialised the lazy initialisation runs
    first: [del] returns its error when it fails and [FDS_EEINVAL]
    otherwise, in the state the initialisation left. *)
Theorem del_rejects_bad_uid (uid : Z) (st : Fds) :
  FDS_NUM_RECORDS <= uid ->
  (InitDone st = true -> del uid st = Some (FDS_EEINVAL, st))
  /\ del uid st =
     match lazy_init st with
     | Some (retval, st1) =>
         Some (if is_ok retval then FDS_EEINVAL else retval, st1)
     | None => None
     end.
Proof.
  intros Hu. apply Z.leb_le in Hu.
  assert (G : del uid st =
     match lazy_init st with
     | Some (retval, st1) =>
         Some (if is_ok retval then FDS_EEINVAL else retval, st1)
     | None => None
     end).
  { unfold del; run_m.
    destruct (lazy_init st) as [[r0 st0]|]; [|reflexivity].
    destruct (is_ok r0) eqn:K; norm; [now rewrite Hu | reflexivity]. }
  split; [|exact G].
  intros Hi. rewrite G, (lazy_init_done st Hi). reflexivity.
Qed.

(** ** What [read] returns *)


(** [read] of an indexed record on an initialised store. *)
Lemma read_indexed (uid : Z) (buf : list Z) (siz : Z) (st : Fds) :
  InitDone st = true ->
  uid < FDS_NUM_RECORDS -> siz <> 0 -> rec_at (pRecords st) uid <> 0 ->
  let pHdr := rec_at (pRecords st) uid in
  let n := Z.min siz (dataHdr_Siz (flash st) pHdr) in
  read uid (Some buf) siz st
  = Some ((n, Some (memcpy buf (read_bytes (flash st) (pHdr + 4) n))), st).
Proof.
  intros Hi Hu Hs Hr. unfold read; run_m.
  rewrite (lazy_init_done st Hi). norm.
  replace (FDS_NUM_RECORDS <=? uid) with false
    by (symmetry; now apply Z.leb_gt).
  replace (siz =? 0) with false by (symmetry; now apply Z.eqb_neq).
  cbn [orb is_null].
  replace (rec_at (pRecords st) uid =? 0) with false
    by (symmetry; now apply Z.eqb_neq).
  reflexivity.
Qed.

(** ** Termination of the scan *)

Lemma addr_in_page pData page :
  0 < FLASH_PAGE_SIZE ->
  BSP_FLASH_ADDRTOPAGE pData = page ->
  pData < BSP_FLASH_PAGETOADDR (page + 1).
Proof.
  unfold BSP_FLASH_ADDRTOPAGE, BSP_FLASH_PAGETOADDR. intros Hs <-.
  pose proof (Z.mul_succ_div_gt (pData - FLASH_BASE) FLASH_PAGE_SIZE Hs).
  lia.
Qed.

Lemma readPage_siz_nonneg m pData : 0 <= readPage_siz m pData.
Proof.
  unfold readPage_siz, u16.
  destruct (negb _); apply Z.mod_pos_bound; lia.
Qed.

Lemma set_pRecords_same st : set_pRecords st (pRecords st) = st.
Proof. destruct st; reflexivity. Qed.

(** One record further in the scan. *)
Lemma readPage_loop_step fuel page upd p st :
  BSP_FLASH_ADDRTOPAGE p = page ->
  dataHdr_Uid (flash st) p < FDS_NUM_RECORDS ->
  crc8_calc 0 (read_bytes (flash st) p (readPage_siz (flash st) p)) = 0 ->
  readPage_loop (S fuel) page upd p 0 st
  = readPage_loop fuel page upd (p + readPage_siz (flash st) p) 0
      (set_pRecords st (apply_record (flash st) p (pRecords st))).
Proof.
  intros Hp Hu Hc. cbn [readPage_loop].
  apply Z.eqb_eq in Hp. rewrite Hp. cbn [negb].
  apply Z.ltb_lt in Hu. rewrite Hu, Hc. cbn [Z.eqb].
  unfold apply_record.
  destruct (dataHdr_Magic _ _ =? FDS_DATAMAGIC); [reflexivity|].
  destruct (dataHdr_Magic _ _ =? FDS_DELMAGIC); [reflexivity|].
  now rewrite set_pRecords_same.
Qed.


(** The positions the scan comes to do not depend on the index it
    starts with. *)
Lemma scan_reaches_index m page p idx q idx' :
  scan_reaches m page p idx q idx' ->
  forall idx2, exists idx2', scan_reaches m page p idx2 q idx2'.
Proof.
  induction 1 as [p idx | p idx q idx' Hp Hu Hs Hc C IH]; intros idx2.
  - exists idx2. constructor.
  - destruct (IH (apply_record m p idx2)) as (idx2' & C2).
    exists idx2'. now apply scan_step.
Qed.


(** The loop returns once the fuel exceeds the bytes left in the page,
    provided no record header the scan comes to gives a span of zero (a
    record of span zero with a valid CRC is scanned again and again). *)
Lemma readPage_loop_returns page upd fuel : forall pData st,
  0 < FLASH_PAGE_SIZE ->
  (forall idx q idx',
     scan_reaches (flash st) page pData idx q idx' ->
     BSP_FLASH_ADDRTOPAGE q = page ->
     dataHdr_Uid (flash st) q < FDS_NUM_RECORDS ->
     readPage_siz (flash st) q <> 0) ->
  (Z.to_nat (BSP_FLASH_PAGETOADDR (page + 1) - pData) < fuel)%nat ->
  exists r st', readPage_loop fuel page upd pData 0 st = Some (r, st').
Proof.
  induction fuel as [|fuel IH]; intros pData st Hs Hz Hf; [lia|].
  destruct (BSP_FLASH_ADDRTOPAGE pData =? page) eqn:Hp;
    [|cbn [readPage_loop]; rewrite Hp; cbn [negb]; eauto].
  apply Z.eqb_eq in Hp.
  destruct (dataHdr_Uid (flash st) pData <? FDS_NUM_RECORDS) eqn:Hu.
  - apply Z.ltb_lt in Hu.
    destruct (crc8_calc 0 (read_bytes (flash st) pData
                             (readPage_siz (flash st) pData)) =? 0)
      eqn:Hc.
    + apply Z.eqb_eq in Hc. rewrite (readPage_loop_step _ _ _ _ _ Hp Hu Hc).
      pose proof (readPage_siz_nonneg (flash st) pData) as Hn.
      pose proof (Hz (pRecords st) pData (pRecords st)
                    (scan_here _ _ _ _) Hp Hu) as Hz'.
      pose proof (addr_in_page _ _ Hs Hp) as Hb.
      apply IH; [exact Hs | | lia].
      cbn [flash set_pRecords]. intros idx q idx' C Hq Huq.
      destruct (scan_reaches_index _ _ _ _ _ _ C
                  (apply_record (flash st) pData (pRecords st)))
        as (idx2' & C2).
      apply (Hz (pRecords st) q idx2'); [|exact Hq | exact Huq].
      apply scan_step; auto. lia.
    + cbn [readPage_loop]. apply Z.eqb_eq in Hp. rewrite Hp. cbn [negb].
      apply Z.ltb_lt in Hu. rewrite Hu, Hc. eauto.
  - cbn [readPage_loop]. apply Z.eqb_eq in Hp. rewrite Hp, Hu. cbn [negb].
    destruct (_ =? 0xFFFFFFFF); eauto.
Qed.

Lemma readPage_returns page upd st :
  0 < FLASH_PAGE_SIZE ->
  scan_spans_positive (flash st) page ->
  exists r st', readPage page upd st = Some (r, st').
Proof.
  intros Hs Hz. unfold readPage. apply readPage_loop_returns; auto.
  unfold readPage_fuel, BSP_FLASH_PAGETOADDR. nia.
Qed.

Lemma init_loop_returns pages : forall upd st,
  0 < FLASH_PAGE_SIZE ->
  (forall rel, In rel pages -> getPageid (flash st) rel <> 0xFFFF ->
               scan_spans_positive (flash st) rel) ->
  exists r st', init_loop pages upd st = Some (r, st').
Proof.
  induction pages as [|p pages IH]; intros upd st Hs Hz; cbn [init_loop];
    [eauto|].
  destruct (getPageid (flash st) p =? 0xFFFF) eqn:Hid.
  - apply IH; [exact Hs|]. intros rel Hin. apply Hz. now right.
  - apply Z.eqb_neq in Hid.
    destruct (0 <? _); [|eauto].
    destruct (readPage_returns p upd st Hs (Hz p (or_introl eq_refl) Hid))
      as (r & st1 & E).
    rewrite E. apply readPage_frame in E. destruct E as (_ & _ & Hf & _).
    destruct (is_ok r); [|eauto].
    apply IH; [exact Hs|]. rewrite Hf. intros rel Hin. apply Hz. now right.
Qed.

(** Conversely, at a valid record of span zero the loop runs out of any
    fuel: the position does not move and the check passes again. *)
Lemma readPage_loop_zero_span fuel : forall page upd pData st,
  BSP_FLASH_ADDRTOPAGE pData = page ->
  dataHdr_Uid (flash st) pData < FDS_NUM_RECORDS ->
  readPage_siz (flash st) pData = 0 ->
  readPage_loop fuel page upd pData 0 st = None.
Proof.
  induction fuel as [|fuel IH]; intros page upd pData st Hp Hu Hz;
    [reflexivity|].
  cbn [readPage_loop].
  replace (BSP_FLASH_ADDRTOPAGE pData =? page) with true
    by (symmetry; now apply Z.eqb_eq).
  replace (dataHdr_Uid (flash st) pData <? FDS_NUM_RECORDS) with true
    by (symmetry; now apply Z.ltb_lt).
  rewrite Hz, Z.add_0_r. cbn [negb Z.to_nat read_bytes seq map crc8_calc
                               fold_left Z.eqb].
  apply IH; auto;
    destruct (_ =? FDS_DATAMAGIC); try destruct (_ =? FDS_DELMAGIC);
    assumption.
Qed.

(** ** The page scanner at a candidate header *)

(** A position the scanner continues from is left with the [crc8] object
    back in state [0], the state it has at the first position. *)
Lemma readPage_loop_continue fuel page upd pData st :
  BSP_FLASH_ADDRTOPAGE pData = page ->
  dataHdr_Uid (flash st) pData < FDS_NUM_RECORDS ->
  crc8_calc 0 (read_bytes (flash st) pData (readPage_siz (flash st) pData))
  = 0 ->
  exists st',
    readPage_loop (S fuel) page upd pData 0 st
    = readPage_loop fuel page upd
        (pData + readPage_siz (flash st) pData) 0 st'
    /\ flash st' = flash st.
Proof.
  intros Hp Hu Hc. cbn [readPage_loop].
  apply Z.eqb_eq in Hp. rewrite Hp. cbn [negb].
  apply Z.ltb_lt in Hu. rewrite Hu, Hc. cbn [Z.eqb].
  eexists. split; [reflexivity|].
  destruct (_ =? FDS_DATAMAGIC); [|destruct (_ =? FDS_DELMAGIC)];
    reflexivity.
Qed.



(** ** Equal page sequence numbers at initialisation *)






(** ** The round trip of a write that stays in its page *)

Section RoundTrip.

(** The contract of the flash driver: a program call that reports
    [BSP_OK] has stored the buffer and nothing else. *)
Hypothesis prog_stores : forall m dest src m',
  bspFlashProg m dest src = (BSP_OK, m') ->
  forall a, m' a = poke m dest src a.

Lemma writeToFlash_ok_inv data siz st st' :
  writeToFlash data siz false st = Some (FDS_OK, st') ->
  InitDone st' = InitDone st
  /\ pRecords st' = pRecords st
  /\ pWrite st' = pWrite st + 2 * (siz / 2)
  /\ forall a, flash st' a
               = poke (flash st) (pWrite st) (firstn (Z.to_nat siz) data) a.
Proof.
  unfold writeToFlash.
  destruct (bspFlashProg (flash st) (pWrite st) _) as [[|] m'] eqn:E;
    cbn [negb]; intros X; inv X.
  cbn [InitDone pRecords pWrite flash set_pWrite set_flash].
  repeat split. exact (prog_stores _ _ _ _ E).
Qed.

Lemma poke_inside m dest src a :
  dest <= a < dest + Z.of_nat (length src) ->
  poke m dest src a = nth (Z.to_nat (a - dest)) src 0.
Proof.
  intros Ha. unfold poke.
  replace (dest <=? a) with true by (symmetry; apply Z.leb_le; lia).
  replace (a <? _) with true by (symmetry; apply Z.ltb_lt; lia).
  reflexivity.
Qed.

Lemma poke_outside m dest src a :
  a < dest \/ dest + Z.of_nat (length src) <= a ->
  poke m dest src a = m a.
Proof.
  intros Ha. unfold poke.
  destruct (dest <=? a) eqn:A; [|reflexivity].
  destruct (a <? _) eqn:B; [|reflexivity].
  apply Z.leb_le in A. apply Z.ltb_lt in B. lia.
Qed.

Lemma map_seq_nth (d : list Z) : forall (f : nat -> Z) s,
  (forall i, (i < length d)%nat -> f (s + i)%nat = nth i d 0) ->
  map f (seq s (length d)) = d.
Proof.
  induction d as [|b d IH]; intros f s Hf; [reflexivity|].
  cbn [length seq map]. f_equal.
  - specialize (Hf O). rewrite Nat.add_0_r in Hf. apply Hf. cbn. lia.
  - apply IH. intros i Hi. specialize (Hf (S i)).
    rewrite Nat.add_succ_r in Hf. apply Hf. cbn. lia.
Qed.

Lemma nth_map_seq (f : nat -> Z) n : forall s i,
  (i < n)%nat -> nth i (map f (seq s n)) 0 = f (s + i)%nat.
Proof.
  induction n as [|n IH]; intros s [|i] Hi; cbn [seq map nth]; try lia.
  - now rewrite Nat.add_0_r.
  - rewrite IH by lia. f_equal. lia.
Qed.

Lemma nth_buf_bytes buf n i :
  (i < Z.to_nat n)%nat ->
  nth i (buf_bytes buf n) 0 = buf_at buf (Z.of_nat i).
Proof.
  intros Hi. unfold buf_bytes. now rewrite nth_map_seq by exact Hi.
Qed.

Lemma length_buf_bytes buf n : length (buf_bytes buf n) = Z.to_nat n.
Proof. unfold buf_bytes. now rewrite length_map, length_seq. Qed.

Lemma nth_upd_nth_same l : forall i v,
  (i < length l)%nat -> nth i (upd_nth l i v) 0 = v.
Proof.
  induction l as [|h t IH]; intros [|i] v Hi; cbn in *; try lia; auto.
  apply IH. lia.
Qed.

Lemma u8_byte b : 0 <= b < 256 -> u8 b = b.
Proof. intros Hb. unfold u8. now apply Z.mod_small. Qed.

(** X1. Round trip, for a write that does not rotate.  On an initialised
    store whose write pointer is set, if [write(uid, d, n)] finds room in
    the current page and returns [FDS_OK], then [read(uid, buf, n)] right
    after it returns [n] and has copied [d] to the front of [buf]; for an
    odd [n] the last byte comes back from the footer. *)
Theorem write_read_round_trip_in_page (uid : Z) (d buf : list Z) (n : Z)
    (st st' : Fds) :
  InitDone st = true ->
  pWrite st <> 0 ->
  0 <= uid < FDS_NUM_RECORDS ->
  (Z.to_nat uid < length (pRecords st))%nat ->
  0 < n <= FDS_MAX_DATABYTES ->
  length d = Z.to_nat n ->
  Forall (fun b => 0 <= b < 256) d ->
  (let n' := if negb (n mod 2 =? 0) then n - 1 else n in
   BSP_FLASH_ADDRTOPAGE (pWrite st)
   = BSP_FLASH_ADDRTOPAGE (pWrite st + 2 * ((4 + n' + 2) / 2))) ->
  write uid d n st = Some (FDS_OK, st') ->
  read uid (Some buf) n st' = Some ((n, Some (memcpy buf d)), st').
Proof.
  intros Hi Hw Hu Hlen Hn Hd Hb Hpage E.
  unfold FDS_NUM_RECORDS, FDS_MAX_DATABYTES in Hu, Hn.
  (* the path [write] took *)
  unfold write in E; run_m. rewrite if_app in E.
  replace ((n =? 0) || (FDS_MAX_DATABYTES <? n)) with false in E
    by (symmetry; apply orb_false_iff; unfold FDS_MAX_DATABYTES;
        rewrite Z.eqb_neq, Z.ltb_ge; lia).
  rewrite if_app in E.
  replace (FDS_NUM_RECORDS <=? uid) with false in E
    by (symmetry; apply Z.leb_gt; unfold FDS_NUM_RECORDS; lia).
  rewrite (lazy_init_done st Hi) in E. cbn [is_ok negb] in E.
  set (n' := if negb (n mod 2 =? 0) then n - 1 else n) in *.
  assert (Hn' : 0 <= n' /\ n' mod 2 = 0
                /\ (n' = n \/ (n' = n - 1 /\ n mod 2 <> 0))).
  { subst n'. destruct (n mod 2 =? 0) eqn:P; cbn [negb].
    - apply Z.eqb_eq in P. lia.
    - apply Z.eqb_neq in P.
      repeat split; [lia | | right; split; [reflexivity | exact P]].
      Z.to_euclidean_division_equations. lia. }
  destruct Hn' as (Hn0 & Hev & Hcase).
  set (ftrData := if negb (n mod 2 =? 0) then buf_at d (n - 1) else 0) in *.
  assert (Hpair :
    (if negb (n mod 2 =? 0) then (n - 1, buf_at d (n - 1)) else (n, 0))
    = (n', ftrData)).
  { subst n' ftrData. now destruct (negb _). }
  rewrite Hpair in E. cbv beta iota zeta in E.
  apply Z.eqb_eq in Hpage. rewrite if_app, Hpage in E.
  cbn [negb is_ok] in E.
  destruct (writeToFlash (dataHdr_bytes FDS_DATAMAGIC uid n) 4 false st)
    as [[r2 st2]|] eqn:E2; [|discriminate].
  destruct (is_ok r2) eqn:K2; norm_in E; [|inv E].
  destruct r2; try discriminate K2.
  destruct (if 0 <? n' then writeToFlash (buf_bytes d n') n' false st2
            else Some (FDS_OK, st2)) as [[r3 st3]|] eqn:E3; [|discriminate].
  destruct (is_ok r3) eqn:K3; norm_in E; [|inv E].
  destruct r3; try discriminate K3.
  match type of E with
  | context [writeToFlash ?f 2 false st3] =>
      set (ftr := f) in *;
      destruct (writeToFlash ftr 2 false st3) as [[r4 st4]|] eqn:E4;
        [|discriminate]
  end.
  destruct (is_ok r4) eqn:K4; norm_in E; [|inv E].
  destruct r4; try discriminate K4.
  destruct (negb (_ =? 0)) in E; inv E.
  (* what the three program calls left in the flash *)
  apply writeToFlash_ok_inv in E2. destruct E2 as (I2 & R2 & W2 & F2).
  apply writeToFlash_ok_inv in E4. destruct E4 as (I4 & R4 & W4 & F4).
  set (P := pWrite st) in *.
  assert (H3 : InitDone st3 = InitDone st2 /\ pRecords st3 = pRecords st2
               /\ pWrite st3 = P + 4 + n'
               /\ forall a, flash st3 a
                  = if (P + 4 <=? a) && (a <? P + 4 + n')
                    then buf_at d (a - (P + 4)) else flash st2 a).
  { destruct (0 <? n') eqn:Z3.
    - apply Z.ltb_lt in Z3.
      apply writeToFlash_ok_inv in E3. destruct E3 as (I3 & R3 & W3 & F3).
      repeat split; auto.
      + rewrite W3, W2. change (4 / 2) with 2.
        pose proof (Z.div_mod n' 2 ltac:(lia)). lia.
      + intros a. rewrite F3, W2. change (2 * (4 / 2)) with 4.
        rewrite firstn_all2 by (rewrite length_buf_bytes; lia).
        destruct ((P + 4 <=? a) && (a <? P + 4 + n')) eqn:A.
        * apply andb_true_iff in A as [A1 A2].
          apply Z.leb_le in A1. apply Z.ltb_lt in A2.
          rewrite poke_inside by (rewrite length_buf_bytes; lia).
          rewrite nth_buf_bytes by lia. f_equal. lia.
        * apply poke_outside. rewrite length_buf_bytes.
          apply andb_false_iff in A as [A | A];
            [apply Z.leb_gt in A | apply Z.ltb_ge in A]; lia.
    - apply Z.ltb_ge in Z3. inv E3. assert (n' = 0) by lia. subst n'.
      repeat split; auto.
      + rewrite W2. change (4 / 2) with 2. lia.
      + intros a. destruct ((P + 4 <=? a) && (a <? P + 4 + _)) eqn:A;
          [|reflexivity].
        apply andb_true_iff in A as [A1 A2].
        apply Z.leb_le in A1. apply Z.ltb_lt in A2. lia. }
  destruct H3 as (I3 & R3 & W3 & F3).
  set (st' := set_pRecords st4 (rec_set (pRecords st4) uid P)).
  assert (Hrec : rec_at (pRecords st') uid = P).
  { subst st'. cbn [pRecords set_pRecords]. unfold rec_at, rec_set.
    apply nth_upd_nth_same. rewrite R4, R3, R2. exact Hlen. }
  assert (Hfl : forall a, flash st' a
                = poke (flash st3) (P + 4 + n') (firstn 2 ftr) a).
  { intros a. subst st'. cbn [flash set_pRecords]. rewrite F4, W3.
    reflexivity. }
  assert (Hftr : firstn 2 ftr = ftr /\ length ftr = 2%nat
                 /\ nth 0 ftr 0 = ftrData) by (subst ftr; auto).
  destruct Hftr as (Hf1 & Hf2 & Hf3). rewrite Hf1 in Hfl.
  assert (Hhdr : forall i, 0 <= i < 4 ->
            flash st' (P + i)
            = nth (Z.to_nat i) (dataHdr_bytes FDS_DATAMAGIC uid n) 0).
  { intros i Hi4. rewrite Hfl, poke_outside by (rewrite Hf2; lia).
    rewrite F3.
    replace ((P + 4 <=? P + i) && _) with false
      by (symmetry; apply andb_false_iff; left; apply Z.leb_gt; lia).
    rewrite F2.
    change (firstn (Z.to_nat 4) (dataHdr_bytes FDS_DATAMAGIC uid n))
      with (dataHdr_bytes FDS_DATAMAGIC uid n).
    rewrite poke_inside by (cbn [length dataHdr_bytes]; lia).
    f_equal. lia. }
  assert (Hsiz : dataHdr_Siz (flash st') P = n).
  { unfold dataHdr_Siz, rd8. rewrite (Hhdr 2), (Hhdr 3) by lia.
    change (nth (Z.to_nat 2) (dataHdr_bytes FDS_DATAMAGIC uid n) 0)
      with (u8 n).
    change (nth (Z.to_nat 3) (dataHdr_bytes FDS_DATAMAGIC uid n) 0)
      with (u8 (u16 n / 256)).
    unfold u8, u16. Z.to_euclidean_division_equations. lia. }
  (* the read *)
  assert (Hi' : InitDone st' = true)
    by (subst st'; cbn [InitDone set_pRecords]; congruence).
  rewrite (read_indexed uid buf n st' Hi') by
    (unfold FDS_NUM_RECORDS; rewrite ?Hrec; auto; lia).
  cbv zeta. rewrite Hrec, Hsiz, Z.min_id.
  enough (Hrb : read_bytes (flash st') (P + 4) n = d)
    by (rewrite Hrb; reflexivity).
  unfold read_bytes. rewrite <- Hd. apply map_seq_nth.
  intros i Hi0. rewrite Hd in Hi0. cbn [Nat.add].
  assert (Hbi : 0 <= nth i d 0 < 256).
  { rewrite Forall_forall in Hb. apply Hb, nth_In. lia. }
  unfold rd8. rewrite Hfl.
  destruct (Z.lt_ge_cases (Z.of_nat i) n') as [Hlt | Hge].
  - rewrite poke_outside by (rewrite Hf2; lia). rewrite F3.
    replace ((P + 4 <=? P + 4 + Z.of_nat i) && _) with true
      by (symmetry; apply andb_true_iff; rewrite Z.leb_le, Z.ltb_lt; lia).
    unfold buf_at.
    replace (Z.to_nat (P + 4 + Z.of_nat i - (P + 4))) with i by lia.
    now rewrite !(u8_byte (nth i d 0)) by exact Hbi.
  - destruct Hcase as [-> | [Hn1 Hodd]]; [lia|].
    assert (Z.of_nat i = n') by lia.
    rewrite poke_inside by (rewrite Hf2; lia).
    replace (Z.to_nat (P + 4 + Z.of_nat i - (P + 4 + n'))) with O by lia.
    rewrite Hf3. subst ftrData.
    replace (negb (n mod 2 =? 0)) with true
      by (symmetry; apply negb_true_iff, Z.eqb_neq; exact Hodd).
    unfold buf_at.
    replace (Z.to_nat (n - 1)) with i by lia.
    now rewrite !(u8_byte (nth i d 0)) by exact Hbi.
Qed.

End RoundTrip.

(** ** The page a rotation leaves erased *)

Section Rotation.

(** The contract of the flash driver: a program call, whatever it
    reports, leaves the bytes outside the destination range alone, and an
    erased page reads as all ones. *)
Hypothesis prog_frame : forall m dest src r m',
  bspFlashProg m dest src = (r, m') ->
  forall a, a < dest \/ dest + Z.of_nat (length src) <= a -> m' a = m a.

Hypothesis erase_page_erased : forall m addr a,
  BSP_FLASH_ADDRTOPAGE a = BSP_FLASH_ADDRTOPAGE addr ->
  rd8 (bspFlashErasePage m addr) a = 0xFF.

(** A page header and a record of maximal size fit in a page; page
    numbers of the region fit in a [uint16_t]. *)
Hypothesis page_size_fits : 4 + (FDS_MAX_DATABYTES + 6) <= FLASH_PAGE_SIZE.
Hypothesis region_pages :
  0 <= FDS_FIRSTFLASHPAGE /\ FDS_FIRSTFLASHPAGE + FDS_NUM_PAGES <= 65536.

Lemma page_size_large : 266 <= FLASH_PAGE_SIZE.
Proof.
  pose proof page_size_fits as P. unfold FDS_MAX_DATABYTES in P. lia.
Qed.

Lemma writeToFlash_effect data siz checkCrc st :
  exists r st',
    writeToFlash data siz checkCrc st = Some (r, st')
    /\ InitDone st' = InitDone st
    /\ (r = FDS_OK -> pWrite st' = pWrite st + 2 * (siz / 2))
    /\ (forall a,
         a < pWrite st
         \/ pWrite st + Z.of_nat (length (firstn (Z.to_nat siz) data)) <= a ->
         flash st' a = flash st a).
Proof.
  unfold writeToFlash.
  destruct (bspFlashProg (flash st) (pWrite st) _) as [r0 m'] eqn:E.
  pose proof (prog_frame _ _ _ _ _ E) as Hfr.
  destruct r0; cbn [negb].
  - destruct checkCrc; cbn [negb];
      [destruct (_ =? 0)|]; eexists _, _; (split; [reflexivity|]);
      cbn [InitDone pWrite flash set_pWrite set_flash];
      repeat split; auto; discriminate.
  - eexists _, _. split; [reflexivity|].
    cbn [InitDone pWrite flash set_flash]. repeat split; auto; discriminate.
Qed.

Lemma switchPage_loop_noop ns dataId page st :
  Forall (fun n => 0 <= n) ns ->
  (forall n, 0 <= n -> n <> dataId -> rec_at (pRecords st) n = 0) ->
  switchPage_loop ns dataId page st = Some (FDS_OK, st).
Proof.
  intros Hns Hz. induction Hns as [|n ns Hn _ IH]; cbn [switchPage_loop];
    [reflexivity|].
  destruct (n =? dataId) eqn:E; cbn [orb]; [exact IH|].
  apply Z.eqb_neq in E. rewrite (Hz n Hn E). cbn [Z.eqb]. exact IH.
Qed.

Lemma addrtopage_pagetoaddr page off :
  0 <= off < FLASH_PAGE_SIZE ->
  BSP_FLASH_ADDRTOPAGE (BSP_FLASH_PAGETOADDR page + off) = page.
Proof.
  intros Ho. unfold BSP_FLASH_ADDRTOPAGE, BSP_FLASH_PAGETOADDR.
  replace (FLASH_BASE + page * FLASH_PAGE_SIZE + off - FLASH_BASE)
    with (off + page * FLASH_PAGE_SIZE) by lia.
  rewrite Z.div_add by lia. rewrite Z.div_small by lia. lia.
Qed.

Lemma page_bounds a page :
  BSP_FLASH_ADDRTOPAGE a = page ->
  BSP_FLASH_PAGETOADDR page <= a < BSP_FLASH_PAGETOADDR (page + 1).
Proof.
  assert (Hs : 0 < FLASH_PAGE_SIZE) by (pose proof page_size_large; lia).
  unfold BSP_FLASH_ADDRTOPAGE, BSP_FLASH_PAGETOADDR. intros <-.
  pose proof (Z.mul_div_le (a - FLASH_BASE) FLASH_PAGE_SIZE Hs).
  pose proof (Z.mul_succ_div_gt (a - FLASH_BASE) FLASH_PAGE_SIZE Hs).
  lia.
Qed.

Lemma next_victim_range p :
  0 <= next_page p < FDS_NUM_PAGES
  /\ 0 <= victim_page p < FDS_NUM_PAGES
  /\ victim_page p <> next_page p.
Proof.
  unfold victim_page, next_page, wrapInc, u16, FDS_NUM_PAGES.
  Z.to_euclidean_division_equations. lia.
Qed.

(** What a rotation that returns [FDS_OK] leaves behind when no other id
    has a record: the write pointer behind the header of the next page,
    and the page after that erased. *)
Lemma switchPage_ok_state dataId st st1 :
  (forall n, 0 <= n -> n <> dataId -> rec_at (pRecords st) n = 0) ->
  switchPage dataId st = Some (FDS_OK, st1) ->
  InitDone st1 = InitDone st
  /\ pWrite st1
     = BSP_FLASH_PAGETOADDR (FDS_FIRSTFLASHPAGE + next_page (pWrite st)) + 4
  /\ page_reads_erased (flash st1)
       (FDS_FIRSTFLASHPAGE + victim_page (pWrite st)).
Proof.
  intros Hz. unfold switchPage; run_m.
  fold (next_page (pWrite st)). fold (victim_page (pWrite st)).
  destruct (next_victim_range (pWrite st)) as (Hn & Hv & _).
  unfold FDS_NUM_PAGES in Hn, Hv.
  destruct (negb _); norm; [discriminate|].
  unfold writePageHdr; run_m.
  match goal with
  | |- context [writeToFlash ?d ?s ?c ?x] =>
      destruct (writeToFlash_effect d s c x)
        as (r & s2 & E & Hi & Hp & Hf)
  end.
  rewrite E. destruct (is_ok r) eqn:K; norm; [|intros X; inv X; discriminate].
  destruct r; try discriminate K. specialize (Hp eq_refl).
  cbn [pWrite set_pWrite pRecords InitDone] in Hp, Hi.
  rewrite switchPage_loop_noop.
  2:{ exact fds_uids_nonneg. }
  2:{ intros n Hn0 Hne.
      assert (pRecords s2 = pRecords st) as ->; [|auto].
      unfold writeToFlash in E.
      destruct (bspFlashProg _ _ _) as [[|] ?]; cbn [negb] in E;
        [destruct (_ =? 0) in E|]; inv E; reflexivity. }
  unfold erasePage; run_m. intros X; inv X.
  cbn [InitDone pWrite flash set_flash].
  repeat split; auto.
  - rewrite Hp. change (2 * (4 / 2)) with 4. f_equal. f_equal.
    unfold u16. rewrite Z.mod_small by (destruct region_pages;
      unfold FDS_NUM_PAGES in *; lia). lia.
  - intros a Ha. apply erase_page_erased. rewrite Ha.
    pose proof page_size_large.
    symmetry. rewrite <- (Z.add_0_r (BSP_FLASH_PAGETOADDR _)).
    apply addrtopage_pagetoaddr. lia.
Qed.

Lemma victim_outside_next p a :
  BSP_FLASH_ADDRTOPAGE a = FDS_FIRSTFLASHPAGE + victim_page p ->
  a < BSP_FLASH_PAGETOADDR (FDS_FIRSTFLASHPAGE + next_page p)
  \/ BSP_FLASH_PAGETOADDR (FDS_FIRSTFLASHPAGE + next_page p)
     + FLASH_PAGE_SIZE <= a.
Proof.
  intros Ha. apply page_bounds in Ha.
  destruct (next_victim_range p) as (_ & _ & Hne).
  pose proof page_size_large.
  unfold BSP_FLASH_PAGETOADDR in *.
  destruct (Z.lt_ge_cases (victim_page p) (next_page p)); [left|right]; nia.
Qed.

(** C2 (amended). Let [write] find no room for the record in the current
    page, on an initialised store on which no other id has a record, and
    let the rotation go through.  Then [write] returns, and afterwards the
    page behind the new write page reads as erased. *)
Theorem rotating_write_leaves_page_erased (uid : Z) (d : list Z) (n : Z)
    (st st1 : Fds) :
  InitDone st = true ->
  0 <= uid < FDS_NUM_RECORDS ->
  0 < n <= FDS_MAX_DATABYTES ->
  (forall k, 0 <= k -> k <> uid -> rec_at (pRecords st) k = 0) ->
  (let n' := if negb (n mod 2 =? 0) then n - 1 else n in
   BSP_FLASH_ADDRTOPAGE (pWrite st)
   <> BSP_FLASH_ADDRTOPAGE (pWrite st + 2 * ((4 + n' + 2) / 2))) ->
  switchPage uid st = Some (FDS_OK, st1) ->
  exists r st',
    write uid d n st = Some (r, st')
    /\ page_reads_erased (flash st')
         (FDS_FIRSTFLASHPAGE + victim_page (pWrite st)).
Proof.
  intros Hi Hu Hn Hz Hpage Hsw.
  destruct (switchPage_ok_state uid st st1 Hz Hsw) as (_ & Hw1 & He1).
  set (B := BSP_FLASH_PAGETOADDR (FDS_FIRSTFLASHPAGE + next_page (pWrite st)))
    in *.
  pose proof page_size_large as Hps.
  (* a byte of the erased page stays as it is when a range behind the new
     header is programmed *)
  assert (Hkeep : forall (s s' : Fds) len,
    B + 4 <= pWrite s -> pWrite s + len <= B + 266 ->
    (forall a, a < pWrite s \/ pWrite s + len <= a ->
               flash s' a = flash s a) ->
    page_reads_erased (flash s)
      (FDS_FIRSTFLASHPAGE + victim_page (pWrite st)) ->
    page_reads_erased (flash s')
      (FDS_FIRSTFLASHPAGE + victim_page (pWrite st))).
  { intros s s' len H1 H2 Hf He a Ha. unfold rd8. rewrite Hf.
    - apply (He a Ha).
    - pose proof (victim_outside_next (pWrite st) a Ha) as [Ho | Ho];
        fold B in Ho; lia. }
  unfold FDS_NUM_RECORDS, FDS_MAX_DATABYTES in Hu, Hn.
  unfold write; run_m. rewrite if_app.
  replace ((n =? 0) || (FDS_MAX_DATABYTES <? n)) with false
    by (symmetry; apply orb_false_iff; unfold FDS_MAX_DATABYTES;
        rewrite Z.eqb_neq, Z.ltb_ge; lia).
  rewrite if_app.
  replace (FDS_NUM_RECORDS <=? uid) with false
    by (symmetry; apply Z.leb_gt; unfold FDS_NUM_RECORDS; lia).
  rewrite (lazy_init_done st Hi). norm.
  set (n' := if negb (n mod 2 =? 0) then n - 1 else n) in *.
  assert (Hn' : 0 <= n' <= 256)
    by (subst n'; destruct (negb _); lia).
  assert (Hpair : exists ftrData,
    (if negb (n mod 2 =? 0) then (n - 1, buf_at d (n - 1)) else (n, 0))
    = (n', ftrData)).
  { subst n'. destruct (negb _); eauto. }
  destruct Hpair as (ftrData & ->). cbv beta iota zeta.
  apply Z.eqb_neq in Hpage. rewrite if_app, Hpage. cbn [negb].
  rewrite Hsw. norm.
  (* the header *)
  destruct (writeToFlash_effect
              (dataHdr_bytes FDS_DATAMAGIC uid n) 4 false st1)
    as (r2 & s2 & E2 & _ & Hp2 & Hf2).
  assert (He2 : page_reads_erased (flash s2)
                  (FDS_FIRSTFLASHPAGE + victim_page (pWrite st))).
  { apply (Hkeep st1 s2 4); [lia | lia | | exact He1].
    intros a Ha. apply Hf2. exact Ha. }
  rewrite E2. destruct (is_ok r2) eqn:K2; norm;
    [|eexists _, _; split; [reflexivity | exact He2]].
  destruct r2; try discriminate K2. specialize (Hp2 eq_refl).
  change (2 * (4 / 2)) with 4 in Hp2.
  (* the payload *)
  assert (H3 : exists r3 s3,
    (if 0 <? n' then writeToFlash (buf_bytes d n') n' false s2
     else Some (FDS_OK, s2)) = Some (r3, s3)
    /\ (r3 = FDS_OK -> B + 8 <= pWrite s3 <= B + 8 + n')
    /\ page_reads_erased (flash s3)
         (FDS_FIRSTFLASHPAGE + victim_page (pWrite st))).
  { destruct (0 <? n') eqn:Z3.
    - destruct (writeToFlash_effect (buf_bytes d n') n' false s2)
        as (r3 & s3 & E3 & _ & Hp3 & Hf3).
      exists r3, s3. split; [exact E3|]. split.
      + intros R. rewrite (Hp3 R).
        pose proof (Z.mul_div_le n' 2 ltac:(lia)).
        assert (0 <= n' / 2) by (apply Z.div_pos; lia). lia.
      + apply (Hkeep s2 s3 n'); [lia | lia | | exact He2].
        intros a Ha. apply Hf3.
        rewrite firstn_all2 by (rewrite length_buf_bytes; lia).
        rewrite length_buf_bytes. lia.
    - exists FDS_OK, s2. repeat split; auto; lia. }
  destruct H3 as (r3 & s3 & E3 & Hp3 & He3). rewrite E3.
  destruct (is_ok r3) eqn:K3; norm;
    [|eexists _, _; split; [reflexivity | exact He3]].
  destruct r3; try discriminate K3. specialize (Hp3 eq_refl).
  (* the footer *)
  match goal with
  | |- context [writeToFlash ?f 2 false s3] =>
      destruct (writeToFlash_effect f 2 false s3)
        as (r4 & s4 & E4 & _ & _ & Hf4)
  end.
  assert (He4 : page_reads_erased (flash s4)
                  (FDS_FIRSTFLASHPAGE + victim_page (pWrite st))).
  { apply (Hkeep s3 s4 2); [lia | lia | | exact He3].
    intros a Ha. apply Hf4. exact Ha. }
  rewrite E4. destruct (is_ok r4) eqn:K4; norm;
    [|eexists _, _; split; [reflexivity | exact He4]].
  destruct (negb (crc8_calc 0 _ =? 0));
    eexists _, _; (split; [reflexivity | exact He4]).
Qed.

End Rotation.

End FdsFacts.

(** * Further facts *)

Section FdsMore.

Context `{Bsp}.

(** ** Deleting *)

Lemma nth_upd_nth_zero l : forall i, nth i (upd_nth l i 0) 0 = 0.
Proof.
  induction l as [|h t IH]; intros [|i]; cbn; auto.
Qed.

Lemma length_upd_nth l : forall i v, length (upd_nth l i v) = length l.
Proof.
  induction l as [|h t IH]; intros [|i] v; cbn; auto.
Qed.

(** What a [del] that returns [FDS_OK] on an initialised store has done:
    two program calls at the write pointer, six bytes further on, and
    the index entry cleared. *)
Lemma del_ok_inv uid st st' :
  InitDone st = true ->
  del uid st = Some (FDS_OK, st') ->
  InitDone st' = true
  /\ pRecords st' = rec_set (pRecords st) uid 0
  /\ pWrite st' = pWrite st + 6
  /\ exists crc,
       flashOps st'
       = flashOps st
         ++ [OpProg (pWrite st) (dataHdr_bytes FDS_DELMAGIC uid 0);
             OpProg (pWrite st + 4) [0; crc]].
Proof.
  intros Hi. unfold del; run_m. rewrite (lazy_init_done st Hi). norm.
  destruct (FDS_NUM_RECORDS <=? uid); [discriminate|].
  unfold writeToFlash.
  destruct (bspFlashProg (flash st) (pWrite st) _) as [[|] m1];
    cbn [negb is_ok]; norm; [|discriminate].
  cbn [flash pWrite set_flash set_pWrite].
  destruct (bspFlashProg m1 _ _) as [[|] m2]; cbn [negb is_ok]; norm;
    [|discriminate].
  destruct (negb (_ =? 0)); intros E; inv E.
  cbn [InitDone pRecords pWrite flashOps set_pRecords set_pWrite set_flash].
  change (2 * (4 / 2)) with 4. change (2 * (2 / 2)) with 2.
  repeat split; auto; [lia|].
  eexists. rewrite <- app_assoc. reflexivity.
Qed.

(** X2. Delete hides the record: after a [del(uid)] that returned
    [FDS_OK] on an initialised store, [read(uid, ...)] returns [0] for any
    destination and size and leaves the destination alone. *)
Theorem del_then_read_returns_zero (uid : Z) (pData : option (list Z))
    (siz : Z) (st st' : Fds) :
  InitDone st = true ->
  del uid st = Some (FDS_OK, st') ->
  read uid pData siz st' = Some ((0, pData), st').
Proof.
  intros Hi E. destruct (del_ok_inv uid st st' Hi E) as (Hi' & Hr & _).
  unfold read; run_m. rewrite (lazy_init_done st' Hi'). norm.
  destruct ((FDS_NUM_RECORDS <=? uid) || is_null pData || (siz =? 0));
    [reflexivity|].
  rewrite Hr. unfold rec_at, rec_set. rewrite nth_upd_nth_zero.
  reflexivity.
Qed.

(** X3. [del] never rotates: on an initialised store a [del] that returns
    [FDS_OK] has programmed the four header bytes and the two footer bytes
    at the write pointer as it stood, wherever in its page that was, and
    has moved the write pointer on by six. *)
Theorem del_appends_six_bytes (uid : Z) (st st' : Fds) :
  InitDone st = true ->
  del uid st = Some (FDS_OK, st') ->
  pWrite st' = pWrite st + 6
  /\ exists crc,
       flashOps st'
       = flashOps st
         ++ [OpProg (pWrite st) [FDS_DELMAGIC; u8 uid; 0; 0];
             OpProg (pWrite st + 4) [0; crc]].
Proof.
  intros Hi E. destruct (del_ok_inv uid st st' Hi E) as (_ & _ & Hw & Ho).
  split; [exact Hw | exact Ho].
Qed.

(** ** Initialisation without reset *)

(** X4. [init(false)] only reads the flash: it makes no call to the flash
    driver, and on a store that was not initialised it sets [InitDone]
    exactly when it returns [FDS_OK] with a write pointer found. *)
Theorem init_without_reset_reads_only (st st' : Fds) (r : fdsStatus_t) :
  init false st = Some (r, st') ->
  flash st' = flash st
  /\ flashOps st' = flashOps st
  /\ (InitDone st = false ->
      (InitDone st' = true <-> r = FDS_OK /\ pWrite st' <> 0)).
Proof.
  unfold init, init_with; run_m.
  destruct (InitDone st) eqn:Hi; cbn [negb].
  - cbn [is_ok negb orb]. destruct (pWrite st =? 0); intros E; inv E;
      cbn [flash flashOps set_InitDone]; repeat split; discriminate.
  - destruct (init_loop fds_pages true (init_clear st)) as [[r1 s1]|] eqn:L;
      [|discriminate].
    apply init_loop_frame in L. destruct L as (_ & Hi1 & Hf1 & Ho1).
    cbn [InitDone flash flashOps init_clear set_pWrite set_pRecords] in *.
    destruct (is_ok r1) eqn:K; cbn [negb orb].
    + destruct r1; try discriminate K.
      destruct (pWrite s1 =? 0) eqn:P; intros E; inv E;
        cbn [InitDone flash flashOps pWrite set_InitDone].
      * apply Z.eqb_eq in P. repeat split; auto; try tauto.
        congruence.
      * apply Z.eqb_neq in P. repeat split; auto.
    + intros E; inv E. repeat split; auto; try congruence.
      intros (-> & _). discriminate K.
Qed.

Lemma init_loop_all_sentinel pages : forall upd st,
  (forall page, In page pages -> getPageid (flash st) page = 0xFFFF) ->
  init_loop pages upd st = Some (FDS_OK, st).
Proof.
  induction pages as [|p pages IH]; intros upd st Hs; cbn [init_loop];
    [reflexivity|].
  rewrite (Hs p (or_introl eq_refl)). cbn [Z.eqb Pos.eqb].
  apply IH. intros q Hq. apply Hs. right. exact Hq.
Qed.

(** X5. A region without a valid page header: [init(false)] on a store
    that is not initialised returns [FDS_OK], yet the store stays
    uninitialised with the index cleared and no write pointer;
    [init(true)] goes on to [format]. *)
Theorem init_on_region_without_headers (st : Fds) :
  InitDone st = false ->
  (forall page, In page fds_pages -> getPageid (flash st) page = 0xFFFF) ->
  init false st = Some (FDS_OK, init_clear st)
  /\ InitDone (init_clear st) = false
  /\ init true st = format (init_clear st).
Proof.
  intros Hi Hs. unfold init, init_with; run_m. rewrite Hi. cbn [negb].
  rewrite init_loop_all_sentinel by exact Hs.
  cbn [is_ok negb orb pWrite init_clear set_pWrite Z.eqb InitDone
       set_pRecords].
  auto.
Qed.

(** ** Termination of the scan *)

(** X6. [init(false)] returns whenever the page size is positive and no
    record header that the scan of a page with a sequence number comes
    to gives a span of zero.  Bytes the scan does not take for a header,
    payload bytes for one, are free to look like such a header. *)
Theorem init_without_reset_returns (st : Fds) :
  0 < FLASH_PAGE_SIZE ->
  (forall rel, In rel fds_pages ->
               getPageid (flash st) rel <> 0xFFFF ->
               scan_spans_positive (flash st) rel) ->
  exists r st', init false st = Some (r, st').
Proof.
  intros Hs Hz. unfold init, init_with; run_m.
  destruct (InitDone st); cbn [negb].
  - cbn [is_ok negb orb]. destruct (pWrite st =? 0); eauto.
  - destruct (init_loop_returns fds_pages true (init_clear st) Hs)
      as (r1 & s1 & L); [exact Hz|].
    rewrite L. destruct (negb (is_ok r1) || (pWrite s1 =? 0)); eauto.
Qed.

Lemma readPage_siz_zero m pData :
  dataHdr_Siz m pData = 65530 \/ dataHdr_Siz m pData = 65531 ->
  readPage_siz m pData = 0.
Proof.
  unfold readPage_siz. intros [-> | ->]; reflexivity.
Qed.

(** X7. A header with a valid [uid] and a size field of [0xFFFA] or
    [0xFFFB] stops the scanner for good: the 16 bit span wraps to zero,
    the CRC over no bytes passes, and the loop stays at the position,
    whatever the number of iterations.  At the first record position of
    a page this is [readPage] not returning. *)
Theorem readPage_loops_on_wrapped_size (page : Z) (upd : bool) (pData : Z)
    (st : Fds) :
  BSP_FLASH_ADDRTOPAGE pData = page ->
  dataHdr_Uid (flash st) pData < FDS_NUM_RECORDS ->
  dataHdr_Siz (flash st) pData = 65530
  \/ dataHdr_Siz (flash st) pData = 65531 ->
  (forall fuel, readPage_loop fuel page upd pData 0 st = None)
  /\ (forall rel,
        pData = BSP_FLASH_PAGETOADDR (u16 (rel + FDS_FIRSTFLASHPAGE)) + 4 ->
        page = u16 (rel + FDS_FIRSTFLASHPAGE) ->
        readPage rel upd st = None).
Proof.
  intros Hp Hu Hs. apply readPage_siz_zero in Hs.
  assert (A : forall fuel, readPage_loop fuel page upd pData 0 st = None)
    by (intros fuel; now apply readPage_loop_zero_span).
  split; [exact A|].
  intros rel -> ->. unfold readPage. apply A.
Qed.

(** ** The index entry of a successful write *)

Lemma writeToFlash_pRecords data siz c st r st' :
  writeToFlash data siz c st = Some (r, st') -> pRecords st' = pRecords st.
Proof.
  destruct (writeToFlash_cases data siz c st) as (r0 & s0 & E & _ & _ & Hp).
  rewrite E. intros X; inv X. exact Hp.
Qed.

Lemma relocate_length n st r st' :
  relocate n st = Some (r, st') ->
  length (pRecords st') = length (pRecords st).
Proof.
  unfold relocate; run_m.
  match goal with
  | |- context [writeToFlash ?d ?s ?c ?x] =>
      destruct (writeToFlash_cases d s c x) as (r0 & s0 & E & _ & _ & Hp)
  end.
  rewrite E. destruct (negb (is_ok r0)); intros X; inv X.
  - now rewrite Hp.
  - cbn [pRecords set_pRecords]. unfold rec_set.
    now rewrite length_upd_nth, Hp.
Qed.

Lemma switchPage_loop_length ns dataId page : forall st r st',
  switchPage_loop ns dataId page st = Some (r, st') ->
  length (pRecords st') = length (pRecords st).
Proof.
  induction ns as [|n ns IH]; intros st r st'; cbn [switchPage_loop].
  - intros X; inv X. reflexivity.
  - destruct ((n =? dataId) || _); [apply IH|].
    destruct (page =? _); [|apply IH].
    destruct (relocate n st) as [[r1 s1]|] eqn:R; [|discriminate].
    apply relocate_length in R.
    destruct (is_ok r1).
    + intros X. apply IH in X. congruence.
    + intros X; inv X. exact R.
Qed.

Lemma switchPage_length dataId st r st' :
  switchPage dataId st = Some (r, st') ->
  length (pRecords st') = length (pRecords st).
Proof.
  unfold switchPage; run_m.
  destruct (negb _); [intros X; inv X; reflexivity|].
  destruct (writePageHdr_cases
              (u16 (wrapInc (u16 (BSP_FLASH_ADDRTOPAGE (pWrite st)
                                  - FDS_FIRSTFLASHPAGE)) 1 FDS_NUM_PAGES))
              (u16 (wrapInc (getPageid (flash st)
                       (u16 (BSP_FLASH_ADDRTOPAGE (pWrite st)
                             - FDS_FIRSTFLASHPAGE))) 1 65535)) st)
    as (r1 & s1 & E & _ & _ & Hp).
  rewrite E. destruct (negb (is_ok r1)); [intros X; inv X; congruence|].
  destruct (switchPage_loop _ _ _ s1) as [[r2 s2]|] eqn:L; [|discriminate].
  apply switchPage_loop_length in L.
  unfold erasePage; run_m. intros X; inv X.
  cbn [pRecords set_flash]. congruence.
Qed.

(** X8. The address a successful [write] files in the index is the write
    pointer as it stood when [write] was called - also when the page
    rotation has moved the write pointer before the record was
    programmed. *)
Theorem write_indexes_entry_write_pointer (uid : Z) (pData : list Z)
    (numBytes : Z) (st st' : Fds) :
  InitDone st = true ->
  (Z.to_nat uid < length (pRecords st))%nat ->
  write uid pData numBytes st = Some (FDS_OK, st') ->
  rec_at (pRecords st') uid = pWrite st.
Proof.
  intros Hi Hl E.
  assert (Hlen : length (pRecords st') = length (pRecords st)).
  { revert E. unfold write; run_m.
    destruct ((numBytes =? 0) || _); [discriminate|].
    destruct (FDS_NUM_RECORDS <=? uid); [discriminate|].
    rewrite (lazy_init_done st Hi). norm.
    destruct (if negb (numBytes mod 2 =? 0)
              then (numBytes - 1, buf_at pData (numBytes - 1))
              else (numBytes, 0)) as [n' ftrData].
    rewrite if_app.
    assert (Hsw : forall r1 s1,
      (if negb (BSP_FLASH_ADDRTOPAGE (pWrite st)
                =? BSP_FLASH_ADDRTOPAGE
                     (pWrite st + 2 * ((4 + n' + 2) / 2)))
       then switchPage uid st else Some (FDS_OK, st)) = Some (r1, s1) ->
      length (pRecords s1) = length (pRecords st)).
    { intros r1 s1. destruct (negb _).
      - apply switchPage_length.
      - intros X; inv X. reflexivity. }
    destruct (if negb _ then switchPage uid st else _) as [[r1 s1]|];
      [|discriminate].
    specialize (Hsw r1 s1 eq_refl).
    destruct (is_ok r1) eqn:K1; norm;
      [|intros X; inv X; discriminate K1].
    destruct (writeToFlash _ 4 false s1) as [[r2 s2]|] eqn:E2;
      [|discriminate].
    apply writeToFlash_pRecords in E2.
    destruct (is_ok r2) eqn:K2; norm; [|discriminate].
    assert (H3 : forall r3 s3,
      (if 0 <? n' then writeToFlash (buf_bytes pData n') n' false s2
       else Some (r2, s2)) = Some (r3, s3) -> pRecords s3 = pRecords s2).
    { intros r3 s3. destruct (0 <? n').
      - apply writeToFlash_pRecords.
      - intros X; inv X. reflexivity. }
    destruct (if 0 <? n' then _ else _) as [[r3 s3]|]; [|discriminate].
    specialize (H3 r3 s3 eq_refl).
    destruct (is_ok r3) eqn:K3; norm; [|discriminate].
    destruct (writeToFlash _ 2 false s3) as [[r4 s4]|] eqn:E4;
      [|discriminate].
    apply writeToFlash_pRecords in E4.
    destruct (is_ok r4) eqn:K4; norm; [|discriminate].
    destruct (negb (crc8_calc 0 _ =? 0)); intros X; inv X.
    cbn [pRecords set_pRecords]. unfold rec_set.
    rewrite length_upd_nth. congruence. }
  destruct (write_ok_entry_is_entry_pWrite uid pData numBytes st st' E)
    as (l & Hl').
  rewrite Hl' in *. unfold rec_at, rec_set in *.
  rewrite length_upd_nth in Hlen.
  apply nth_upd_nth_same. lia.
Qed.

(** ** Rotation *)

(** X9. When the page after the current one is not free, a [write] that
    finds no room returns [FDS_ERR] and changes nothing: no header is
    written, nothing is relocated, nothing erased. *)
Theorem write_without_free_page (uid : Z) (pData : list Z) (numBytes : Z)
    (st : Fds) :
  InitDone st = true ->
  0 < numBytes <= FDS_MAX_DATABYTES ->
  uid < FDS_NUM_RECORDS ->
  (let n' := if negb (numBytes mod 2 =? 0) then numBytes - 1
             else numBytes in
   BSP_FLASH_ADDRTOPAGE (pWrite st)
   <> BSP_FLASH_ADDRTOPAGE (pWrite st + 2 * ((4 + n' + 2) / 2))) ->
  getPageid (flash st) (next_page (pWrite st)) <> 0xFFFF ->
  write uid pData numBytes st = Some (FDS_ERR, st).
Proof.
  intros Hi Hn Hu Hpage Hfree.
  unfold write; run_m. rewrite if_app.
  replace ((numBytes =? 0) || (FDS_MAX_DATABYTES <? numBytes)) with false
    by (symmetry; apply orb_false_iff; rewrite Z.eqb_neq, Z.ltb_ge; lia).
  rewrite if_app.
  replace (FDS_NUM_RECORDS <=? uid) with false
    by (symmetry; now apply Z.leb_gt).
  rewrite (lazy_init_done st Hi). norm.
  set (n' := if negb (numBytes mod 2 =? 0) then numBytes - 1
             else numBytes) in *.
  assert (Hpair : exists ftrData,
    (if negb (numBytes mod 2 =? 0)
     then (numBytes - 1, buf_at pData (numBytes - 1))
     else (numBytes, 0)) = (n', ftrData)).
  { subst n'. destruct (negb _); eauto. }
  destruct Hpair as (ftrData & ->). cbv beta iota zeta.
  apply Z.eqb_neq in Hpage. rewrite if_app, Hpage. cbn [negb].
  unfold switchPage; run_m. fold (next_page (pWrite st)).
  apply Z.eqb_neq in Hfree. rewrite Hfree. reflexivity.
Qed.

(** The relocation loop relocates nothing when the region does not start
    within the first [FDS_NUM_PAGES] device pages and the indexed records
    lie at or behind its first page: a page number relative to the region
    is never the device page number of a record. *)
Lemma switchPage_loop_skips dataId ns : forall page s,
  FDS_NUM_PAGES <= FDS_FIRSTFLASHPAGE ->
  (forall n, In n ns -> rec_at (pRecords s) n <> 0 ->
             FDS_FIRSTFLASHPAGE
             <= BSP_FLASH_ADDRTOPAGE (rec_at (pRecords s) n)) ->
  0 <= page < FDS_NUM_PAGES ->
  switchPage_loop ns dataId page s = Some (FDS_OK, s).
Proof.
  induction ns as [|n ns IH]; intros page s Hfirst Hin Hpg;
    cbn [switchPage_loop]; [reflexivity|].
  assert (Hrest : switchPage_loop ns dataId page s = Some (FDS_OK, s))
    by (apply IH; auto; intros k Hk; apply Hin; right; exact Hk).
  destruct ((n =? dataId) || (rec_at (pRecords s) n =? 0)) eqn:C;
    [exact Hrest|].
  apply orb_false_iff in C as [_ C]. apply Z.eqb_neq in C.
  specialize (Hin n (or_introl eq_refl) C).
  replace (page =? _) with false; [exact Hrest|].
  symmetry. apply Z.eqb_neq. lia.
Qed.

(** X10. The relocation test of [switchPage] compares the page number
    relative to the region with the device page number of the record.
    When the region does not start within the first [FDS_NUM_PAGES]
    device pages and every indexed record lies at or behind the region's
    first page, no record is relocated: whatever [switchPage] returns,
    the index is as it was. *)
Theorem switchPage_relocates_nothing (dataId : Z) (st st' : Fds)
    (r : fdsStatus_t) :
  FDS_NUM_PAGES <= FDS_FIRSTFLASHPAGE ->
  (forall n, In n fds_uids -> rec_at (pRecords st) n <> 0 ->
             FDS_FIRSTFLASHPAGE
             <= BSP_FLASH_ADDRTOPAGE (rec_at (pRecords st) n)) ->
  switchPage dataId st = Some (r, st') ->
  pRecords st' = pRecords st.
Proof.
  intros Hfirst Hin.
  unfold switchPage; run_m.
  destruct (negb _); [intros X; inv X; reflexivity|].
  match goal with
  | |- context [writePageHdr ?p ?u ?x] =>
      destruct (writePageHdr_cases p u x) as (r1 & s1 & E & _ & _ & Hp)
  end.
  rewrite E. destruct (negb (is_ok r1)); [intros X; inv X; exact Hp|].
  rewrite switchPage_loop_skips.
  - unfold erasePage; run_m. intros X; inv X.
    cbn [pRecords set_flash]. exact Hp.
  - exact Hfirst.
  - rewrite Hp. exact Hin.
  - unfold wrapInc, u16, FDS_NUM_PAGES.
    Z.to_euclidean_division_equations. lia.
Qed.

(** ** Records in the flash *)

Lemma poke_ext m1 m2 dest src a :
  (forall x, m1 x = m2 x) -> poke m1 dest src a = poke m2 dest src a.
Proof. intros E. unfold poke. destruct (_ && _); auto. Qed.

Lemma poke_nil m dest a : poke m dest [] a = m a.
Proof.
  apply poke_outside. cbn [length Z.of_nat]. lia.
Qed.

Lemma poke_app m dest l1 l2 a :
  poke (poke m dest l1) (dest + Z.of_nat (length l1)) l2 a
  = poke m dest (l1 ++ l2) a.
Proof.
  destruct (Z.lt_ge_cases a dest) as [Hlo | Hge].
  { rewrite !poke_outside by lia. reflexivity. }
  destruct (Z.lt_ge_cases a (dest + Z.of_nat (length l1))) as [H1 | H1].
  - rewrite (poke_outside _ (dest + _)) by lia.
    rewrite !poke_inside by (rewrite ?length_app; lia).
    rewrite app_nth1 by lia. reflexivity.
  - destruct (Z.lt_ge_cases a (dest + Z.of_nat (length (l1 ++ l2))))
      as [H2 | H2]; rewrite length_app in H2.
    + rewrite !poke_inside by (rewrite ?length_app; lia).
      rewrite app_nth2 by lia. f_equal. lia.
    + rewrite !poke_outside by (rewrite ?length_app; lia). reflexivity.
Qed.

Lemma read_bytes_poke (m' m : Mem) dest img :
  (forall a, m' a = poke m dest img a) ->
  read_bytes m' dest (Z.of_nat (length img)) = map u8 img.
Proof.
  intros E. unfold read_bytes. rewrite Nat2Z.id.
  rewrite <- (length_map u8 img). apply map_seq_nth.
  intros i Hi. rewrite length_map in Hi. cbn [Nat.add].
  unfold rd8. rewrite E, poke_inside by lia.
  replace (Z.to_nat (dest + Z.of_nat i - dest)) with i by lia.
  rewrite (nth_indep (map u8 img) 0 (u8 0))
    by (rewrite length_map; exact Hi).
  now rewrite map_nth.
Qed.

Lemma read_bytes_ext m1 m2 a siz :
  (forall x, a <= x < a + siz -> m1 x = m2 x) ->
  read_bytes m1 a siz = read_bytes m2 a siz.
Proof.
  intros E. unfold read_bytes. apply map_ext_in. intros i Hi.
  apply in_seq in Hi. unfold rd8. rewrite E by lia. reflexivity.
Qed.

Lemma payload_even_facts n :
  0 < n ->
  0 <= payload_even n <= n /\ payload_even n mod 2 = 0
  /\ 2 * ((4 + payload_even n + 2) / 2) = record_span n
  /\ (4 + payload_even n + 2) / 2 * 2 = record_span n.
Proof.
  intros Hn. unfold record_span, payload_even.
  destruct (n mod 2 =? 0) eqn:P; cbn [negb];
    [apply Z.eqb_eq in P | apply Z.eqb_neq in P];
    Z.to_euclidean_division_equations; lia.
Qed.

Lemma length_record_image uid d n :
  0 < n -> Z.of_nat (length (record_image uid d n)) = record_span n.
Proof.
  intros Hn. destruct (payload_even_facts n Hn) as (H0 & _).
  unfold record_image, record_span.
  rewrite !length_app, length_buf_bytes. cbn [length dataHdr_bytes]. lia.
Qed.

Lemma crc8_calc_app c l1 l2 :
  crc8_calc c (l1 ++ l2) = crc8_calc (crc8_calc c l1) l2.
Proof. apply fold_left_app. Qed.

(** ** The first write of a fresh object *)

(** X11. [write] takes the address of its record from the write pointer
    before the store is initialised.  On an object whose write pointer is
    still [0], as the constructor leaves it, a [write] that returns
    [FDS_OK] has checked the CRC of the bytes at address [0], and has
    filed [0], the mark of an empty entry, in the index: a [read] of the
    same [uid] returns no bytes. *)
Theorem write_on_fresh_object (uid : Z) (d : list Z) (n : Z)
    (st st' : Fds) :
  pWrite st = 0 ->
  0 < n ->
  write uid d n st = Some (FDS_OK, st') ->
  rec_at (pRecords st') uid = 0
  /\ crc8_calc 0 (read_bytes (flash st') 0 (record_span n)) = 0
  /\ (InitDone st' = true ->
      forall buf siz, read uid buf siz st' = Some ((0, buf), st')).
Proof.
  intros Hw Hn E.
  destruct (payload_even_facts n Hn) as (_ & _ & _ & Hs2).
  assert (A : rec_at (pRecords st') uid = 0
              /\ crc8_calc 0 (read_bytes (flash st') 0 (record_span n)) = 0).
  { revert E. unfold write; run_m. rewrite Hw.
    destruct ((n =? 0) || _); [discriminate|].
    destruct (FDS_NUM_RECORDS <=? uid); [discriminate|].
    destruct (lazy_init st) as [[r0 s0]|]; [|discriminate].
    destruct (is_ok r0) eqn:K0; norm; [|intros X; inv X; discriminate K0].
    fold (payload_even n).
    assert (Hpair : exists ftrData,
      (if negb (n mod 2 =? 0) then (n - 1, buf_at d (n - 1)) else (n, 0))
      = (payload_even n, ftrData)).
    { unfold payload_even. destruct (negb _); eauto. }
    destruct Hpair as (ftrData & ->). cbv beta iota zeta.
    rewrite Hs2. rewrite if_app.
    destruct (if negb _ then switchPage uid s0 else _) as [[r1 s1]|];
      [|discriminate].
    destruct (is_ok r1) eqn:K1; norm;
      [|intros X; inv X; discriminate K1].
    destruct (writeToFlash _ 4 false s1) as [[r2 s2]|]; [|discriminate].
    destruct (is_ok r2) eqn:K2; norm; [|discriminate].
    destruct (if 0 <? payload_even n then _ else _) as [[r3 s3]|];
      [|discriminate].
    destruct (is_ok r3) eqn:K3; norm; [|discriminate].
    destruct (writeToFlash _ 2 false s3) as [[r4 s4]|]; [|discriminate].
    destruct (is_ok r4) eqn:K4; norm; [|discriminate].
    destruct (negb (crc8_calc 0 _ =? 0)) eqn:C; intros X; inv X.
    apply negb_false_iff, Z.eqb_eq in C.
    cbn [pRecords flash set_pRecords]. split; [|exact C].
    unfold rec_at, rec_set. apply nth_upd_nth_zero. }
  destruct A as (A1 & A2). repeat split; auto.
  intros Hi buf siz. unfold read; run_m.
  rewrite (lazy_init_done st' Hi). norm.
  destruct ((FDS_NUM_RECORDS <=? uid) || is_null buf || (siz =? 0));
    [reflexivity|].
  rewrite A1. reflexivity.
Qed.

(** ** The log of the first page *)

Lemma read_bytes_ext8 m1 m2 a siz :
  (forall x, a <= x < a + siz -> rd8 m1 x = rd8 m2 x) ->
  read_bytes m1 a siz = read_bytes m2 a siz.
Proof.
  intros E. unfold read_bytes. apply map_ext_in. intros i Hi.
  apply in_seq in Hi. apply E. lia.
Qed.

Lemma scans_to_le m page p idx q idx' :
  scans_to m page p idx q idx' -> p <= q.
Proof. induction 1; lia. Qed.

(** The scan ends at an erased header. *)
Lemma readPage_loop_end fuel page upd q crc st :
  BSP_FLASH_ADDRTOPAGE q = page ->
  (forall a, q <= a < q + 4 -> rd8 (flash st) a = 0xFF) ->
  readPage_loop (S fuel) page upd q crc st
  = Some (FDS_OK, if upd then set_pWrite st q else st).
Proof.
  intros Hp He. cbn [readPage_loop].
  apply Z.eqb_eq in Hp. rewrite Hp. cbn [negb].
  unfold dataHdr_Uid, dataHdr_Raw.
  rewrite (He q), !(He (q + _)) by lia. reflexivity.
Qed.

(** The scanner follows a chain of records to its end. *)
Lemma readPage_loop_chain m page p idx q idx' :
  scans_to m page p idx q idx' ->
  forall fuel upd st,
  flash st = m -> pRecords st = idx ->
  (Z.to_nat (q - p) < fuel)%nat ->
  BSP_FLASH_ADDRTOPAGE q = page ->
  (forall a, q <= a < q + 4 -> rd8 m a = 0xFF) ->
  readPage_loop fuel page upd p 0 st
  = Some (FDS_OK, if upd then set_pWrite (set_pRecords st idx') q
                  else set_pRecords st idx').
Proof.
  induction 1 as [p idx | p idx q idx' Hp Hu H6 Hc C IH];
    intros fuel upd st Hm Hi Hf Hq He;
    (destruct fuel as [|fuel]; [lia|]).
  - rewrite readPage_loop_end by (rewrite ?Hm; assumption).
    subst idx. now rewrite set_pRecords_same.
  - pose proof (scans_to_le _ _ _ _ _ _ C) as Hle.
    subst m idx. rewrite readPage_loop_step by assumption.
    rewrite IH; [reflexivity | reflexivity | reflexivity | lia
                 | assumption | assumption].
Qed.

Lemma apply_record_ext m m' p idx :
  (forall a, p <= a < p + 2 -> rd8 m' a = rd8 m a) ->
  apply_record m' p idx = apply_record m p idx.
Proof.
  intros E. unfold apply_record, dataHdr_Magic, dataHdr_Uid.
  rewrite (E p), (E (p + 1)) by lia. reflexivity.
Qed.

Lemma readPage_siz_ext m m' p :
  (forall a, p + 2 <= a < p + 4 -> rd8 m' a = rd8 m a) ->
  readPage_siz m' p = readPage_siz m p.
Proof.
  intros E. unfold readPage_siz, dataHdr_Siz.
  rewrite (E (p + 2)), (E (p + 3)) by lia. reflexivity.
Qed.

(** A chain depends on the bytes it spans only. *)
Lemma scans_to_ext m m' page p idx q idx' :
  scans_to m page p idx q idx' ->
  (forall a, p <= a < q -> rd8 m' a = rd8 m a) ->
  scans_to m' page p idx q idx'.
Proof.
  induction 1 as [p idx | p idx q idx' Hp Hu H6 Hc C IH]; intros E;
    [constructor|].
  pose proof (scans_to_le _ _ _ _ _ _ C) as Hle.
  assert (Hs : readPage_siz m' p = readPage_siz m p)
    by (apply readPage_siz_ext; intros; apply E; lia).
  apply scans_next.
  - exact Hp.
  - unfold dataHdr_Uid in *. rewrite E by lia. exact Hu.
  - now rewrite Hs.
  - rewrite Hs, (read_bytes_ext8 m' m); [exact Hc|].
    intros; apply E; lia.
  - rewrite Hs, (apply_record_ext m m') by (intros; apply E; lia).
    apply IH. intros; apply E; lia.
Qed.

(** A chain grows by a record at its end. *)
Lemma scans_to_snoc m page p idx q idx' :
  scans_to m page p idx q idx' ->
  BSP_FLASH_ADDRTOPAGE q = page ->
  dataHdr_Uid m q < FDS_NUM_RECORDS ->
  6 <= readPage_siz m q ->
  crc8_calc 0 (read_bytes m q (readPage_siz m q)) = 0 ->
  scans_to m page p idx (q + readPage_siz m q) (apply_record m q idx').
Proof.
  induction 1 as [p idx | p idx q idx' Hp Hu H6 Hc C IH]; intros.
  - apply scans_next; auto. constructor.
  - apply scans_next; auto.
Qed.

Lemma getPageid_ext m m' page :
  (forall a,
     BSP_FLASH_PAGETOADDR (u16 (page + FDS_FIRSTFLASHPAGE)) <= a
     < BSP_FLASH_PAGETOADDR (u16 (page + FDS_FIRSTFLASHPAGE)) + 4 ->
     rd8 m' a = rd8 m a) ->
  getPageid m' page = getPageid m page.
Proof.
  intros E. unfold getPageid, pageHdr_Id. cbv zeta.
  rewrite (read_bytes_ext8 m' m) by (intros; apply E; lia).
  rewrite !E by lia. reflexivity.
Qed.

Lemma getPageid_erased m page :
  (forall a,
     BSP_FLASH_PAGETOADDR (u16 (page + FDS_FIRSTFLASHPAGE)) <= a
     < BSP_FLASH_PAGETOADDR (u16 (page + FDS_FIRSTFLASHPAGE)) + 4 ->
     rd8 m a = 0xFF) ->
  getPageid m page = 0xFFFF.
Proof.
  intros E. unfold getPageid, pageHdr_Id. cbv zeta.
  rewrite !E by lia. destruct (_ =? 0); reflexivity.
Qed.

Lemma first_base_nonneg :
  0 <= FLASH_BASE -> 0 < FLASH_PAGE_SIZE -> 0 <= first_base.
Proof.
  intros Hb Hs. unfold first_base, first_page, BSP_FLASH_PAGETOADDR, u16.
  pose proof (Z.mod_pos_bound (0 + FDS_FIRSTFLASHPAGE) 65536 ltac:(lia)).
  nia.
Qed.

Lemma in_page_bounds a page :
  0 < FLASH_PAGE_SIZE ->
  BSP_FLASH_ADDRTOPAGE a = page ->
  BSP_FLASH_PAGETOADDR page <= a
  < BSP_FLASH_PAGETOADDR page + FLASH_PAGE_SIZE.
Proof.
  intros Hs. unfold BSP_FLASH_ADDRTOPAGE, BSP_FLASH_PAGETOADDR. intros <-.
  pose proof (Z.mul_div_le (a - FLASH_BASE) FLASH_PAGE_SIZE Hs).
  pose proof (Z.mul_succ_div_gt (a - FLASH_BASE) FLASH_PAGE_SIZE Hs).
  lia.
Qed.

(** A page with a header and a later neighbour is scanned, and the loop
    goes on when the scan returns [FDS_OK]. *)
Lemma init_loop_scanned page rest upd st st1 :
  readPage page upd st = Some (FDS_OK, st1) ->
  getPageid (flash st) page <> 0xFFFF ->
  0 < u16 (getPageid (flash st) (wrapInc page 1 FDS_NUM_PAGES)
           - getPageid (flash st) page) ->
  init_loop ([page] ++ rest) upd st
  = init_loop rest
      (if 2 <? u16 (getPageid (flash st) (wrapInc page 1 FDS_NUM_PAGES)
                    - getPageid (flash st) page)
       then false else true) st1.
Proof.
  intros R Hid Hd. cbn [app init_loop].
  apply Z.eqb_neq in Hid. rewrite Hid.
  apply Z.ltb_lt in Hd. rewrite Hd, R. reflexivity.
Qed.

(** Initialisation over a store whose log lies in the first page: the
    scan rebuilds the index and the write pointer of [st] from the flash
    alone. *)
Lemma init_with_recovers fmt st st0 :
  0 <= FLASH_BASE -> 0 < FLASH_PAGE_SIZE ->
  first_page_store st ->
  InitDone st0 = false ->
  flash st0 = flash st ->
  flashOps st0 = flashOps st ->
  init_with fmt false st0 = Some (FDS_OK, st).
Proof.
  intros Hb Hs [Hi Hh Hsp Hc Hp Ht] H0 Hf Ho.
  pose proof (scans_to_le _ _ _ _ _ _ Hc) as Hle.
  pose proof (in_page_bounds _ _ Hs Hp) as Hpb. fold first_base in Hpb.
  pose proof (first_base_nonneg Hb Hs) as Hfb.
  set (s0 := init_clear st0).
  assert (R : readPage 0 true s0
              = Some (FDS_OK,
                      set_pWrite (set_pRecords s0 (pRecords st))
                        (pWrite st))).
  { unfold readPage. fold first_page. fold first_base.
    apply (readPage_loop_chain _ _ _ _ _ _ Hc);
      [exact Hf | reflexivity | unfold readPage_fuel; lia | exact Hp
       | intros a Ha; apply Ht; lia]. }
  assert (L : init_loop fds_pages true s0
              = Some (FDS_OK,
                      set_pWrite (set_pRecords s0 (pRecords st))
                        (pWrite st))).
  { change fds_pages with ([0] ++ [1; 2; 3]).
    rewrite (init_loop_scanned 0 [1; 2; 3] true s0 _ R).
    - apply init_loop_all_sentinel. intros page Hin.
      cbn [flash set_pWrite set_pRecords init_clear s0].
      rewrite Hf. apply Hsp. exact Hin.
    - subst s0. cbn [flash init_clear set_pWrite set_pRecords].
      rewrite Hf, Hh. discriminate.
    - subst s0. cbn [flash init_clear set_pWrite set_pRecords].
      rewrite Hf, Hh. change (wrapInc 0 1 FDS_NUM_PAGES) with 1.
      rewrite (Hsp 1) by (cbn; auto). reflexivity. }
  unfold init_with; run_m. rewrite H0. cbn [negb]. fold s0. rewrite L.
  cbn [is_ok negb orb pWrite set_pWrite].
  replace (pWrite st =? 0) with false by (symmetry; apply Z.eqb_neq; lia).
  f_equal. f_equal.
  destruct st, st0; cbn in *. subst. reflexivity.
Qed.

(** The scan of a log that ends at an erased header comes to the records
    of the log and to its end, and to nothing else. *)
Lemma scans_to_covers m page p idx P idx1 :
  scans_to m page p idx P idx1 ->
  FDS_NUM_RECORDS <= dataHdr_Uid m P ->
  forall idx2 q idx2',
    scan_reaches m page p idx2 q idx2' ->
    dataHdr_Uid m q < FDS_NUM_RECORDS ->
    readPage_siz m q <> 0.
Proof.
  induction 1 as [p idx | p idx P idx1 Hp Hu H6 Hc C IH];
    intros Hend idx2 q idx2' R Hq.
  - inversion R; subst; lia.
  - inversion R; subst; [lia|].
    eapply IH; eauto.
Qed.

(** On a store whose log lies in the first page, no record header that
    the scan of a page with a sequence number comes to gives a span of
    zero. *)
Lemma store_scan_spans st rel :
  0 < FLASH_PAGE_SIZE ->
  first_page_store st ->
  In rel fds_pages ->
  getPageid (flash st) rel <> 0xFFFF ->
  scan_spans_positive (flash st) rel.
Proof.
  intros Hs [Hi Hh Hsp Hc Hp Ht] Hin Hid.
  change fds_pages with [0; 1; 2; 3] in Hin.
  destruct Hin as [<- | Hin]; [|exfalso; apply Hid, Hsp, Hin].
  unfold scan_spans_positive. fold first_page. fold first_base.
  intros idx q idx' R _ Hq.
  apply (scans_to_covers _ _ _ _ _ _ Hc) with (idx2 := idx) (idx2' := idx');
    [|exact R | exact Hq].
  pose proof (scans_to_le _ _ _ _ _ _ Hc) as Hle.
  pose proof (in_page_bounds _ _ Hs Hp) as Hb. fold first_base in Hb.
  unfold dataHdr_Uid. rewrite Ht by lia. unfold FDS_NUM_RECORDS. lia.
Qed.

(** X12. The index is a function of the flash: on a store whose log lies
    in the first page of the region, [init(false)] after a restart -- the
    RAM state lost, the flash kept -- returns [FDS_OK] and rebuilds the
    very index and write pointer the store had. *)
Theorem init_rebuilds_index (st : Fds) (ram : list Z) :
  0 <= FLASH_BASE -> 0 < FLASH_PAGE_SIZE ->
  first_page_store st ->
  init false (reboot st ram) = Some (FDS_OK, st).
Proof.
  intros Hb Hs S. unfold init.
  apply init_with_recovers; auto.
Qed.

Section Driver.

(** The contract of the flash driver for a call that reports success. *)
Hypothesis prog_stores : forall m dest src m',
  bspFlashProg m dest src = (BSP_OK, m') ->
  forall a, m' a = poke m dest src a.

Lemma writeToFlash_ok_poke data siz c st st' :
  writeToFlash data siz c st = Some (FDS_OK, st') ->
  InitDone st' = InitDone st
  /\ pRecords st' = pRecords st
  /\ pWrite st' = pWrite st + 2 * (siz / 2)
  /\ (forall a, flash st' a
                = poke (flash st) (pWrite st) (firstn (Z.to_nat siz) data) a)
  /\ flashOps st'
     = flashOps st ++ [OpProg (pWrite st) (firstn (Z.to_nat siz) data)]
  /\ (c = true ->
      crc8_calc 0 (read_bytes (flash st') (pWrite st) siz) = 0).
Proof.
  unfold writeToFlash.
  destruct (bspFlashProg (flash st) (pWrite st) _) as [[|] m'] eqn:E;
    [|discriminate].
  pose proof (prog_stores _ _ _ _ E) as Hm.
  destruct c; cbn [negb].
  - destruct (_ =? 0) eqn:C; intros X; inv X.
    cbn [InitDone pRecords pWrite flash flashOps set_pWrite set_flash] in *.
    apply Z.eqb_eq in C. repeat split; auto.
  - intros X; inv X.
    cbn [InitDone pRecords pWrite flash flashOps set_pWrite set_flash].
    repeat split; auto. discriminate.
Qed.

Lemma u8_u8 x : u8 (u8 x) = u8 x.
Proof. unfold u8. apply Zmod_mod. Qed.

Lemma u16_u16 x : u16 (u16 x) = u16 x.
Proof. unfold u16. apply Zmod_mod. Qed.

Lemma rd8_range m a : 0 <= rd8 m a < 256.
Proof. unfold rd8, u8. apply Z.mod_pos_bound. lia. Qed.

(** The header fields of a record image in the flash. *)
Lemma record_image_header (m' m : Mem) P uid d n :
  (forall a, m' a = poke m P (record_image uid d n) a) ->
  0 <= uid < FDS_NUM_RECORDS ->
  0 < n <= FDS_MAX_DATABYTES ->
  dataHdr_Magic m' P = FDS_DATAMAGIC
  /\ dataHdr_Uid m' P = uid
  /\ dataHdr_Siz m' P = n
  /\ readPage_siz m' P = record_span n.
Proof.
  intros E Hu Hn. unfold FDS_NUM_RECORDS, FDS_MAX_DATABYTES in *.
  pose proof (length_record_image uid d n ltac:(lia)) as Hl.
  destruct (payload_even_facts n ltac:(lia)) as (H0 & Hev & _).
  assert (Hb : forall i, 0 <= i < 4 ->
            rd8 m' (P + i)
            = u8 (nth (Z.to_nat i) (dataHdr_bytes FDS_DATAMAGIC uid n) 0)).
  { intros i Hi. unfold rd8. rewrite E.
    rewrite poke_inside by (unfold record_span in Hl; lia).
    replace (P + i - P) with i by lia.
    unfold record_image. rewrite app_nth1 by (cbn [length dataHdr_bytes]; lia).
    reflexivity. }
  assert (Hm : dataHdr_Magic m' P = FDS_DATAMAGIC).
  { unfold dataHdr_Magic. rewrite <- (Z.add_0_r P), (Hb 0) by lia.
    reflexivity. }
  assert (Hu' : dataHdr_Uid m' P = uid).
  { unfold dataHdr_Uid. rewrite (Hb 1) by lia.
    change (nth (Z.to_nat 1) (dataHdr_bytes FDS_DATAMAGIC uid n) 0)
      with (u8 uid).
    rewrite u8_u8. unfold u8. apply Z.mod_small. lia. }
  assert (Hs : dataHdr_Siz m' P = n).
  { unfold dataHdr_Siz. rewrite (Hb 2), (Hb 3) by lia.
    change (nth (Z.to_nat 2) (dataHdr_bytes FDS_DATAMAGIC uid n) 0)
      with (u8 n).
    change (nth (Z.to_nat 3) (dataHdr_bytes FDS_DATAMAGIC uid n) 0)
      with (u8 (u16 n / 256)).
    unfold u8, u16. Z.to_euclidean_division_equations. lia. }
  repeat split; auto.
  unfold readPage_siz. rewrite Hs. unfold record_span.
  replace (u16 (4 + n + 2)) with (4 + n + 2)
    by (unfold u16; symmetry; apply Z.mod_small; lia).
  unfold payload_even.
  destruct (n mod 2 =? 0) eqn:Pn; cbn [negb];
    [apply Z.eqb_eq in Pn | apply Z.eqb_neq in Pn].
  - replace ((4 + n + 2) mod 2 =? 0) with true
      by (symmetry; apply Z.eqb_eq; Z.to_euclidean_division_equations; lia).
    cbn [negb]. lia.
  - replace ((4 + n + 2) mod 2 =? 0) with false
      by (symmetry; apply Z.eqb_neq; Z.to_euclidean_division_equations;
          lia).
    cbn [negb]. unfold u16. rewrite Z.mod_small by lia. lia.
Qed.

Lemma room_equiv P n :
  0 < n ->
  (let n' := if negb (n mod 2 =? 0) then n - 1 else n in
   BSP_FLASH_ADDRTOPAGE P
   = BSP_FLASH_ADDRTOPAGE (P + 2 * ((4 + n' + 2) / 2)))
  <-> BSP_FLASH_ADDRTOPAGE P = BSP_FLASH_ADDRTOPAGE (P + record_span n).
Proof.
  intros Hn. destruct (payload_even_facts n Hn) as (_ & _ & Hs & _).
  cbv zeta. fold (payload_even n). rewrite Hs. reflexivity.
Qed.

(** What a [write] that found room and returned [FDS_OK] has left: the
    record image at the old write pointer, verified by its CRC, the index
    entry on it, the write pointer behind it. *)
Lemma write_in_page_inv uid d n st st' :
  InitDone st = true ->
  0 < n <= FDS_MAX_DATABYTES ->
  uid < FDS_NUM_RECORDS ->
  BSP_FLASH_ADDRTOPAGE (pWrite st)
  = BSP_FLASH_ADDRTOPAGE (pWrite st + record_span n) ->
  write uid d n st = Some (FDS_OK, st') ->
  InitDone st' = true
  /\ pRecords st' = rec_set (pRecords st) uid (pWrite st)
  /\ pWrite st' = pWrite st + record_span n
  /\ (forall a, flash st' a
                = poke (flash st) (pWrite st) (record_image uid d n) a)
  /\ crc8_calc 0 (read_bytes (flash st') (pWrite st) (record_span n)) = 0.
Proof.
  intros Hi Hn Hu Hpage E.
  destruct (payload_even_facts n ltac:(lia)) as (Hn0 & Hev & Hs1 & Hs2).
  unfold write in E; run_m. rewrite if_app in E.
  replace ((n =? 0) || (FDS_MAX_DATABYTES <? n)) with false in E
    by (symmetry; apply orb_false_iff; rewrite Z.eqb_neq, Z.ltb_ge; lia).
  rewrite if_app in E.
  replace (FDS_NUM_RECORDS <=? uid) with false in E
    by (symmetry; now apply Z.leb_gt).
  rewrite (lazy_init_done st Hi) in E. cbn [is_ok negb] in E.
  fold (payload_even n) in E.
  set (n' := payload_even n) in *.
  set (ftrData := if negb (n mod 2 =? 0) then buf_at d (n - 1) else 0).
  assert (Hpair :
    (if negb (n mod 2 =? 0) then (n - 1, buf_at d (n - 1)) else (n, 0))
    = (n', ftrData)).
  { subst n' ftrData. unfold payload_even. now destruct (negb _). }
  rewrite Hpair in E. cbv beta iota zeta in E.
  rewrite Hs1, Hs2 in E.
  apply Z.eqb_eq in Hpage. rewrite if_app, Hpage in E.
  cbn [negb is_ok] in E.
  set (hdr := dataHdr_bytes FDS_DATAMAGIC uid n) in *.
  destruct (writeToFlash hdr 4 false st) as [[r2 s2]|] eqn:E2;
    [|discriminate].
  destruct (is_ok r2) eqn:K2; norm_in E; [|inv E].
  destruct r2; try discriminate K2.
  destruct (if 0 <? n' then writeToFlash (buf_bytes d n') n' false s2
            else Some (FDS_OK, s2)) as [[r3 s3]|] eqn:E3; [|discriminate].
  destruct (is_ok r3) eqn:K3; norm_in E; [|inv E].
  destruct r3; try discriminate K3.
  match type of E with
  | context [writeToFlash ?f 2 false s3] =>
      set (ftr := f) in *;
      destruct (writeToFlash ftr 2 false s3) as [[r4 s4]|] eqn:E4;
        [|discriminate]
  end.
  destruct (is_ok r4) eqn:K4; norm_in E; [|inv E].
  destruct r4; try discriminate K4.
  destruct (negb (crc8_calc 0 _ =? 0)) eqn:C in E; inv E.
  apply negb_false_iff, Z.eqb_eq in C.
  apply writeToFlash_ok_poke in E2.
  destruct E2 as (I2 & R2 & W2 & F2 & _).
  apply writeToFlash_ok_poke in E4.
  destruct E4 as (I4 & R4 & W4 & F4 & _).
  change (2 * (4 / 2)) with 4 in W2. change (2 * (2 / 2)) with 2 in W4.
  change (firstn (Z.to_nat 4) hdr) with hdr in F2.
  change (firstn (Z.to_nat 2) ftr) with ftr in F4.
  set (P := pWrite st) in *.
  assert (H3 : InitDone s3 = InitDone s2 /\ pRecords s3 = pRecords s2
               /\ pWrite s3 = P + 4 + n'
               /\ forall a, flash s3 a
                  = poke (flash s2) (P + 4) (buf_bytes d n') a).
  { destruct (0 <? n') eqn:Z3.
    - apply Z.ltb_lt in Z3. apply writeToFlash_ok_poke in E3.
      destruct E3 as (I3 & R3 & W3 & F3 & _).
      rewrite firstn_all2 in F3 by (rewrite length_buf_bytes; lia).
      rewrite W2 in W3, F3. repeat split; auto.
      rewrite W3. Z.to_euclidean_division_equations. lia.
    - apply Z.ltb_ge in Z3. inv E3. assert (n' = 0) as -> by lia.
      repeat split; auto; try lia.
      intros a. change (buf_bytes d 0) with (@nil Z).
      now rewrite poke_nil. }
  destruct H3 as (I3 & R3 & W3 & F3).
  cbn [InitDone pRecords pWrite flash set_pRecords].
  repeat split.
  - congruence.
  - congruence.
  - rewrite W4, W3. unfold record_span. fold n'. lia.
  - intros a. rewrite F4, W3.
    rewrite (poke_ext _ (poke (poke (flash st) P hdr) (P + 4)
                           (buf_bytes d n')))
      by (intros x; rewrite F3; apply poke_ext; exact F2).
    replace (P + 4) with (P + Z.of_nat (length hdr)) by reflexivity.
    rewrite (poke_ext _ (poke (flash st) P (hdr ++ buf_bytes d n')))
      by (intros x; apply poke_app).
    replace (P + Z.of_nat (length hdr) + n')
      with (P + Z.of_nat (length (hdr ++ buf_bytes d n')))
      by (rewrite length_app, length_buf_bytes; lia).
    rewrite poke_app. unfold record_image. fold hdr. fold n'.
    rewrite <- app_assoc. subst ftr. fold ftrData.
    replace (if 0 <? n'
             then crc8_calc (crc8_calc 0 hdr) (buf_bytes d n')
             else crc8_calc 0 hdr)
      with (crc8_calc 0 (hdr ++ buf_bytes d n')); [reflexivity|].
    rewrite crc8_calc_app. destruct (0 <? n') eqn:Z3; [reflexivity|].
    apply Z.ltb_ge in Z3. assert (n' = 0) as -> by lia. reflexivity.
  - exact C.
Qed.


(** X14. [relocate], when it returns [FDS_OK], has copied the bytes of
    the record at the old index entry to the write pointer and moved the
    write pointer behind the copy; the new index entry is that moved
    write pointer, the address behind the copy. *)
Theorem relocate_copies_and_indexes_end (n : Z) (st st' : Fds) :
  (Z.to_nat n < length (pRecords st))%nat ->
  relocate n st = Some (FDS_OK, st') ->
  let src := rec_at (pRecords st) n in
  let siz := relocate_siz (flash st) src in
  read_bytes (flash st') (pWrite st) siz = read_bytes (flash st) src siz
  /\ pWrite st' = pWrite st + siz
  /\ rec_at (pRecords st') n = pWrite st + siz.
Proof.
  intros Hl. unfold relocate; run_m. fold (relocate_siz (flash st)
                                            (rec_at (pRecords st) n)).
  set (src := rec_at (pRecords st) n).
  set (siz := relocate_siz (flash st) src).
  destruct (writeToFlash (read_bytes (flash st) src siz) siz true st)
    as [[r1 s1]|] eqn:E; [|discriminate].
  destruct (is_ok r1) eqn:K; norm; intros X; inv X; [|discriminate K].
  apply writeToFlash_ok_poke in E.
  destruct E as (_ & Hr & Hw & Hf & _).
  assert (Hsz : 0 <= siz /\ 2 * (siz / 2) = siz).
  { subst siz. unfold relocate_siz, dataHdr_Siz.
    pose proof (rd8_range (flash st) (src + 2)).
    pose proof (rd8_range (flash st) (src + 3)).
    destruct (negb _) eqn:P; unfold u16.
    - apply negb_true_iff, Z.eqb_neq in P.
      Z.to_euclidean_division_equations. lia.
    - apply negb_false_iff, Z.eqb_eq in P.
      Z.to_euclidean_division_equations. lia. }
  destruct Hsz as (Hs0 & Hs2).
  assert (Hlen : length (read_bytes (flash st) src siz) = Z.to_nat siz)
    by (unfold read_bytes; now rewrite length_map, length_seq).
  rewrite firstn_all2 in Hf by lia.
  cbv zeta. cbn [pRecords pWrite flash set_pRecords].
  repeat split.
  - replace siz with (Z.of_nat (length (read_bytes (flash st) src siz)))
      at 1 by lia.
    rewrite (read_bytes_poke _ _ _ _ Hf).
    unfold read_bytes. rewrite map_map. apply map_ext.
    intros i. unfold rd8. apply u8_u8.
  - lia.
  - rewrite Hr. unfold rec_at, rec_set. rewrite nth_upd_nth_same by lia.
    lia.
Qed.

(** What a [writePageHdr] that returns [FDS_OK] has done. *)
Lemma writePageHdr_ok_inv page id st st' :
  writePageHdr page id st = Some (FDS_OK, st') ->
  let B := BSP_FLASH_PAGETOADDR (u16 (page + FDS_FIRSTFLASHPAGE)) in
  getPageid (flash st') page = u16 id
  /\ pWrite st' = B + 4
  /\ InitDone st' = InitDone st
  /\ pRecords st' = pRecords st
  /\ (forall a,
        flash st' a
        = poke (flash st) B
            (pageHdr_bytes id ++ [crc8_calc 0 (pageHdr_bytes id)]) a).
Proof.
  unfold writePageHdr; run_m. intros E.
  apply writeToFlash_ok_poke in E.
  destruct E as (Hi & Hr & Hw & Hf & _ & Hc).
  cbn [pWrite flash set_pWrite InitDone pRecords] in *.
  specialize (Hc eq_refl).
  set (B := BSP_FLASH_PAGETOADDR (u16 (page + FDS_FIRSTFLASHPAGE))) in *.
  change (firstn (Z.to_nat 4)
            (pageHdr_bytes id ++ [crc8_calc 0 (pageHdr_bytes id)]))
    with (pageHdr_bytes id ++ [crc8_calc 0 (pageHdr_bytes id)]) in Hf.
  cbv zeta. repeat split; auto.
  unfold getPageid. fold B. rewrite Hc. cbn [Z.eqb].
  unfold pageHdr_Id, rd8. rewrite !Hf.
  rewrite !poke_inside by (cbn [length app pageHdr_bytes Z.of_nat]; lia).
  replace (Z.to_nat (B + 1 - B)) with 1%nat by lia.
  replace (Z.to_nat (B + 2 - B)) with 2%nat by lia.
  cbn [nth app pageHdr_bytes]. rewrite !u8_u8.
  unfold u8, u16. Z.to_euclidean_division_equations. lia.
Qed.

(** X15. Page header round trip: when [writePageHdr(page, id)] returns
    [FDS_OK], [getPageid(page)] reads the sequence number back (as a
    16 bit number), and the write pointer stands behind the header. *)
Theorem page_header_round_trip (page id : Z) (st st' : Fds) :
  writePageHdr page id st = Some (FDS_OK, st') ->
  getPageid (flash st') page = u16 id
  /\ pWrite st'
     = BSP_FLASH_PAGETOADDR (u16 (page + FDS_FIRSTFLASHPAGE)) + 4.
Proof.
  intros E. destruct (writePageHdr_ok_inv _ _ _ _ E) as (A & B & _).
  split; assumption.
Qed.

(** X16. A [write] that stays in its page does not disturb the records
    behind it in the log: for another [uid'] whose indexed record lies
    below the write pointer, [read] returns after the write what it
    returned before. *)
Theorem write_keeps_other_records (uid uid' : Z) (d buf : list Z)
    (n siz : Z) (st st' : Fds) :
  InitDone st = true ->
  0 <= uid < FDS_NUM_RECORDS ->
  0 <= uid' < FDS_NUM_RECORDS ->
  uid' <> uid ->
  0 < n <= FDS_MAX_DATABYTES ->
  BSP_FLASH_ADDRTOPAGE (pWrite st)
  = BSP_FLASH_ADDRTOPAGE (pWrite st + record_span n) ->
  (let p := rec_at (pRecords st) uid' in
   p + 4 + dataHdr_Siz (flash st) p <= pWrite st) ->
  write uid d n st = Some (FDS_OK, st') ->
  option_map fst (read uid' (Some buf) siz st')
  = option_map fst (read uid' (Some buf) siz st).
Proof.
  intros Hi Hu Hu' Hne Hn Hpage Hbelow E.
  destruct (write_in_page_inv uid d n st st' Hi Hn ltac:(lia) Hpage E)
    as (Hi' & Hr & _ & Hf & _).
  cbv zeta in Hbelow.
  set (p := rec_at (pRecords st) uid') in *.
  assert (Hp : rec_at (pRecords st') uid' = p).
  { rewrite Hr. apply rec_at_set_other; lia. }
  assert (Hlow : forall a, a < pWrite st -> rd8 (flash st') a
                                            = rd8 (flash st) a).
  { intros a Ha. unfold rd8. rewrite Hf, poke_outside by lia.
    reflexivity. }
  pose proof (rd8_range (flash st) (p + 2)).
  pose proof (rd8_range (flash st) (p + 3)).
  assert (Hsz : dataHdr_Siz (flash st') p = dataHdr_Siz (flash st) p).
  { unfold dataHdr_Siz in *. rewrite !Hlow by lia. reflexivity. }
  unfold read; run_m.
  rewrite (lazy_init_done st Hi), (lazy_init_done st' Hi'). norm.
  destruct ((FDS_NUM_RECORDS <=? uid') || is_null (Some buf) || (siz =? 0));
    [reflexivity|].
  rewrite Hp. fold p. destruct (p =? 0); [reflexivity|].
  cbn [option_map fst]. rewrite Hsz.
  do 4 f_equal.
  unfold read_bytes. apply map_ext_in. intros i Hin. apply in_seq in Hin.
  apply Hlow. unfold dataHdr_Siz in *. lia.
Qed.

(** What a [del] that returns [FDS_OK] has left in the flash. *)
Lemma del_flash_inv uid st st' :
  InitDone st = true ->
  del uid st = Some (FDS_OK, st') ->
  uid < FDS_NUM_RECORDS
  /\ (forall a, flash st' a = poke (flash st) (pWrite st) (del_image uid) a)
  /\ crc8_calc 0 (read_bytes (flash st') (pWrite st) 6) = 0.
Proof.
  intros Hi. unfold del; run_m. rewrite (lazy_init_done st Hi). norm.
  destruct (FDS_NUM_RECORDS <=? uid) eqn:U; [discriminate|].
  apply Z.leb_gt in U.
  set (hdr := dataHdr_bytes FDS_DELMAGIC uid 0).
  destruct (writeToFlash hdr 4 false st) as [[r2 s2]|] eqn:E2;
    [|discriminate].
  destruct (is_ok r2) eqn:K2; norm; [|intros X; inv X; discriminate K2].
  destruct r2; try discriminate K2.
  match goal with
  | |- context [writeToFlash ?f 2 false s2] =>
      set (ftr := f);
      destruct (writeToFlash ftr 2 false s2) as [[r4 s4]|] eqn:E4;
        [|discriminate]
  end.
  destruct (is_ok r4) eqn:K4; norm; [|intros X; inv X; discriminate K4].
  destruct r4; try discriminate K4.
  destruct (negb (crc8_calc 0 _ =? 0)) eqn:C; intros X; inv X.
  apply negb_false_iff, Z.eqb_eq in C.
  apply writeToFlash_ok_poke in E2.
  destruct E2 as (_ & _ & W2 & F2 & _).
  apply writeToFlash_ok_poke in E4.
  destruct E4 as (_ & _ & W4 & F4 & _).
  change (2 * (4 / 2)) with 4 in W2.
  change (firstn (Z.to_nat 4) hdr) with hdr in F2.
  change (firstn (Z.to_nat 2) ftr) with ftr in F4.
  cbn [flash set_pRecords]. repeat split; [exact U | | exact C].
  intros a. rewrite F4, W2.
  rewrite (poke_ext _ (poke (flash st) (pWrite st) hdr)) by exact F2.
  replace (pWrite st + 4) with (pWrite st + Z.of_nat (length hdr))
    by reflexivity.
  rewrite poke_app. reflexivity.
Qed.

(** The header fields of a deletion record in the flash. *)
Lemma del_image_header (m' m : Mem) P uid :
  (forall a, m' a = poke m P (del_image uid) a) ->
  0 <= uid < FDS_NUM_RECORDS ->
  dataHdr_Magic m' P = FDS_DELMAGIC
  /\ dataHdr_Uid m' P = uid
  /\ readPage_siz m' P = 6.
Proof.
  intros E Hu. unfold FDS_NUM_RECORDS in Hu.
  assert (Hb : forall i, 0 <= i < 4 ->
            rd8 m' (P + i)
            = u8 (nth (Z.to_nat i) (dataHdr_bytes FDS_DELMAGIC uid 0) 0)).
  { intros i Hi. unfold rd8. rewrite E.
    rewrite poke_inside by (cbn [length del_image dataHdr_bytes app]; lia).
    replace (P + i - P) with i by lia.
    unfold del_image. rewrite app_nth1 by (cbn [length dataHdr_bytes]; lia).
    reflexivity. }
  repeat split.
  - unfold dataHdr_Magic. rewrite <- (Z.add_0_r P), (Hb 0) by lia.
    reflexivity.
  - unfold dataHdr_Uid. rewrite (Hb 1) by lia.
    change (nth (Z.to_nat 1) (dataHdr_bytes FDS_DELMAGIC uid 0) 0)
      with (u8 uid).
    rewrite u8_u8. unfold u8. apply Z.mod_small. lia.
  - unfold readPage_siz, dataHdr_Siz. rewrite (Hb 2), (Hb 3) by lia.
    reflexivity.
Qed.

Lemma rd8_poke_outside (m' m : Mem) dest src a :
  (forall x, m' x = poke m dest src x) ->
  a < dest \/ dest + Z.of_nat (length src) <= a ->
  rd8 m' a = rd8 m a.
Proof. intros E Ha. unfold rd8. now rewrite E, poke_outside. Qed.

(** The three program calls of a [write] composed. *)
Lemma record_pokes (m m2 m3 m4 : Mem) P uid d n :
  0 < n ->
  let n' := payload_even n in
  let hdr := dataHdr_bytes FDS_DATAMAGIC uid n in
  let data := buf_bytes d n' in
  let ftrData := if negb (n mod 2 =? 0) then buf_at d (n - 1) else 0 in
  let crcd := if 0 <? n' then crc8_calc (crc8_calc 0 hdr) data
              else crc8_calc 0 hdr in
  (forall a, m2 a = poke m P hdr a) ->
  (forall a, m3 a = poke m2 (P + 4) data a) ->
  (forall a, m4 a = poke m3 (P + 4 + n') [ftrData; crc8_step crcd ftrData] a) ->
  forall a, m4 a = poke m P (record_image uid d n) a.
Proof.
  intros Hn n' hdr data ftrData crcd F2 F3 F4 a.
  destruct (payload_even_facts n Hn) as (Hn0 & _). fold n' in Hn0.
  rewrite F4.
  rewrite (poke_ext _ (poke (poke m P hdr) (P + 4) data))
    by (intros x; rewrite F3; apply poke_ext; exact F2).
  replace (P + 4) with (P + Z.of_nat (length hdr)) by reflexivity.
  rewrite (poke_ext _ (poke m P (hdr ++ data)))
    by (intros x; apply poke_app).
  replace (P + Z.of_nat (length hdr) + n')
    with (P + Z.of_nat (length (hdr ++ data)))
    by (unfold data; rewrite length_app, length_buf_bytes;
        cbn [length hdr dataHdr_bytes]; lia).
  rewrite poke_app. unfold record_image. fold n'. fold hdr. fold data.
  rewrite <- app_assoc. fold ftrData.
  replace (crc8_calc 0 (hdr ++ data)) with crcd; [reflexivity|].
  unfold crcd. rewrite crc8_calc_app. destruct (0 <? n') eqn:Z3;
    [reflexivity|].
  apply Z.ltb_ge in Z3. unfold data.
  replace n' with 0 by lia. reflexivity.
Qed.

(** A [write] in the current page whose three program calls succeed and
    whose record checks. *)
Lemma write_in_page_eq uid d n st s2 s3 s4 :
  InitDone st = true ->
  0 < n <= FDS_MAX_DATABYTES ->
  uid < FDS_NUM_RECORDS ->
  BSP_FLASH_ADDRTOPAGE (pWrite st)
  = BSP_FLASH_ADDRTOPAGE (pWrite st + record_span n) ->
  let n' := payload_even n in
  let hdr := dataHdr_bytes FDS_DATAMAGIC uid n in
  let data := buf_bytes d n' in
  let ftrData := if negb (n mod 2 =? 0) then buf_at d (n - 1) else 0 in
  let crcd := if 0 <? n' then crc8_calc (crc8_calc 0 hdr) data
              else crc8_calc 0 hdr in
  writeToFlash hdr 4 false st = Some (FDS_OK, s2) ->
  (if 0 <? n' then writeToFlash data n' false s2 else Some (FDS_OK, s2))
  = Some (FDS_OK, s3) ->
  writeToFlash [ftrData; crc8_step crcd ftrData] 2 false s3
  = Some (FDS_OK, s4) ->
  crc8_calc 0 (read_bytes (flash s4) (pWrite st) (record_span n)) = 0 ->
  write uid d n st
  = Some (FDS_OK, set_pRecords s4 (rec_set (pRecords s4) uid (pWrite st))).
Proof.
  intros Hi Hn Hu Hpage n' hdr data ftrData crcd E2 E3 E4 C.
  destruct (payload_even_facts n ltac:(lia)) as (Hn0 & Hev & Hs1 & Hs2).
  subst crcd data hdr. unfold write; run_m. rewrite if_app.
  replace ((n =? 0) || (FDS_MAX_DATABYTES <? n)) with false
    by (symmetry; apply orb_false_iff; rewrite Z.eqb_neq, Z.ltb_ge; lia).
  rewrite if_app.
  replace (FDS_NUM_RECORDS <=? uid) with false
    by (symmetry; now apply Z.leb_gt).
  rewrite (lazy_init_done st Hi). cbn [is_ok negb].
  fold (payload_even n). fold n'.
  assert (Hpair :
    (if negb (n mod 2 =? 0) then (n - 1, buf_at d (n - 1)) else (n, 0))
    = (n', ftrData)).
  { subst n' ftrData. unfold payload_even. now destruct (negb _). }
  rewrite Hpair. cbv beta iota zeta.
  fold n' in Hs1, Hs2. rewrite Hs1, Hs2.
  apply Z.eqb_eq in Hpage. rewrite if_app, Hpage.
  cbn [negb is_ok]. rewrite E2. norm. rewrite E3. norm. rewrite E4. norm.
  rewrite C. reflexivity.
Qed.

Section Store.

(** The geometry of the device: addresses are not negative, a page
    header and a record of maximal size fit in a page, and the page
    numbers of the region fit in a [uint16_t]. *)
Hypothesis base_nonneg : 0 <= FLASH_BASE.
Hypothesis page_fits : 4 + (FDS_MAX_DATABYTES + 6) <= FLASH_PAGE_SIZE.
Hypothesis region_fits :
  0 <= FDS_FIRSTFLASHPAGE /\ FDS_FIRSTFLASHPAGE + FDS_NUM_PAGES <= 65536.

Lemma page_size_pos : 0 < FLASH_PAGE_SIZE.
Proof. unfold FDS_MAX_DATABYTES in page_fits. lia. Qed.

Lemma region_page_base k :
  0 <= k < FDS_NUM_PAGES ->
  BSP_FLASH_PAGETOADDR (u16 (k + FDS_FIRSTFLASHPAGE))
  = first_base + k * FLASH_PAGE_SIZE.
Proof.
  intros Hk. unfold first_base, first_page, BSP_FLASH_PAGETOADDR, u16.
  unfold FDS_NUM_PAGES in *.
  rewrite !Z.mod_small by lia. lia.
Qed.

(** A record appended at the write pointer of a store whose log lies in
    the first page, the page having room for it. *)
Lemma store_append st st' img :
  first_page_store st ->
  InitDone st' = true ->
  (forall a, flash st' a = poke (flash st) (pWrite st) img a) ->
  Z.of_nat (length img) = readPage_siz (flash st') (pWrite st) ->
  6 <= readPage_siz (flash st') (pWrite st) ->
  dataHdr_Uid (flash st') (pWrite st) < FDS_NUM_RECORDS ->
  crc8_calc 0 (read_bytes (flash st') (pWrite st)
                 (readPage_siz (flash st') (pWrite st))) = 0 ->
  pRecords st' = apply_record (flash st') (pWrite st) (pRecords st) ->
  pWrite st' = pWrite st + readPage_siz (flash st') (pWrite st) ->
  BSP_FLASH_ADDRTOPAGE (pWrite st') = first_page ->
  first_page_store st'.
Proof.
  intros [Hi Hh Hsp Hc Hp Ht] Hi' Hf Hlen H6 Hu Hcrc Hr Hw Hp'.
  pose proof page_size_pos as Hs.
  pose proof (scans_to_le _ _ _ _ _ _ Hc) as Hle.
  pose proof (in_page_bounds _ _ Hs Hp') as Hpb. fold first_base in Hpb.
  set (P := pWrite st) in *.
  set (n := readPage_siz (flash st') P) in *.
  assert (Hout : forall a, a < P \/ P + n <= a ->
                           rd8 (flash st') a = rd8 (flash st) a).
  { intros a Ha. unfold rd8. rewrite Hf, poke_outside by lia.
    reflexivity. }
  constructor.
  - exact Hi'.
  - transitivity (getPageid (flash st) 0); [|exact Hh].
    apply getPageid_ext. intros a Ha. apply Hout.
    fold first_page in Ha. fold first_base in Ha. lia.
  - intros k Hk. transitivity (getPageid (flash st) k); [|exact (Hsp k Hk)].
    apply getPageid_ext.
    intros a Ha. apply Hout.
    rewrite region_page_base in Ha
      by (unfold FDS_NUM_PAGES; cbn in Hk; lia).
    assert (1 <= k) by (cbn in Hk; lia). nia.
  - rewrite Hw, Hr. apply scans_to_snoc; auto.
    apply (scans_to_ext (flash st)); [exact Hc|].
    intros a Ha. apply Hout. lia.
  - exact Hp'.
  - intros a Ha. rewrite Hout by lia. apply Ht. lia.
Qed.

(** The log of the first page with the record of a [write] that found
    room. *)
Lemma write_in_page_store uid d n st st' :
  first_page_store st ->
  0 <= uid < FDS_NUM_RECORDS ->
  0 < n <= FDS_MAX_DATABYTES ->
  BSP_FLASH_ADDRTOPAGE (pWrite st)
  = BSP_FLASH_ADDRTOPAGE (pWrite st + record_span n) ->
  write uid d n st = Some (FDS_OK, st') ->
  first_page_store st'.
Proof.
  intros S Hu Hn Hpage E.
  destruct (write_in_page_inv uid d n st st' (fps_init _ S) Hn
              ltac:(lia) Hpage E) as (Hi' & Hr & Hw & Hf & Hc).
  destruct (record_image_header _ _ _ uid d n Hf Hu Hn)
    as (Hm & Hu' & Hs & Hz).
  apply (store_append st st' (record_image uid d n) S Hi' Hf);
    rewrite ?Hz, ?Hu'.
  - apply length_record_image. lia.
  - destruct (payload_even_facts n ltac:(lia)) as (H0 & _).
    unfold record_span. lia.
  - lia.
  - exact Hc.
  - rewrite Hr. unfold apply_record. rewrite Hm, Hu', Z.eqb_refl.
    reflexivity.
  - exact Hw.
  - rewrite Hw, <- Hpage. apply (fps_in_page _ S).
Qed.

(** X17. A [write] that finds room in the first page keeps the store
    recoverable: when it returns [FDS_OK] on a store whose log lies in the
    first page, the log with the new record is again one that the scanner
    follows to the new index and write pointer, so that [init(false)]
    after a restart returns [FDS_OK] with the state the write left. *)
Theorem write_keeps_store (uid : Z) (d : list Z) (n : Z) (st st' : Fds) :
  first_page_store st ->
  0 <= uid < FDS_NUM_RECORDS ->
  0 < n <= FDS_MAX_DATABYTES ->
  BSP_FLASH_ADDRTOPAGE (pWrite st)
  = BSP_FLASH_ADDRTOPAGE (pWrite st + record_span n) ->
  write uid d n st = Some (FDS_OK, st') ->
  first_page_store st'
  /\ forall ram, init false (reboot st' ram) = Some (FDS_OK, st').
Proof.
  intros S Hu Hn Hpage E.
  pose proof (write_in_page_store uid d n st st' S Hu Hn Hpage E) as S'.
  split; [exact S'|].
  intros ram. unfold init.
  apply init_with_recovers; auto using page_size_pos.
Qed.

(** X18. A [del] whose record ends before the end of the first page
    (more than six bytes are left in it) keeps the store recoverable:
    when it returns [FDS_OK], the log with the deletion
    record is again one that the scanner follows to the new index, with
    the entry of [uid] cleared, and to the new write pointer, so that
    [init(false)] after a restart returns [FDS_OK] with the state the
    [del] left. *)
Theorem del_keeps_store (uid : Z) (st st' : Fds) :
  first_page_store st ->
  0 <= uid ->
  BSP_FLASH_ADDRTOPAGE (pWrite st + 6) = first_page ->
  del uid st = Some (FDS_OK, st') ->
  first_page_store st'
  /\ rec_at (pRecords st') uid = 0
  /\ forall ram, init false (reboot st' ram) = Some (FDS_OK, st').
Proof.
  intros S Hu Hpage E.
  destruct (del_ok_inv uid st st' (fps_init _ S) E)
    as (Hi' & Hr & Hw & _).
  destruct (del_flash_inv uid st st' (fps_init _ S) E) as (Hu' & Hf & Hc).
  destruct (del_image_header _ _ _ uid Hf ltac:(lia)) as (Hm & Hu'' & Hz).
  assert (S' : first_page_store st').
  { apply (store_append st st' (del_image uid) S Hi' Hf);
      rewrite ?Hz, ?Hu''.
    - reflexivity.
    - lia.
    - exact Hu'.
    - exact Hc.
    - rewrite Hr. unfold apply_record. rewrite Hm, Hu''. reflexivity.
    - exact Hw.
    - rewrite Hw. exact Hpage. }
  split; [exact S'|]. split.
  - rewrite Hr. unfold rec_at, rec_set. apply nth_upd_nth_zero.
  - intros ram. unfold init.
    apply init_with_recovers; auto using page_size_pos.
Qed.

Section Working.

(** The contract of a working flash: an erase sets the bytes of its page
    to [0xFF] and no others, programming erased cells succeeds, and a
    message followed by its CRC checks to zero. *)
Hypothesis erase_erases : forall m addr a,
  BSP_FLASH_ADDRTOPAGE a = BSP_FLASH_ADDRTOPAGE addr ->
  rd8 (bspFlashErasePage m addr) a = 0xFF.
Hypothesis erase_frame : forall m addr a,
  BSP_FLASH_ADDRTOPAGE a <> BSP_FLASH_ADDRTOPAGE addr ->
  bspFlashErasePage m addr a = m a.
Hypothesis prog_erased : forall m dest src,
  (forall i, 0 <= i < Z.of_nat (length src) -> rd8 m (dest + i) = 0xFF) ->
  fst (bspFlashProg m dest src) = BSP_OK.
Hypothesis crc_check : forall c, crc8_step c (u8 c) = 0.

Lemma writeToFlash_erased data siz c st :
  (forall i,
     0 <= i < Z.of_nat (length (firstn (Z.to_nat siz) data)) ->
     rd8 (flash st) (pWrite st + i) = 0xFF) ->
  (c = true ->
   siz = Z.of_nat (length (firstn (Z.to_nat siz) data))
   /\ crc8_calc 0 (map u8 (firstn (Z.to_nat siz) data)) = 0) ->
  exists st', writeToFlash data siz c st = Some (FDS_OK, st').
Proof.
  intros He Hc. unfold writeToFlash.
  pose proof (prog_erased (flash st) (pWrite st) _ He) as Hp.
  set (src := firstn (Z.to_nat siz) data) in *.
  destruct (bspFlashProg (flash st) (pWrite st) src) as [r m'] eqn:E.
  cbn [fst] in Hp. subst r.
  pose proof (prog_stores _ _ _ _ E) as Hm.
  destruct c; cbn [negb]; [|eauto].
  destruct (Hc eq_refl) as (Hl & Hz).
  cbn [flash set_pWrite set_flash pWrite].
  assert (R : read_bytes m' (pWrite st) siz = map u8 src)
    by (rewrite Hl; apply (read_bytes_poke _ (flash st)); exact Hm).
  rewrite R, Hz. cbn [Z.eqb]. eauto.
Qed.

Lemma writePageHdr_erased page id st :
  (forall a,
     BSP_FLASH_PAGETOADDR (u16 (page + FDS_FIRSTFLASHPAGE)) <= a
     < BSP_FLASH_PAGETOADDR (u16 (page + FDS_FIRSTFLASHPAGE)) + 4 ->
     rd8 (flash st) a = 0xFF) ->
  exists st', writePageHdr page id st = Some (FDS_OK, st').
Proof.
  intros He. unfold writePageHdr; run_m.
  apply writeToFlash_erased.
  - intros i Hi. cbn [flash pWrite set_pWrite]. apply He.
    change (0 <= i < 4) in Hi. lia.
  - intros _. split; [reflexivity|].
    change (crc8_step
              (crc8_calc 0 [FDS_PAGEMAGIC; u8 (u8 id); u8 (u8 (u16 id / 256))])
              (u8 (crc8_calc 0 (pageHdr_bytes id))) = 0).
    rewrite !u8_u8. apply crc_check.
Qed.

Lemma addrtopage_base page :
  BSP_FLASH_ADDRTOPAGE (BSP_FLASH_PAGETOADDR page) = page.
Proof.
  pose proof page_size_pos.
  unfold BSP_FLASH_ADDRTOPAGE, BSP_FLASH_PAGETOADDR.
  replace (FLASH_BASE + page * FLASH_PAGE_SIZE - FLASH_BASE)
    with (page * FLASH_PAGE_SIZE) by lia.
  apply Z.div_mul. lia.
Qed.

(** The erase loop of [format]: the pages it visits read as erased, the
    others are left alone. *)
Lemma format_loop_effect pages : forall st,
  exists st',
    format_loop pages st = Some (tt, st')
    /\ InitDone st' = InitDone st
    /\ (forall a,
          In (BSP_FLASH_ADDRTOPAGE a - FDS_FIRSTFLASHPAGE) pages ->
          rd8 (flash st') a = 0xFF)
    /\ (forall a,
          ~ In (BSP_FLASH_ADDRTOPAGE a - FDS_FIRSTFLASHPAGE) pages ->
          flash st' a = flash st a).
Proof.
  induction pages as [|page rest IH]; intros st; cbn [format_loop].
  - exists st. run_m. repeat split; auto. intros a [].
  - unfold erasePage; run_m.
    match goal with
    | |- context [format_loop rest ?s] => set (s1 := s)
    end.
    destruct (IH s1) as (st' & E & Hi & He & Hfr).
    exists st'. rewrite E. repeat split; auto.
    + intros a [Ha | Ha]; [|auto].
      destruct (in_dec Z.eq_dec
                  (BSP_FLASH_ADDRTOPAGE a - FDS_FIRSTFLASHPAGE) rest)
        as [I | I]; [auto|].
      unfold rd8. rewrite (Hfr a I). subst s1. cbn [flash set_flash].
      apply erase_erases. rewrite addrtopage_base. lia.
    + intros a Ha. rewrite Hfr by (intros I; apply Ha; right; exact I).
      subst s1. cbn [flash set_flash].
      apply erase_frame. rewrite addrtopage_base.
      intros X. apply Ha. left. lia.
Qed.

Lemma region_addr a :
  first_base <= a < first_base + FDS_NUM_PAGES * FLASH_PAGE_SIZE ->
  In (BSP_FLASH_ADDRTOPAGE a - FDS_FIRSTFLASHPAGE) fds_pages.
Proof.
  pose proof page_size_pos as Hs. intros Ha.
  unfold first_base, first_page, BSP_FLASH_PAGETOADDR, u16 in Ha.
  unfold FDS_NUM_PAGES in *.
  rewrite Z.mod_small in Ha by lia.
  assert (FDS_FIRSTFLASHPAGE <= BSP_FLASH_ADDRTOPAGE a
          < FDS_FIRSTFLASHPAGE + 4).
  { unfold BSP_FLASH_ADDRTOPAGE. split.
    - apply Z.div_le_lower_bound; lia.
    - apply Z.div_lt_upper_bound; lia. }
  change fds_pages with [0; 1; 2; 3]. cbn [In]. lia.
Qed.

(** [format] on a working flash. *)
Lemma format_empty st :
  exists st',
    format st = Some (FDS_OK, st')
    /\ first_page_store st'
    /\ pWrite st' = first_base + 4
    /\ pRecords st' = repeat 0 (Z.to_nat FDS_NUM_RECORDS).
Proof.
  pose proof page_size_pos as Hs.
  pose proof page_fits as Hpf. unfold FDS_MAX_DATABYTES in Hpf.
  unfold format; run_m.
  destruct (format_loop_effect fds_pages (set_InitDone st false))
    as (s1 & E1 & I1 & He & _).
  rewrite E1.
  assert (Her : forall a,
            first_base <= a < first_base + FDS_NUM_PAGES * FLASH_PAGE_SIZE ->
            rd8 (flash s1) a = 0xFF)
    by (intros a Ha; apply He, region_addr, Ha).
  unfold FDS_NUM_PAGES in Her.
  destruct (writePageHdr_erased 0 0 s1) as (s2 & E2).
  { fold first_page. fold first_base. intros a Ha. apply Her. lia. }
  rewrite E2. cbn [is_ok negb].
  destruct (writePageHdr_ok_inv _ _ _ _ E2) as (Hid & Hw & I2 & _ & Hf).
  cbv zeta in Hw, Hf. fold first_page in Hw, Hf. fold first_base in Hw, Hf.
  assert (Hout : forall a, first_base + 4 <= a ->
                           rd8 (flash s2) a = rd8 (flash s1) a).
  { intros a Ha. unfold rd8. rewrite Hf, poke_outside; [reflexivity|].
    right. cbn [length app pageHdr_bytes]. lia. }
  set (st' := mkFds true (repeat 0 (Z.to_nat FDS_NUM_RECORDS))
                (first_base + 4) (flash s2) (flashOps s2)).
  assert (S : first_page_store st').
  { constructor; cbn [st' InitDone flash pWrite pRecords].
    - reflexivity.
    - exact Hid.
    - intros k Hk. apply getPageid_erased. intros a Ha.
      rewrite region_page_base in Ha
        by (unfold FDS_NUM_PAGES; cbn in Hk; lia).
      assert (1 <= k <= 3) by (cbn in Hk; lia).
      rewrite Hout by nia. apply Her. nia.
    - constructor.
    - unfold first_base. apply addrtopage_pagetoaddr. lia.
    - intros a Ha. rewrite Hout by lia. apply Her. lia. }
  exists st'. split; [|auto].
  apply init_with_recovers; auto.
  rewrite I2, I1. reflexivity.
Qed.

(** X19. On a working flash [format] returns [FDS_OK] and leaves an
    empty store: initialised, page 0 of the region with sequence number
    0, the other pages without a header, no record indexed, and the write
    pointer behind the page header. *)
Theorem format_gives_empty_store (st : Fds) :
  exists st',
    format st = Some (FDS_OK, st')
    /\ first_page_store st'
    /\ pWrite st' = first_base + 4
    /\ pRecords st' = repeat 0 (Z.to_nat FDS_NUM_RECORDS).
Proof. exact (format_empty st). Qed.

(** X20. On a working flash a [write] with valid arguments that finds
    room in the first page returns [FDS_OK]. *)
Theorem write_in_page_succeeds (uid : Z) (d : list Z) (n : Z) (st : Fds) :
  first_page_store st ->
  0 <= uid < FDS_NUM_RECORDS ->
  0 < n <= FDS_MAX_DATABYTES ->
  BSP_FLASH_ADDRTOPAGE (pWrite st)
  = BSP_FLASH_ADDRTOPAGE (pWrite st + record_span n) ->
  exists st', write uid d n st = Some (FDS_OK, st').
Proof.
  intros S Hu Hn Hpage.
  pose proof page_size_pos as Hs.
  destruct (payload_even_facts n ltac:(lia)) as (Hn0 & Hev & Hs1 & Hs2).
  destruct S as [Hi _ _ _ Hp Ht].
  assert (Hend : pWrite st + record_span n < first_base + FLASH_PAGE_SIZE).
  { pose proof Hpage as Hq. rewrite Hp in Hq. symmetry in Hq.
    apply (in_page_bounds _ _ Hs) in Hq. fold first_base in Hq. lia. }
  unfold record_span in Hend.
  set (P := pWrite st) in *.
  set (n' := payload_even n) in *.
  set (hdr := dataHdr_bytes FDS_DATAMAGIC uid n).
  set (data := buf_bytes d n').
  set (ftrData := if negb (n mod 2 =? 0) then buf_at d (n - 1) else 0).
  set (crcd := if 0 <? n' then crc8_calc (crc8_calc 0 hdr) data
               else crc8_calc 0 hdr).
  assert (Hld : length data = Z.to_nat n') by apply length_buf_bytes.
  destruct (writeToFlash_erased hdr 4 false st) as (s2 & E2).
  { intros i Hi'. change (0 <= i < 4) in Hi'. apply Ht. lia. }
  { discriminate. }
  destruct (writeToFlash_ok_poke _ _ _ _ _ E2) as (I2 & R2 & W2 & F2 & _).
  change (2 * (4 / 2)) with 4 in W2.
  change (firstn (Z.to_nat 4) hdr) with hdr in F2.
  assert (E3 : exists s3,
    (if 0 <? n' then writeToFlash data n' false s2 else Some (FDS_OK, s2))
    = Some (FDS_OK, s3)
    /\ pWrite s3 = P + 4 + n'
    /\ forall a, flash s3 a = poke (flash s2) (P + 4) data a).
  { destruct (0 <? n') eqn:Z3.
    - apply Z.ltb_lt in Z3.
      destruct (writeToFlash_erased data n' false s2) as (s3 & E3).
      { intros i Hi'. rewrite firstn_all2 in Hi' by lia.
        rewrite W2, (rd8_poke_outside _ _ _ _ _ F2)
          by (cbn [length hdr dataHdr_bytes]; lia).
        apply Ht. lia. }
      { discriminate. }
      exists s3. split; [exact E3|].
      destruct (writeToFlash_ok_poke _ _ _ _ _ E3)
        as (_ & _ & W3 & F3 & _).
      rewrite firstn_all2 in F3 by lia. rewrite W2 in W3, F3.
      split; [|exact F3].
      rewrite W3. Z.to_euclidean_division_equations. lia.
    - apply Z.ltb_ge in Z3. exists s2. split; [reflexivity|].
      assert (Hz : n' = 0) by lia. split; [lia|].
      intros a. unfold data. rewrite Hz.
      change (buf_bytes d 0) with (@nil Z). now rewrite poke_nil. }
  destruct E3 as (s3 & E3 & W3 & F3).
  destruct (writeToFlash_erased [ftrData; crc8_step crcd ftrData] 2 false s3)
    as (s4 & E4).
  { intros i Hi'. change (0 <= i < 2) in Hi'.
    rewrite W3, (rd8_poke_outside _ _ _ _ _ F3) by lia.
    rewrite (rd8_poke_outside _ _ _ _ _ F2)
      by (cbn [length hdr dataHdr_bytes]; lia).
    apply Ht. lia. }
  { discriminate. }
  destruct (writeToFlash_ok_poke _ _ _ _ _ E4) as (_ & _ & _ & F4 & _).
  change (firstn (Z.to_nat 2) [ftrData; crc8_step crcd ftrData])
    with [ftrData; crc8_step crcd ftrData] in F4.
  rewrite W3 in F4.
  pose proof (record_pokes _ _ _ _ P uid d n ltac:(lia) F2 F3 F4) as F.
  assert (Hcd : crcd = crc8_calc 0 (hdr ++ data)).
  { unfold crcd. rewrite crc8_calc_app. destruct (0 <? n') eqn:Z3;
      [reflexivity|].
    apply Z.ltb_ge in Z3. unfold data. replace n' with 0 by lia.
    reflexivity. }
  assert (C : crc8_calc 0 (read_bytes (flash s4) P (record_span n)) = 0).
  { rewrite <- (length_record_image uid d n) by lia.
    rewrite (read_bytes_poke _ _ _ _ F).
    unfold record_image. fold n'. fold hdr. fold data. fold ftrData.
    rewrite <- Hcd. rewrite app_assoc, map_app, crc8_calc_app.
    assert (Hb : map u8 (hdr ++ data) = hdr ++ data).
    { rewrite map_app. f_equal.
      - unfold hdr, dataHdr_bytes. cbn [map]. rewrite !u8_u8. reflexivity.
      - unfold data, buf_bytes. rewrite map_map. apply map_ext.
        intros i. unfold buf_at. apply u8_u8. }
    rewrite Hb, <- Hcd.
    assert (Hf : u8 ftrData = ftrData)
      by (unfold ftrData, buf_at; destruct (negb _);
          [apply u8_u8 | reflexivity]).
    cbn [map]. rewrite Hf. unfold crc8_calc at 1. cbn [fold_left].
    apply crc_check. }
  eexists.
  apply (write_in_page_eq uid d n st s2 s3 s4 Hi Hn ltac:(lia) Hpage
           E2 E3 E4 C).
Qed.

(** X21. A rotation numbers the new page: when [switchPage] returns
    [FDS_OK] on a device whose region does not start within the first
    [FDS_NUM_PAGES] pages, the page after the current one carries the
    sequence number of the current page plus one (modulo [0xFFFF]), and
    the write pointer stands behind its header. *)
Theorem switchPage_numbers_next_page (dataId : Z) (st st' : Fds) :
  FDS_NUM_PAGES <= FDS_FIRSTFLASHPAGE ->
  (forall n, In n fds_uids -> rec_at (pRecords st) n <> 0 ->
             FDS_FIRSTFLASHPAGE
             <= BSP_FLASH_ADDRTOPAGE (rec_at (pRecords st) n)) ->
  switchPage dataId st = Some (FDS_OK, st') ->
  let cur := u16 (BSP_FLASH_ADDRTOPAGE (pWrite st) - FDS_FIRSTFLASHPAGE) in
  getPageid (flash st') (next_page (pWrite st))
  = u16 (wrapInc (getPageid (flash st) cur) 1 0xFFFF)
  /\ pWrite st'
     = BSP_FLASH_PAGETOADDR
         (u16 (next_page (pWrite st) + FDS_FIRSTFLASHPAGE)) + 4.
Proof.
  intros Hfirst Hin. pose proof page_size_pos as Hs.
  destruct (next_victim_range (pWrite st)) as (Hn & Hv & Hne).
  unfold switchPage; run_m.
  fold (next_page (pWrite st)). fold (victim_page (pWrite st)).
  destruct (negb _); [discriminate|].
  match goal with
  | |- context [writePageHdr ?p ?u ?x] =>
      destruct (writePageHdr p u x) as [[r1 s1]|] eqn:E; [|discriminate]
  end.
  destruct (is_ok r1) eqn:K; cbn [negb];
    [|intros X; inv X; discriminate K].
  destruct r1; try discriminate K.
  destruct (writePageHdr_ok_inv _ _ _ _ E) as (Hid & Hw & _ & Hp & _).
  cbv zeta in Hw.
  rewrite switchPage_loop_skips;
    [| exact Hfirst | rewrite Hp; exact Hin | exact Hv].
  unfold erasePage; run_m. intros X; inv X.
  cbn [flash pWrite set_flash]. cbv zeta. split; [|exact Hw].
  transitivity (getPageid (flash s1) (next_page (pWrite st)));
    [|rewrite Hid; apply u16_u16].
  apply getPageid_ext. intros a Ha.
  unfold rd8. rewrite erase_frame; [reflexivity|].
  rewrite addrtopage_base.
  unfold FDS_NUM_PAGES in *. destruct region_fits as (R0 & R1).
  unfold u16 in Ha. rewrite Z.mod_small in Ha by lia.
  intros X. apply (in_page_bounds _ _ Hs) in X.
  pose proof page_fits as Hpf. unfold FDS_MAX_DATABYTES in Hpf.
  unfold BSP_FLASH_PAGETOADDR in *.
  destruct (Z.lt_ge_cases (victim_page (pWrite st)) (next_page (pWrite st)));
    nia.
Qed.

End Working.

End Store.

End Driver.

End FdsMore.

(** * The scenarios *)

Section ScenarioFacts.

#[local] Existing Instance dev.

(** *** A write that stays in its page *)

(** The modelled flash driver meets the contract of the round trip. *)
Lemma nor_prog_stores m dest src m' :
  bspFlashProg m dest src = (BSP_OK, m') ->
  forall a, m' a = poke m dest src a.
Proof.
  cbn [bspFlashProg dev]. unfold nor_prog.
  destruct (erased_range m dest (length src)); intros E a; inv E.
  reflexivity.
Qed.

(** Scenario S2: a payload of three bytes written to the formatted store
    comes back, its last byte from the footer. *)
Lemma round_trip_odd_size :
  exists st',
    write 2 [1; 2; 3] 3 st_formatted = Some (FDS_OK, st')
    /\ read 2 (Some (zeros 4)) 3 st' = Some ((3, Some [1; 2; 3; 0]), st').
Proof.
  assert (Hi : InitDone st_formatted = true) by (vm_compute; reflexivity).
  assert (Hw : pWrite st_formatted <> 0) by (vm_compute; discriminate).
  assert (Hu : 0 <= 2 < FDS_NUM_RECORDS) by (unfold FDS_NUM_RECORDS; lia).
  assert (Hl : (Z.to_nat 2 < length (pRecords st_formatted))%nat)
    by (vm_compute; repeat constructor).
  assert (Hn : 0 < 3 <= FDS_MAX_DATABYTES)
    by (unfold FDS_MAX_DATABYTES; lia).
  assert (Hb : Forall (fun b => 0 <= b < 256) [1; 2; 3])
    by (repeat constructor; lia).
  assert (Hp : let n' := if negb (3 mod 2 =? 0) then 3 - 1 else 3 in
               BSP_FLASH_ADDRTOPAGE (pWrite st_formatted)
               = BSP_FLASH_ADDRTOPAGE
                   (pWrite st_formatted + 2 * ((4 + n' + 2) / 2)))
    by (vm_compute; reflexivity).
  assert (E : option_map fst (write 2 [1; 2; 3] 3 st_formatted)
              = Some FDS_OK) by (vm_compute; reflexivity).
  destruct (write 2 [1; 2; 3] 3 st_formatted) as [[r st']|] eqn:W;
    [|discriminate E].
  cbn [option_map fst] in E. injection E as ->.
  exists st'. split; [reflexivity|].
  exact (write_read_round_trip_in_page nor_prog_stores 2 [1; 2; 3]
           (zeros 4) 3 st_formatted st' Hi Hw Hu Hl Hn eq_refl Hb Hp W).
Defined.

(** *** The stale record address of a rotating [write] *)

(** [write] takes [pStart = pWrite] on entry.  When the record does not
    fit, [switchPage] moves [pWrite] to the next page and the record is
    programmed there, but the read-back CRC and the index entry still use
    [pStart]: the place in the old page where the record did not fit. *)

(** C2 (counterexample). After [format] and three writes of
    [FDS_MAX_DATABYTES] bytes to [uid] 0 the fourth such write rotates
    from page 0 to page 1 and returns [FDS_ECRC], not [FDS_OK]; two pages
    of the region (2 and 3) read as erased afterwards, not one. *)
Lemma rotating_write_returns_ecrc :
  fst (run_ops fill_ops blank) = [FDS_OK; FDS_OK; FDS_OK; FDS_OK]
  /\ BSP_FLASH_ADDRTOPAGE (pWrite st_filled) = FDS_FIRSTFLASHPAGE
  /\ fst (run_ops [write 0 (zeros 256) 256] st_filled) = [FDS_ECRC]
  /\ BSP_FLASH_ADDRTOPAGE (pWrite st_rotated) = FDS_FIRSTFLASHPAGE + 1
  /\ erased_pages (flash st_rotated) = [2; 3].
Proof. vm_compute. repeat split; reflexivity. Qed.

(** The modelled flash driver meets the contract of the rotation. *)
Lemma nor_prog_frame m dest src r m' :
  bspFlashProg m dest src = (r, m') ->
  forall a, a < dest \/ dest + Z.of_nat (length src) <= a -> m' a = m a.
Proof.
  cbn [bspFlashProg dev]. unfold nor_prog.
  destruct (erased_range m dest (length src)); intros E a Ha; inv E;
    [|reflexivity].
  unfold poke. destruct (dest <=? a) eqn:A; [|reflexivity].
  destruct (a <? _) eqn:B; [|reflexivity].
  apply Z.leb_le in A. apply Z.ltb_lt in B. lia.
Qed.

(** A page erased by the modelled driver reads as all ones. *)
Lemma nor_erase_erased m addr a :
  BSP_FLASH_ADDRTOPAGE a = BSP_FLASH_ADDRTOPAGE addr ->
  rd8 (bspFlashErasePage m addr) a = 0xFF.
Proof.
  unfold BSP_FLASH_ADDRTOPAGE. cbn [bspFlashErasePage FLASH_BASE
    FLASH_PAGE_SIZE dev]. unfold nor_erase, rd8.
  intros ->. rewrite Z.eqb_refl. reflexivity.
Qed.

(** The fourth write of the scenario above: it returns, and page 2 reads
    as erased afterwards. *)
Lemma rotating_write_leaves_page_erased_witness :
  exists r st',
    write 0 (zeros 256) 256 st_filled = Some (r, st')
    /\ page_reads_erased (flash st')
         (FDS_FIRSTFLASHPAGE + victim_page (pWrite st_filled)).
Proof.
  assert (Hs : 4 + (FDS_MAX_DATABYTES + 6) <= FLASH_PAGE_SIZE)
    by (vm_compute; discriminate).
  assert (Hr : 0 <= FDS_FIRSTFLASHPAGE
               /\ FDS_FIRSTFLASHPAGE + FDS_NUM_PAGES <= 65536)
    by (vm_compute; split; discriminate).
  assert (Hi : InitDone st_filled = true) by (vm_compute; reflexivity).
  assert (Hu : 0 <= 0 < FDS_NUM_RECORDS) by (vm_compute; split; congruence).
  assert (Hn : 0 < 256 <= FDS_MAX_DATABYTES)
    by (vm_compute; split; congruence).
  assert (Hz : forall k, 0 <= k -> k <> 0 ->
               rec_at (pRecords st_filled) k = 0).
  { assert (R : pRecords st_filled = [fds_addr 0 528; 0; 0; 0])
      by (vm_compute; reflexivity).
    intros k Hk Hne. rewrite R. unfold rec_at.
    destruct (Z.to_nat k) as [|[|[|[|j]]]] eqn:K; try reflexivity;
      [lia | destruct j; reflexivity]. }
  assert (Hp : let n' := if negb (256 mod 2 =? 0) then 256 - 1 else 256 in
               BSP_FLASH_ADDRTOPAGE (pWrite st_filled)
               <> BSP_FLASH_ADDRTOPAGE
                    (pWrite st_filled + 2 * ((4 + n' + 2) / 2)))
    by (vm_compute; discriminate).
  assert (E : option_map fst (switchPage 0 st_filled) = Some FDS_OK)
    by (vm_compute; reflexivity).
  destruct (switchPage 0 st_filled) as [[r st1]|] eqn:W; [|discriminate E].
  cbn [option_map fst] in E. injection E as ->.
  exact (rotating_write_leaves_page_erased nor_prog_frame nor_erase_erased
           Hs Hr 0 (zeros 256) 256 st_filled st1 Hi Hu Hn Hz Hp W).
Defined.

(** C1 (code defect). After [format] and three writes of
    [FDS_MAX_DATABYTES] bytes, a fourth write with the payload [crafted]
    rotates; the read-back CRC over the stale span is zero, so the write
    returns [FDS_OK], and the [read] that follows returns 256 bytes that
    are not the payload: they start with the erased tail of page 0. *)
Theorem rotating_write_breaks_round_trip :
  fst (run_ops fill_ops blank) = [FDS_OK; FDS_OK; FDS_OK; FDS_OK]
  /\ fst (run_ops [write 0 crafted 256] st_filled) = [FDS_OK]
  /\ read_head (read 0 (Some (zeros 256)) 256 st_rotated_crafted)
     = Some (256, Some [255; 255; 255; 255])
  /\ firstn 4 crafted = [0; 0; 0; 0].
Proof. vm_compute. repeat split; reflexivity. Qed.

(** C3 (code defect). Every operation of the sequence [format], three
    writes, the rotating write of [crafted] returns [FDS_OK]; afterwards
    the index entry of [uid] 0 is not empty and points into the erased
    tail of page 0, where neither the magic nor the uid field is that of a
    data record of [uid] 0. *)
Theorem rotating_write_breaks_index :
  fst (run_ops (fill_ops ++ [write 0 crafted 256]) blank)
  = [FDS_OK; FDS_OK; FDS_OK; FDS_OK; FDS_OK]
  /\ rec_at (pRecords st_rotated_crafted) 0 = fds_addr 0 790
  /\ pWrite st_filled = fds_addr 0 790
  /\ dataHdr_Magic (flash st_rotated_crafted) (fds_addr 0 790) = 0xFF
  /\ dataHdr_Uid (flash st_rotated_crafted) (fds_addr 0 790) = 0xFF.
Proof. vm_compute. repeat split; reflexivity. Qed.

(** *** [del] at the end of a page *)

(** C4 (code defect). [del] programs its record at the write pointer
    without the page check [write] makes.  With two bytes left in page 0
    the six bytes of the record go to the last two bytes of page 0 and the
    first four of page 1, and [del] returns [FDS_OK]. *)
Theorem del_record_crosses_page :
  fst (run_ops (fill_ops ++ [write 0 (zeros 226) 226; del 0]) blank)
  = [FDS_OK; FDS_OK; FDS_OK; FDS_OK; FDS_OK; FDS_OK]
  /\ pWrite st_tail2 = fds_addr 0 1022
  /\ skipn 17 (flashOps (state_after [del 0] st_tail2))
     = [OpProg (fds_addr 0 1022) [FDS_DELMAGIC; 0; 0; 0];
        OpProg (fds_addr 0 1026) [0; 204]]
  /\ BSP_FLASH_ADDRTOPAGE (fds_addr 0 1022) = FDS_FIRSTFLASHPAGE
  /\ BSP_FLASH_ADDRTOPAGE (fds_addr 0 1027) = FDS_FIRSTFLASHPAGE + 1.
Proof. vm_compute. repeat split; reflexivity. Qed.

(** *** [del] on a store that is not initialised *)

(** C5 (counterexample). On the blank device [del(4)] formats the flash
    before it rejects the [uid]. *)
Lemma del_bad_uid_formats_blank_device :
  ~ (exists st', del 4 blank = Some (FDS_EEINVAL, st')
                 /\ flashOps st' = flashOps blank).
Proof.
  intros (st' & E & Ho).
  assert (L : option_map (fun x => length (flashOps (snd x))) (del 4 blank)
              = Some 5%nat) by (vm_compute; reflexivity).
  rewrite E in L. cbn [option_map snd] in L. rewrite Ho in L.
  discriminate L.
Qed.

(** [del(4)] on the formatted store, and on the blank device. *)
Lemma del_rejects_bad_uid_witness :
  del 4 st_formatted = Some (FDS_EEINVAL, st_formatted)
  /\ del 4 blank =
     match lazy_init blank with
     | Some (retval, st1) =>
         Some (if is_ok retval then FDS_EEINVAL else retval, st1)
     | None => None
     end.
Proof.
  assert (Hu : FDS_NUM_RECORDS <= 4) by (vm_compute; discriminate).
  assert (Hi : InitDone st_formatted = true) by (vm_compute; reflexivity).
  destruct (del_rejects_bad_uid 4 st_formatted Hu) as (A & _).
  destruct (del_rejects_bad_uid 4 blank Hu) as (_ & B).
  exact (conj (A Hi) B).
Defined.

(** *** Witnesses of the general statements *)

(** [write] with a size of [0], and with [uid] 4. *)
Lemma write_rejects_bad_arguments_witness :
  write 4 (zeros 4) 0 blank = Some (FDS_ESIZE, blank)
  /\ (0 = 0 \/ FDS_MAX_DATABYTES < 0)
  /\ write 4 (zeros 4) 4 blank = Some (FDS_EEINVAL, blank).
Proof.
  destruct (write_rejects_bad_arguments 4 (zeros 4) 0 blank) as (A & B & _).
  destruct (write_rejects_bad_arguments 4 (zeros 4) 4 blank) as (_ & _ & C).
  split; [|split].
  - apply A. left. reflexivity.
  - apply (B blank). apply A. left. reflexivity.
  - apply C; vm_compute; [split|]; congruence.
Defined.

(** [write] and [del] on the store with two bytes left in page 0. *)
Lemma index_entry_kept_on_failure_witness :
  (exists r st',
     write 0 (zeros 4) 4 st_tail2 = Some (r, st')
     /\ (r <> FDS_OK ->
         rec_at (pRecords st') 0 = rec_at (pRecords st_tail2) 0))
  /\ (exists r st',
       del 0 st_tail2 = Some (r, st')
       /\ (r <> FDS_OK ->
           rec_at (pRecords st') 0 = rec_at (pRecords st_tail2) 0)).
Proof.
  assert (Hi : InitDone st_tail2 = true) by (vm_compute; reflexivity).
  assert (Hu : 0 <= 0 < 256) by lia.
  exact (index_entry_kept_on_failure 0 (zeros 4) 4 st_tail2 Hi Hu).
Defined.




(** *** Equal sequence numbers behind a page that does not scan *)



End ScenarioFacts.

(** * Further scenarios *)

Section MoreScenarioFacts.

#[local] Existing Instance dev.

(** The modelled device meets the contracts of a working flash. *)
Lemma nor_erase_frame m addr a :
  BSP_FLASH_ADDRTOPAGE a <> BSP_FLASH_ADDRTOPAGE addr ->
  bspFlashErasePage m addr a = m a.
Proof.
  unfold BSP_FLASH_ADDRTOPAGE. cbn [bspFlashErasePage FLASH_BASE
    FLASH_PAGE_SIZE dev]. unfold nor_erase.
  intros N. apply Z.eqb_neq in N. rewrite N. reflexivity.
Qed.

Lemma nor_prog_erased m dest src :
  (forall i, 0 <= i < Z.of_nat (length src) -> rd8 m (dest + i) = 0xFF) ->
  fst (bspFlashProg m dest src) = BSP_OK.
Proof.
  intros He. cbn [bspFlashProg dev]. unfold nor_prog.
  replace (erased_range m dest (length src)) with true; [reflexivity|].
  symmetry. unfold erased_range. apply forallb_forall.
  intros i Hi. apply in_seq in Hi. apply Z.eqb_eq. apply He. lia.
Qed.

Lemma crc8_poly07_check c : crc8_step c (u8 c) = 0.
Proof.
  cbn [crc8_step dev]. unfold crc8_poly07.
  rewrite u8_u8, Z.lxor_nilpotent. reflexivity.
Qed.

Lemma dev_base_nonneg : 0 <= FLASH_BASE.
Proof. vm_compute. discriminate. Qed.

Lemma dev_page_fits : 4 + (FDS_MAX_DATABYTES + 6) <= FLASH_PAGE_SIZE.
Proof. vm_compute. discriminate. Qed.

Lemma dev_page_size_pos : 0 < FLASH_PAGE_SIZE.
Proof. reflexivity. Qed.

Lemma dev_region_fits :
  0 <= FDS_FIRSTFLASHPAGE /\ FDS_FIRSTFLASHPAGE + FDS_NUM_PAGES <= 65536.
Proof. vm_compute. split; discriminate. Qed.

(** The formatted device is a store whose log lies in the first page. *)
Lemma st_formatted_store : first_page_store st_formatted.
Proof.
  destruct (format_empty nor_prog_stores dev_base_nonneg dev_page_fits
              dev_region_fits nor_erase_erased nor_erase_frame
              nor_prog_erased crc8_poly07_check blank)
    as (st' & E & S & _).
  assert (X : st_formatted = st').
  { unfold st_formatted, state_after. cbn [run_ops]. rewrite E.
    reflexivity. }
  rewrite X. exact S.
Qed.

Lemma blank_without_headers page :
  In page fds_pages -> getPageid (flash blank) page = 0xFFFF.
Proof.
  intros [<- | [<- | [<- | [<- | []]]]]; vm_compute; reflexivity.
Qed.

(** [del(0)] on the filled store, then [read(0, ...)]. *)
Lemma del_then_read_returns_zero_witness :
  exists st',
    del 0 st_filled = Some (FDS_OK, st')
    /\ read 0 (Some (zeros 4)) 4 st' = Some ((0, Some (zeros 4)), st').
Proof.
  assert (Hi : InitDone st_filled = true) by (vm_compute; reflexivity).
  assert (E : option_map fst (del 0 st_filled) = Some FDS_OK)
    by (vm_compute; reflexivity).
  destruct (del 0 st_filled) as [[r st']|] eqn:W; [|discriminate E].
  cbn [option_map fst] in E. injection E as ->.
  exists st'. split; [reflexivity|].
  exact (del_then_read_returns_zero 0 (Some (zeros 4)) 4 st_filled st'
           Hi W).
Defined.

(** [del(1)] on the store with two bytes left in page 0. *)
Lemma del_appends_six_bytes_witness :
  exists st',
    del 1 st_tail2 = Some (FDS_OK, st')
    /\ pWrite st' = pWrite st_tail2 + 6
    /\ exists crc,
         flashOps st'
         = flashOps st_tail2
           ++ [OpProg (pWrite st_tail2) [FDS_DELMAGIC; u8 1; 0; 0];
               OpProg (pWrite st_tail2 + 4) [0; crc]].
Proof.
  assert (Hi : InitDone st_tail2 = true) by (vm_compute; reflexivity).
  assert (E : option_map fst (del 1 st_tail2) = Some FDS_OK)
    by (vm_compute; reflexivity).
  destruct (del 1 st_tail2) as [[r st']|] eqn:W; [|discriminate E].
  cbn [option_map fst] in E. injection E as ->.
  exists st'. split; [reflexivity|].
  exact (del_appends_six_bytes 1 st_tail2 st' Hi W).
Defined.

(** [init(false)] after a restart of the filled store. *)
Lemma init_without_reset_reads_only_witness :
  exists r st',
    init false (reboot st_filled (zeros 4)) = Some (r, st')
    /\ flash st' = flash (reboot st_filled (zeros 4))
    /\ flashOps st' = flashOps (reboot st_filled (zeros 4))
    /\ (InitDone (reboot st_filled (zeros 4)) = false ->
        (InitDone st' = true <-> r = FDS_OK /\ pWrite st' <> 0)).
Proof.
  assert (E : option_map fst (init false (reboot st_filled (zeros 4)))
              = Some FDS_OK) by (vm_compute; reflexivity).
  destruct (init false (reboot st_filled (zeros 4))) as [[r st']|] eqn:W;
    [|discriminate E].
  exists r, st'. split; [reflexivity|].
  exact (init_without_reset_reads_only (reboot st_filled (zeros 4)) st' r
           W).
Defined.

(** [init] on the blank device. *)
Lemma init_on_region_without_headers_witness :
  init false blank = Some (FDS_OK, init_clear blank)
  /\ InitDone (init_clear blank) = false
  /\ init true blank = format (init_clear blank).
Proof.
  exact (init_on_region_without_headers blank eq_refl
           blank_without_headers).
Defined.

(** The store with one record whose payload reads as a header of span
    zero: [init(false)] after a restart returns. *)
Lemma init_without_reset_returns_witness :
  dataHdr_Uid (flash st_payload) (fds_addr 0 8) < FDS_NUM_RECORDS
  /\ readPage_siz (flash st_payload) (fds_addr 0 8) = 0
  /\ exists r st', init false (reboot st_payload (zeros 4)) = Some (r, st').
Proof.
  assert (Hu : 0 <= 0 < FDS_NUM_RECORDS) by (unfold FDS_NUM_RECORDS; lia).
  assert (Hn : 0 < 4 <= FDS_MAX_DATABYTES)
    by (unfold FDS_MAX_DATABYTES; lia).
  assert (Hp : BSP_FLASH_ADDRTOPAGE (pWrite st_formatted)
               = BSP_FLASH_ADDRTOPAGE (pWrite st_formatted + record_span 4))
    by (vm_compute; reflexivity).
  assert (A : dataHdr_Uid (flash st_payload) (fds_addr 0 8)
              < FDS_NUM_RECORDS) by (vm_compute; reflexivity).
  assert (B : readPage_siz (flash st_payload) (fds_addr 0 8) = 0)
    by (vm_compute; reflexivity).
  assert (E : option_map fst (write 0 [0; 0; 0xFA; 0xFF] 4 st_formatted)
              = Some FDS_OK) by (vm_compute; reflexivity).
  assert (S : first_page_store st_payload).
  { unfold st_payload, state_after. cbn [run_ops].
    destruct (write 0 [0; 0; 0xFA; 0xFF] 4 st_formatted)
      as [[r st']|] eqn:W; [|discriminate E].
    cbn [option_map fst] in E. injection E as ->. cbn [snd].
    exact (write_in_page_store nor_prog_stores dev_page_fits
             dev_region_fits 0 [0; 0; 0xFA; 0xFF] 4 st_formatted st'
             st_formatted_store Hu Hn Hp W). }
  refine (conj A (conj B _)).
  exact (init_without_reset_returns (reboot st_payload (zeros 4))
           dev_page_size_pos
           (fun rel => store_scan_spans st_payload rel dev_page_size_pos S)).
Defined.

(** The scan of page 0 with the wrapped size at its first record
    position. *)
Lemma readPage_loops_on_wrapped_size_witness :
  (forall fuel,
     readPage_loop fuel FDS_FIRSTFLASHPAGE true (fds_addr 0 4) 0
       st_wrapped_size = None)
  /\ readPage 0 true st_wrapped_size = None.
Proof.
  assert (Hp : BSP_FLASH_ADDRTOPAGE (fds_addr 0 4) = FDS_FIRSTFLASHPAGE)
    by (vm_compute; reflexivity).
  assert (Hu : dataHdr_Uid (flash st_wrapped_size) (fds_addr 0 4)
               < FDS_NUM_RECORDS) by (vm_compute; reflexivity).
  assert (Hs : dataHdr_Siz (flash st_wrapped_size) (fds_addr 0 4) = 65530
               \/ dataHdr_Siz (flash st_wrapped_size) (fds_addr 0 4)
                  = 65531) by (left; vm_compute; reflexivity).
  destruct (readPage_loops_on_wrapped_size FDS_FIRSTFLASHPAGE true
              (fds_addr 0 4) st_wrapped_size Hp Hu Hs) as (A & B).
  split; [exact A|].
  apply (B 0); vm_compute; reflexivity.
Defined.

(** The rotating write of [crafted]: the index entry is the write pointer
    of the filled store, in page 0. *)
Lemma write_indexes_entry_write_pointer_witness :
  exists st',
    write 0 crafted 256 st_filled = Some (FDS_OK, st')
    /\ rec_at (pRecords st') 0 = pWrite st_filled.
Proof.
  assert (Hi : InitDone st_filled = true) by (vm_compute; reflexivity).
  assert (Hl : (Z.to_nat 0 < length (pRecords st_filled))%nat)
    by (vm_compute; repeat constructor).
  assert (E : option_map fst (write 0 crafted 256 st_filled)
              = Some FDS_OK) by (vm_compute; reflexivity).
  destruct (write 0 crafted 256 st_filled) as [[r st']|] eqn:W;
    [|discriminate E].
  cbn [option_map fst] in E. injection E as ->.
  exists st'. split; [reflexivity|].
  exact (write_indexes_entry_write_pointer 0 crafted 256 st_filled st'
           Hi Hl W).
Defined.

(** A write of 256 bytes with 24 bytes left in page 0 and a header on
    page 1. *)
Lemma write_without_free_page_witness :
  write 0 (zeros 256) 256 st_next_used = Some (FDS_ERR, st_next_used).
Proof.
  assert (Hn : 0 < 256 <= FDS_MAX_DATABYTES)
    by (vm_compute; split; congruence).
  assert (Hu : 0 < FDS_NUM_RECORDS) by reflexivity.
  assert (Hp : let n' := if negb (256 mod 2 =? 0) then 256 - 1 else 256 in
               BSP_FLASH_ADDRTOPAGE (pWrite st_next_used)
               <> BSP_FLASH_ADDRTOPAGE
                    (pWrite st_next_used + 2 * ((4 + n' + 2) / 2)))
    by (vm_compute; discriminate).
  assert (Hf : getPageid (flash st_next_used)
                 (next_page (pWrite st_next_used)) <> 0xFFFF)
    by (vm_compute; discriminate).
  exact (write_without_free_page 0 (zeros 256) 256 st_next_used eq_refl
           Hn Hu Hp Hf).
Defined.

(** A rotation of the filled store for [uid] 1: the record of [uid] 0
    stays indexed in page 0. *)
Lemma switchPage_relocates_nothing_witness :
  exists r st',
    switchPage 1 st_filled = Some (r, st')
    /\ pRecords st' = pRecords st_filled.
Proof.
  assert (Hf : FDS_NUM_PAGES <= FDS_FIRSTFLASHPAGE)
    by (vm_compute; discriminate).
  assert (Hin : forall n, In n fds_uids ->
            rec_at (pRecords st_filled) n <> 0 ->
            FDS_FIRSTFLASHPAGE
            <= BSP_FLASH_ADDRTOPAGE (rec_at (pRecords st_filled) n)).
  { intros n [<- | [<- | [<- | [<- | []]]]] Hne;
      first [ vm_compute; discriminate
            | exfalso; apply Hne; vm_compute; reflexivity ]. }
  assert (E : option_map fst (switchPage 1 st_filled) = Some FDS_OK)
    by (vm_compute; reflexivity).
  destruct (switchPage 1 st_filled) as [[r st']|] eqn:W;
    [|discriminate E].
  exists r, st'. split; [reflexivity|].
  exact (switchPage_relocates_nothing 1 st_filled st' r Hf Hin W).
Defined.

(** The formatted store after a restart. *)
Lemma init_rebuilds_index_witness :
  init false (reboot st_formatted [9; 9; 9; 9])
  = Some (FDS_OK, st_formatted).
Proof.
  exact (init_rebuilds_index st_formatted [9; 9; 9; 9] dev_base_nonneg
           dev_page_size_pos st_formatted_store).
Defined.


(** The record of [uid] 0 of the filled store relocated in place. *)
Lemma relocate_copies_and_indexes_end_witness :
  exists st',
    relocate 0 st_filled = Some (FDS_OK, st')
    /\ read_bytes (flash st') (pWrite st_filled)
         (relocate_siz (flash st_filled) (rec_at (pRecords st_filled) 0))
       = read_bytes (flash st_filled) (rec_at (pRecords st_filled) 0)
           (relocate_siz (flash st_filled) (rec_at (pRecords st_filled) 0))
    /\ pWrite st'
       = pWrite st_filled
         + relocate_siz (flash st_filled) (rec_at (pRecords st_filled) 0)
    /\ rec_at (pRecords st') 0
       = pWrite st_filled
         + relocate_siz (flash st_filled) (rec_at (pRecords st_filled) 0).
Proof.
  assert (Hl : (Z.to_nat 0 < length (pRecords st_filled))%nat)
    by (vm_compute; repeat constructor).
  assert (E : option_map fst (relocate 0 st_filled) = Some FDS_OK)
    by (vm_compute; reflexivity).
  destruct (relocate 0 st_filled) as [[r st']|] eqn:W; [|discriminate E].
  cbn [option_map fst] in E. injection E as ->.
  exists st'. split; [reflexivity|].
  exact (relocate_copies_and_indexes_end nor_prog_stores 0 st_filled st'
           Hl W).
Defined.

(** A header with sequence number 7 on page 1 of the formatted store. *)
Lemma page_header_round_trip_witness :
  exists st',
    writePageHdr 1 7 st_formatted = Some (FDS_OK, st')
    /\ getPageid (flash st') 1 = u16 7
    /\ pWrite st'
       = BSP_FLASH_PAGETOADDR (u16 (1 + FDS_FIRSTFLASHPAGE)) + 4.
Proof.
  assert (E : option_map fst (writePageHdr 1 7 st_formatted)
              = Some FDS_OK) by (vm_compute; reflexivity).
  destruct (writePageHdr 1 7 st_formatted) as [[r st']|] eqn:W;
    [|discriminate E].
  cbn [option_map fst] in E. injection E as ->.
  exists st'. split; [reflexivity|].
  exact (page_header_round_trip nor_prog_stores 1 7 st_formatted st' W).
Defined.

(** A record for [uid] 1 on the filled store, and the record of
    [uid] 0. *)
Lemma write_keeps_other_records_witness :
  exists st',
    write 1 [1; 2; 3] 3 st_filled = Some (FDS_OK, st')
    /\ option_map fst (read 0 (Some (zeros 4)) 4 st')
       = option_map fst (read 0 (Some (zeros 4)) 4 st_filled).
Proof.
  assert (Hi : InitDone st_filled = true) by (vm_compute; reflexivity).
  assert (Hu : 0 <= 1 < FDS_NUM_RECORDS) by (unfold FDS_NUM_RECORDS; lia).
  assert (Hu' : 0 <= 0 < FDS_NUM_RECORDS) by (unfold FDS_NUM_RECORDS; lia).
  assert (Hne : 0 <> 1) by discriminate.
  assert (Hn : 0 < 3 <= FDS_MAX_DATABYTES)
    by (unfold FDS_MAX_DATABYTES; lia).
  assert (Hp : BSP_FLASH_ADDRTOPAGE (pWrite st_filled)
               = BSP_FLASH_ADDRTOPAGE (pWrite st_filled + record_span 3))
    by (vm_compute; reflexivity).
  assert (Hb : let p := rec_at (pRecords st_filled) 0 in
               p + 4 + dataHdr_Siz (flash st_filled) p <= pWrite st_filled)
    by (vm_compute; discriminate).
  assert (E : option_map fst (write 1 [1; 2; 3] 3 st_filled)
              = Some FDS_OK) by (vm_compute; reflexivity).
  destruct (write 1 [1; 2; 3] 3 st_filled) as [[r st']|] eqn:W;
    [|discriminate E].
  cbn [option_map fst] in E. injection E as ->.
  exists st'. split; [reflexivity|].
  exact (write_keeps_other_records nor_prog_stores 1 0 [1; 2; 3]
           (zeros 4) 3 4 st_filled st' Hi Hu Hu' Hne Hn Hp Hb W).
Defined.

(** A record of three bytes on the formatted store. *)
Lemma write_keeps_store_witness :
  exists st',
    write 2 [1; 2; 3] 3 st_formatted = Some (FDS_OK, st')
    /\ first_page_store st'
    /\ forall ram, init false (reboot st' ram) = Some (FDS_OK, st').
Proof.
  assert (Hu : 0 <= 2 < FDS_NUM_RECORDS) by (unfold FDS_NUM_RECORDS; lia).
  assert (Hn : 0 < 3 <= FDS_MAX_DATABYTES)
    by (unfold FDS_MAX_DATABYTES; lia).
  assert (Hp : BSP_FLASH_ADDRTOPAGE (pWrite st_formatted)
               = BSP_FLASH_ADDRTOPAGE (pWrite st_formatted + record_span 3))
    by (vm_compute; reflexivity).
  assert (E : option_map fst (write 2 [1; 2; 3] 3 st_formatted)
              = Some FDS_OK) by (vm_compute; reflexivity).
  destruct (write 2 [1; 2; 3] 3 st_formatted) as [[r st']|] eqn:W;
    [|discriminate E].
  cbn [option_map fst] in E. injection E as ->.
  exists st'. split; [reflexivity|].
  exact (write_keeps_store nor_prog_stores dev_base_nonneg dev_page_fits
           dev_region_fits 2 [1; 2; 3] 3 st_formatted st'
           st_formatted_store Hu Hn Hp W).
Defined.

(** [del(1)] on the formatted store. *)
Lemma del_keeps_store_witness :
  exists st',
    del 1 st_formatted = Some (FDS_OK, st')
    /\ first_page_store st'
    /\ rec_at (pRecords st') 1 = 0
    /\ forall ram, init false (reboot st' ram) = Some (FDS_OK, st').
Proof.
  assert (Hu : 0 <= 1) by lia.
  assert (Hp : BSP_FLASH_ADDRTOPAGE (pWrite st_formatted + 6) = first_page)
    by (vm_compute; reflexivity).
  assert (E : option_map fst (del 1 st_formatted) = Some FDS_OK)
    by (vm_compute; reflexivity).
  destruct (del 1 st_formatted) as [[r st']|] eqn:W; [|discriminate E].
  cbn [option_map fst] in E. injection E as ->.
  exists st'. split; [reflexivity|].
  exact (del_keeps_store nor_prog_stores dev_base_nonneg dev_page_fits
           dev_region_fits 1 st_formatted st' st_formatted_store Hu Hp W).
Defined.

(** [format] on the blank device. *)
Lemma format_gives_empty_store_witness :
  exists st',
    format blank = Some (FDS_OK, st')
    /\ first_page_store st'
    /\ pWrite st' = first_base + 4
    /\ pRecords st' = repeat 0 (Z.to_nat FDS_NUM_RECORDS).
Proof.
  exact (format_gives_empty_store nor_prog_stores dev_base_nonneg
           dev_page_fits dev_region_fits nor_erase_erased nor_erase_frame
           nor_prog_erased crc8_poly07_check blank).
Defined.

(** A record of three bytes on the formatted store. *)
Lemma write_in_page_succeeds_witness :
  exists st', write 2 [1; 2; 3] 3 st_formatted = Some (FDS_OK, st').
Proof.
  assert (Hu : 0 <= 2 < FDS_NUM_RECORDS) by (unfold FDS_NUM_RECORDS; lia).
  assert (Hn : 0 < 3 <= FDS_MAX_DATABYTES)
    by (unfold FDS_MAX_DATABYTES; lia).
  assert (Hp : BSP_FLASH_ADDRTOPAGE (pWrite st_formatted)
               = BSP_FLASH_ADDRTOPAGE (pWrite st_formatted + record_span 3))
    by (vm_compute; reflexivity).
  exact (write_in_page_succeeds nor_prog_stores dev_page_fits
           nor_prog_erased crc8_poly07_check 2 [1; 2; 3] 3 st_formatted
           st_formatted_store Hu Hn Hp).
Defined.

(** The rotation of the filled store: page 1 gets sequence number 1. *)
Lemma switchPage_numbers_next_page_witness :
  exists st',
    switchPage 1 st_filled = Some (FDS_OK, st')
    /\ getPageid (flash st') (next_page (pWrite st_filled))
       = u16 (wrapInc
                (getPageid (flash st_filled)
                   (u16 (BSP_FLASH_ADDRTOPAGE (pWrite st_filled)
                         - FDS_FIRSTFLASHPAGE))) 1 0xFFFF)
    /\ pWrite st'
       = BSP_FLASH_PAGETOADDR
           (u16 (next_page (pWrite st_filled) + FDS_FIRSTFLASHPAGE)) + 4.
Proof.
  assert (Hf : FDS_NUM_PAGES <= FDS_FIRSTFLASHPAGE)
    by (vm_compute; discriminate).
  assert (Hin : forall n, In n fds_uids ->
            rec_at (pRecords st_filled) n <> 0 ->
            FDS_FIRSTFLASHPAGE
            <= BSP_FLASH_ADDRTOPAGE (rec_at (pRecords st_filled) n)).
  { intros n [<- | [<- | [<- | [<- | []]]]] Hne;
      first [ vm_compute; discriminate
            | exfalso; apply Hne; vm_compute; reflexivity ]. }
  assert (E : option_map fst (switchPage 1 st_filled) = Some FDS_OK)
    by (vm_compute; reflexivity).
  destruct (switchPage 1 st_filled) as [[r st']|] eqn:W;
    [|discriminate E].
  cbn [option_map fst] in E. injection E as ->.
  exists st'. split; [reflexivity|].
  exact (switchPage_numbers_next_page nor_prog_stores dev_page_fits
           dev_region_fits nor_erase_frame 1 st_filled st' Hf Hin W).
Defined.

(** The first write of a fresh object, the memory at address [0] reading
    as zero. *)
Lemma write_on_fresh_object_witness :
  exists st',
    write 2 [1; 2; 3] 3 st_fresh_zero = Some (FDS_OK, st')
    /\ rec_at (pRecords st') 2 = 0
    /\ crc8_calc 0 (read_bytes (flash st') 0 (record_span 3)) = 0
    /\ (InitDone st' = true ->
        forall buf siz, read 2 buf siz st' = Some ((0, buf), st')).
Proof.
  assert (Hn : 0 < 3) by lia.
  assert (E : option_map fst (write 2 [1; 2; 3] 3 st_fresh_zero)
              = Some FDS_OK) by (vm_compute; reflexivity).
  destruct (write 2 [1; 2; 3] 3 st_fresh_zero) as [[r st']|] eqn:W;
    [|discriminate E].
  cbn [option_map fst] in E. injection E as ->.
  exists st'. split; [reflexivity|].
  exact (write_on_fresh_object 2 [1; 2; 3] 3 st_fresh_zero st' eq_refl
           Hn W).
Defined.

End MoreScenarioFacts.
